(** * Supply-chain environment wrapper: observation, reward and action
      translation of [examples/hello_world/supply_chain/env_wrapper.py].

    The Python class [SCEnvWrapper] is embedded shallowly:
    - Python numbers (int and float alike) are exact rationals [Q];
    - the per-agent raw state, a [dict] keyed by field name, is a
      [gmap string value];
    - every Python exception ([KeyError], [IndexError], [AttributeError],
      [TypeError], [ZeroDivisionError]) is the [None] of the option monad;
    - [self] is a record threaded explicitly through the methods that
      assign to its attributes;
    - the simulator ([env]), its snapshot lists and [numpy]/[scipy] numeric
      routines are collaborators: the former are fields of the record [Env],
      the latter two are section variables;
    - what [__init__] computes once ([facility_levels],
      [unit_2_facility_dict], the SKU catalogue) is held by the fields of
      [self]. *)

From Stdlib Require Import QArith Qround Lqa.
From stdpp Require Import gmap strings list fin_maps.

Local Open Scope string_scope.

(** ** Python helpers *)

Module Py.

(** [for x in xs: s = f(s, x)] where the body may raise. *)
Fixpoint foldM {S A : Type} (f : S → A → option S) (xs : list A) (s : S)
  : option S :=
  match xs with
  | [] => Some s
  | x :: xs' => s' ← f s x; foldM f xs' s'
  end.

(** [enumerate(xs)] *)
Definition enumerate {A : Type} (xs : list A) : list (nat * A) :=
  imap (λ i x, (i, x)) xs.

(** [l[i] = v] for a non-negative index: [IndexError] out of range. *)
Definition list_set {A : Type} (l : list A) (i : nat) (v : A)
  : option (list A) :=
  if decide (i < length l) then Some (<[i := v]> l) else None.

(** A [dict] whose iteration order is observed: keys in order of first
    insertion, each key once. *)
Fixpoint dict_set {V : Type} (d : list (nat * V)) (k : nat) (v : V)
  : list (nat * V) :=
  match d with
  | [] => [(k, v)]
  | (k', v') :: d' =>
      if decide (k' = k) then (k', v) :: d' else (k', v') :: dict_set d' k v
  end.

Fixpoint dict_get {V : Type} (d : list (nat * V)) (k : nat) : option V :=
  match d with
  | [] => None
  | (k', v') :: d' => if decide (k' = k) then Some v' else dict_get d' k
  end.

(** [{k: v for k, v in zip(ks, vs)}] *)
Definition dict_of_zip {V : Type} (ks : list nat) (vs : list V)
  : list (nat * V) :=
  foldl (λ d kv, dict_set d kv.1 kv.2) [] (zip ks vs).

(** [max(a, b)] and [min(a, b)] as the builtins choose: the first argument
    unless the second is strictly larger (smaller). *)
Definition max (a b : Q) : Q := if Qlt_le_dec a b then b else a.
Definition min (a b : Q) : Q := if Qlt_le_dec b a then b else a.

(** [x / d] for a divisor that is not zero.  On a zero divisor the
    outcome depends on the dividend, which the model does not tell apart:
    a Python number raises [ZeroDivisionError], a numpy scalar yields an
    infinity or a NaN.  The model gives no value there, and every statement
    about a quotient excludes the zero divisor. *)
Definition div (x d : Q) : option Q :=
  if Qeq_bool d 0 then None else Some (x / d)%Q.

(** The bounds of a signed 64-bit integer. *)
Definition INT64_MIN : Z := (- 2 ^ 63)%Z.
Definition INT64_MAX : Z := (2 ^ 63 - 1)%Z.

(** [.astype(np.int)], a conversion to a signed 64-bit integer: truncation
    toward zero, and [INT64_MIN] for a value whose truncation does not fit
    in 64 bits. *)
Definition astype_int (x : Q) : Q :=
  let t := if Qle_bool 0 x then Qfloor x else Qceiling x in
  inject_Z (if ((INT64_MIN <=? t) && (t <=? INT64_MAX))%Z
            then t else INT64_MIN).

(** Comparisons as booleans. *)
Definition ge (a b : Q) : bool := Qle_bool b a.
Definition le (a b : Q) : bool := Qle_bool a b.
Definition lt (a b : Q) : bool := negb (Qle_bool b a).
Definition gt (a b : Q) : bool := negb (Qle_bool a b).

End Py.

(** ** Data consumed from the simulator *)

(** A SKU description: the catalogue entries of [summary["skus"]], the
    per-facility entries of [facility["skus"]] and [agent_info.sku] are all
    read through these attributes. *)
Record Sku := {
  sku_id : nat;
  price : Q;
  cost : Q;
  service_level : Q;
  vlt : Q;
  sale_gamma : Q;
}.

(** [class UnitBaseInfo] *)
Record UnitBaseInfo := {
  unit_id : nat;
  node_index : nat;
  config : gmap string Q;
  summary : gmap string Q;
}.

(** [UnitBaseInfo.__getitem__(key, default=None)] *)
Definition UnitBaseInfo_getitem (u : UnitBaseInfo) (key : string) : option Q :=
  summary u !! key.

(** The value of [facility_levels[facility_id][product_id]]: membership of
    the keys "seller", "consumer", "manufacture" is the presence of the
    option. *)
Record ProductInfo := {
  skuproduct : UnitBaseInfo;
  seller : option UnitBaseInfo;
  consumer : option UnitBaseInfo;
  manufacture : option UnitBaseInfo;
}.

(** The value of [facility_levels[facility_id]]; the integer keys of the
    Python dict (one per product) are the map [products]. *)
Record FacilityLevel := {
  f_node_index : nat;
  f_config : gmap string Q;
  upstreams : gmap nat (list nat);
  f_skus : gmap nat Sku;
  storage : option UnitBaseInfo;
  distribution : option UnitBaseInfo;
  products : gmap nat ProductInfo;
}.

(** [AgentInfo] of the simulator. *)
Record AgentInfo := {
  a_id : nat;
  a_facility_id : nat;
  agent_type : nat;
  is_facility : bool;
  a_sku : option Sku;
}.

(** [env.metrics["facilities"][facility_id]] *)
Record FacilityMetrics := {
  fm_total_balance_sheet : Q;          (* total_balance_sheet.total() *)
  in_transit_orders : gmap nat Q;
  pending_order : option (gmap nat Q);
}.

(** [env.metrics["products"][agent_id]] *)
Record ProductMetrics := {
  pm_total_balance_sheet : Q;          (* total_balance_sheet.total() *)
  pm_sale_mean : Q;
  pm_sale_std : Q;
  pending_order_daily : list Q;
}.

(** [env.metrics] *)
Record Metrics := {
  max_sources_per_facility : nat;
  max_price : Q;
  step_rewards : gmap nat Q;
  step_balance_sheet : gmap nat Q;
  m_facilities : gmap nat FacilityMetrics;
  m_products : gmap nat ProductMetrics;
}.

(** [env.configs.settings] *)
Record Settings := {
  global_reward_weight_consumer : Q;
  constraint_state_hist_len : nat;
  sale_hist_len : nat;
  consumption_hist_len : nat;
  pending_order_len : nat;
}.

(** The simulator as seen during one call: current tick, metrics, settings
    and the snapshot queries the wrapper issues (each returns the flattened
    buffer of the query). *)
Record Env := {
  tick : Z;
  metrics : Metrics;
  settings : Settings;
  (* snapshot_list["storage"][tick:index:"product_list"] *)
  ss_storage_product_list : Z → nat → list nat;
  (* snapshot_list["storage"][tick:index:"product_number"] *)
  ss_storage_product_number : Z → nat → list Q;
  (* snapshot_list["consumer"][ticks:index:"latest_consumptions"] *)
  ss_consumer_latest_consumptions : list Z → nat → list Q;
  (* snapshot_list["seller"][tick:index:("total_demand")] *)
  ss_seller_total_demand : Z → nat → list Q;
  (* snapshot_list["seller"][ticks:index:("sold", "demand")] *)
  ss_seller_sold_demand : list Z → nat → list Q;
  (* snapshot_list["distribution"][tick:id:("remaining_order_quantity",
     "remaining_order_number")] *)
  ss_distribution : Z → nat → list Q;
}.

(** An entry of the side table [state_info]. *)
Record StateInfo := {
  si_product_id : nat;
  si_source_id : nat;
}.

(** [self]: the attributes of [SCEnvWrapper].  [state_info] is read by
    [get_action] but assigned nowhere in the class, hence optional. *)
Record SCEnvWrapper := {
  env : Env;
  _agent_types : list nat;
  _skus : list Sku;                       (* _summary["skus"].values() *)
  _agent_list : list AgentInfo;
  _cur_metrics : Metrics;
  _cur_facility_storage_products : list (nat * Q);
  _cur_facility_storage_product_mapping : list (nat * nat);
  _max_sources_per_facility : nat;
  facility_levels : gmap nat FacilityLevel;
  unit_2_facility_dict : gmap nat nat;
  state_info : option (gmap nat StateInfo);
}.

(** [self._sku_number = len(self._summary["skus"]) + 1] *)
Definition _sku_number (self : SCEnvWrapper) : nat := length (_skus self) + 1.

(** ** The raw state record *)

Inductive value :=
| VNone
| VNum (x : Q)
| VList (l : list Q)
| VConfig (c : gmap string Q)
| VSku (s : option Sku).

Abbreviation RawState := (gmap string value).

(** Reading [state[key]] where a number is needed. *)
Definition get_num (state : RawState) (key : string) : option Q :=
  match state !! key with
  | Some (VNum x) => Some x
  | _ => None
  end.

(** Reading [state[key]] where a list is indexed. *)
Definition get_list (state : RawState) (key : string) : option (list Q) :=
  match state !! key with
  | Some (VList l) => Some l
  | _ => None
  end.

(** [state[key][i] = v] *)
Definition state_list_set (state : RawState) (key : string) (i : nat) (v : Q)
  : option RawState :=
  l ← get_list state key;
  l' ← Py.list_set l i v;
  Some (<[key := VList l']> state).

(** The boolean flags are stored as the integers 0 and 1. *)
Definition zeros (n : nat) : list Q := replicate n 0%Q.
Definition ones (n : nat) : list Q := replicate n 1%Q.

(** Functional update of one attribute of [self]. *)
Definition set_cur_metrics (self : SCEnvWrapper) (m : Metrics) : SCEnvWrapper :=
  {| env := env self; _agent_types := _agent_types self; _skus := _skus self;
     _agent_list := _agent_list self; _cur_metrics := m;
     _cur_facility_storage_products := _cur_facility_storage_products self;
     _cur_facility_storage_product_mapping :=
       _cur_facility_storage_product_mapping self;
     _max_sources_per_facility := _max_sources_per_facility self;
     facility_levels := facility_levels self;
     unit_2_facility_dict := unit_2_facility_dict self;
     state_info := state_info self |}.

Definition set_cur_storage (self : SCEnvWrapper)
    (ps : list (nat * Q)) (mp : list (nat * nat)) : SCEnvWrapper :=
  {| env := env self; _agent_types := _agent_types self; _skus := _skus self;
     _agent_list := _agent_list self; _cur_metrics := _cur_metrics self;
     _cur_facility_storage_products := ps;
     _cur_facility_storage_product_mapping := mp;
     _max_sources_per_facility := _max_sources_per_facility self;
     facility_levels := facility_levels self;
     unit_2_facility_dict := unit_2_facility_dict self;
     state_info := state_info self |}.

(** ** Feature extractors *)

Definition atoms_keys : list string :=
  ["stock_constraint"; "is_replenish_constraint"; "low_profit";
   "low_stock_constraint"; "out_of_stock"].

Definition flag (b : bool) : Q := if b then 1%Q else 0%Q.

Definition _add_global_features (self : SCEnvWrapper) (state : RawState)
  : RawState :=
  <["global_time" := VNum (inject_Z (tick (env self)))]> state.

Definition _add_facility_features (self : SCEnvWrapper) (state : RawState)
    (agent_info : AgentInfo) : option RawState :=
  let state := <["facility_type" :=
    VList (map (λ i, flag (bool_decide (i = agent_type agent_info)))
               (seq 0 (length (_agent_types self))))]> state in
  let state := <["facility" := VNone]> state in
  let hist := constraint_state_hist_len (settings (env self)) in
  let state := <["is_accepted" := VList (zeros hist)]> state in
  let state := <["constraint_idx" := VList [0%Q]]> state in
  let state :=
    foldl (λ st atom_name, <[atom_name := VList (ones hist)]> st)
          state atoms_keys in
  let state := <["facility_id" := VList (zeros (_sku_number self))]> state in
  facility ← facility_levels self !! a_facility_id agent_info;
  state ←
    (if is_facility agent_info then
       let state := <["facility_info" := VConfig (f_config facility)]> state in
       let state := <["sku_info" := VSku None]> state in
       metrics ← m_facilities (_cur_metrics self) !! a_facility_id agent_info;
       Some (<["is_positive_balance" :=
               VNum (flag (Py.gt (fm_total_balance_sheet metrics) 0))]> state)
     else
       let state := <["facility_info" := VConfig (f_config facility)]> state in
       let state := <["sku_info" := VSku (a_sku agent_info)]> state in
       metrics ← m_products (_cur_metrics self) !! a_id agent_info;
       let state := <["is_positive_balance" :=
               VNum (flag (Py.gt (pm_total_balance_sheet metrics) 0))]> state in
       sku ← a_sku agent_info;
       state_list_set state "facility_id" (sku_id sku) 1%Q);
  Some (<["echelon_level" := VNum 0%Q]> state).

Definition _add_storage_features (self : SCEnvWrapper) (state : RawState)
    (agent_info : AgentInfo) : option RawState :=
  facility ← facility_levels self !! a_facility_id agent_info;
  let state := <["storage_levels" := VList (zeros (_sku_number self))]> state in
  st ← storage facility;
  capacity ← config st !! "capacity";
  let state := <["storage_capacity" := VNum capacity]> state in
  let state := <["storage_utilization" := VNum 0%Q]> state in
  Py.foldM (λ state '(product_id, product_number),
      state ← state_list_set state "storage_levels" product_id product_number;
      u ← get_num state "storage_utilization";
      Some (<["storage_utilization" := VNum (u + product_number)%Q]> state))
    (_cur_facility_storage_products self) state.

Definition _add_bom_features (self : SCEnvWrapper) (state : RawState)
    (agent_info : AgentInfo) : option RawState :=
  let state := <["bom_inputs" := VList (zeros (_sku_number self))]> state in
  let state := <["bom_outputs" := VList (zeros (_sku_number self))]> state in
  if negb (is_facility agent_info) then
    sku ← a_sku agent_info;
    state ← state_list_set state "bom_inputs" (sku_id sku) 1%Q;
    state_list_set state "bom_outputs" (sku_id sku) 1%Q
  else Some state.

(** The guarded write shared by the two per-source-per-sku loops:
    [for j, sku in enumerate(sku_list.values()): if sku.id == own: ...] *)
Definition per_sku_loop (sku_list : list Sku) (own : nat)
    (body : RawState → nat → Sku → option RawState) (state : RawState)
  : option RawState :=
  Py.foldM (λ state '(j, sku),
      if decide (sku_id sku = own) then body state j sku else Some state)
    (Py.enumerate sku_list) state.

Definition _add_vlt_features (self : SCEnvWrapper) (state : RawState)
    (agent_info : AgentInfo) : option RawState :=
  let sku_list := _skus self in
  facility ← facility_levels self !! a_facility_id agent_info;
  let current_source_list :=
    match a_sku agent_info with
    | Some sku => default [] (upstreams facility !! sku_id sku)
    | None => []
    end in
  let state := <["vlt" :=
    VList (zeros (_max_sources_per_facility self * _sku_number self))]> state in
  let state := <["max_vlt" := VNum 0%Q]> state in
  if negb (is_facility agent_info) then
    own ← a_sku agent_info;
    product_info ← products facility !! sku_id own;
    if bool_decide (is_Some (consumer product_info))
       && bool_decide (0 < length current_source_list) then
      let state := <["max_vlt" :=
        match UnitBaseInfo_getitem (skuproduct product_info) "max_vlt" with
        | Some x => VNum x
        | None => VNone
        end]> state in
      Py.foldM (λ state '(i, source),
          per_sku_loop sku_list (sku_id own) (λ state j sku,
              fsku ← f_skus facility !! sku_id sku;
              state_list_set state "vlt" (i * length sku_list + j + 1)
                             (vlt fsku))
            state)
        (Py.enumerate current_source_list) state
    else Some state
  else Some state.

(** [[self.env.tick - i for i in range(n)]] *)
Definition window (t : Z) (n : nat) : list Z :=
  map (λ i, (t - Z.of_nat i)%Z) (seq 0 n).

(** [.reshape(2, -1)]: the two rows of the flat buffer. *)
Definition reshape2 (l : list Q) : option (list Q * list Q) :=
  if Nat.even (length l)
  then Some (take (length l / 2) l, drop (length l / 2) l)
  else None.

Definition _add_sale_features (self : SCEnvWrapper) (state : RawState)
    (agent_info : AgentInfo) : option RawState :=
  let state := <["sale_mean" := VNum 1%Q]> state in
  let state := <["sale_std" := VNum 1%Q]> state in
  let state := <["sale_gamma" := VNum 1%Q]> state in
  let state := <["service_level" := VNum 0.95%Q]> state in
  let state := <["total_backlog_demand" := VNum 0%Q]> state in
  let settings := settings (env self) in
  let hist_len := sale_hist_len settings in
  let consumption_hist_len := consumption_hist_len settings in
  let state := <["sale_hist" := VList (zeros hist_len)]> state in
  let state := <["backlog_demand_hist" := VList (zeros hist_len)]> state in
  let state :=
    <["consumption_hist" := VList (zeros consumption_hist_len)]> state in
  let state :=
    <["pending_order" := VList (zeros (pending_order_len settings))]> state in
  if is_facility agent_info then Some state else
  product_metrics ← m_products (_cur_metrics self) !! a_id agent_info;
  sku ← a_sku agent_info;
  let state := <["service_level" := VNum (service_level sku)]> state in
  let state := <["sale_mean" := VNum (pm_sale_mean product_metrics)]> state in
  sale_mean ← state !! "sale_mean";
  let state := <["sale_gamma" := sale_mean]> state in
  let state := <["sale_std" := VNum (pm_sale_std product_metrics)]> state in
  facility ← facility_levels self !! a_facility_id agent_info;
  product_info ← products facility !! sku_id sku;
  let state :=
    match consumer product_info with
    | Some c =>
        let consumer_index := node_index c in
        let consumption_hist :=
          ss_consumer_latest_consumptions (env self)
            (window (tick (env self)) consumption_hist_len) consumer_index in
        let state := <["consumption_hist" := VList consumption_hist]> state in
        <["pending_order" := VList (pending_order_daily product_metrics)]> state
    | None => state
    end in
  match seller product_info with
  | Some s =>
      let seller_index := node_index s in
      let single_states :=
        map Py.astype_int
            (ss_seller_total_demand (env self) (tick (env self)) seller_index) in
      hist_states ← reshape2
        (map Py.astype_int
             (ss_seller_sold_demand (env self)
                (window (tick (env self)) hist_len) seller_index));
      total ← single_states !! 0%nat;
      let state := <["total_backlog_demand" := VNum total]> state in
      let state := <["sale_hist" := VList hist_states.1]> state in
      let state := <["backlog_demand_hist" := VList hist_states.2]> state in
      fsku ← f_skus facility !! sku_id sku;
      Some (<["sale_gamma" := VNum (sale_gamma fsku)]> state)
  | None => Some state
  end.

Definition _add_distributor_features (self : SCEnvWrapper) (state : RawState)
    (agent_info : AgentInfo) : option RawState :=
  let state := <["distributor_in_transit_orders" := VNum 0%Q]> state in
  let state := <["distributor_in_transit_orders_qty" := VNum 0%Q]> state in
  facility ← facility_levels self !! a_facility_id agent_info;
  match distribution facility with
  | Some d =>
      let dist_states :=
        map Py.astype_int
            (ss_distribution (env self) (tick (env self)) (unit_id d)) in
      orders ← dist_states !! 1%nat;
      let state := <["distributor_in_transit_orders" := VNum orders]> state in
      qty ← dist_states !! 0%nat;
      Some (<["distributor_in_transit_orders_qty" := VNum qty]> state)
  | None => Some state
  end.

Definition _add_price_features (self : SCEnvWrapper) (state : RawState)
    (agent_info : AgentInfo) : option RawState :=
  let state := <["max_price" := VNum (max_price (_cur_metrics self))]> state in
  let state := <["sku_price" := VNum 0%Q]> state in
  let state := <["sku_cost" := VNum 0%Q]> state in
  if negb (is_facility agent_info) then
    sku ← a_sku agent_info;
    let state := <["sku_price" := VNum (price sku)]> state in
    Some (<["sku_cost" := VNum (cost sku)]> state)
  else Some state.

(** ** Consumer features, state assembly and serialization *)

Section Wrapper.

(** [numpy.sqrt] and [scipy.stats.norm.ppf] (the standard-normal quantile
    function) are library routines outside the repository. *)
Variable np_sqrt : Q → Q.
Variable norm_ppf : Q → Q.

Definition _add_consumer_features (self : SCEnvWrapper) (state : RawState)
    (agent_info : AgentInfo) : option RawState :=
  let state := <["consumer_source_export_mask" :=
    VList (zeros (_max_sources_per_facility self * _sku_number self))]>
    state in
  let state :=
    <["consumer_source_inventory" := VList (zeros (_sku_number self))]>
    state in
  let state :=
    <["consumer_in_transit_orders" := VList (zeros (_sku_number self))]>
    state in
  let state := <["inventory_in_stock" := VNum 0%Q]> state in
  let state := <["inventory_in_transit" := VNum 0%Q]> state in
  let state := <["inventory_in_distribution" := VNum 0%Q]> state in
  let state := <["inventory_estimated" := VNum 0%Q]> state in
  let state := <["inventory_rop" := VNum 0%Q]> state in
  let state := <["is_over_stock" := VNum 0%Q]> state in
  let state := <["is_out_of_stock" := VNum 0%Q]> state in
  let state := <["is_below_rop" := VNum 0%Q]> state in
  if is_facility agent_info then Some state else
  facility ← facility_levels self !! a_facility_id agent_info;
  own ← a_sku agent_info;
  product_info ← products facility !! sku_id own;
  if negb (bool_decide (is_Some (consumer product_info))) then Some state else
  let source_list := default [] (upstreams facility !! sku_id own) in
  if bool_decide (length source_list = 0) then Some state else
  let sku_list := _skus self in
  state ← Py.foldM (λ state '(i, source),
      per_sku_loop sku_list (sku_id own) (λ state j sku,
          src ← facility_levels self !! source;
          ssku ← f_skus src !! sku_id sku;
          state_list_set state "consumer_source_export_mask"
                         (i * length sku_list + j + 1) (vlt ssku))
        state)
    (Py.enumerate source_list) state;
  fmetrics ← m_facilities (_cur_metrics self) !! a_facility_id agent_info;
  let in_transit_orders := in_transit_orders fmetrics in
  state ← Py.foldM (λ state '(i, sku),
      l ← get_list state "consumer_in_transit_orders";
      cur ← l !! sku_id sku;
      add ← in_transit_orders !! sku_id sku;
      state_list_set state "consumer_in_transit_orders" (sku_id sku)
                     (cur + add)%Q)
    (Py.enumerate sku_list) state;
  in_stock ← Py.dict_get (_cur_facility_storage_products self) (sku_id own);
  let state := <["inventory_in_stock" := VNum in_stock]> state in
  l ← get_list state "consumer_in_transit_orders";
  in_transit ← l !! sku_id own;
  let state := <["inventory_in_transit" := VNum in_transit]> state in
  fmetrics ← m_facilities (_cur_metrics self) !! a_facility_id agent_info;
  state ←
    match pending_order fmetrics with
    | Some pending_order =>
        x ← pending_order !! sku_id own;
        Some (<["inventory_in_distribution" := VNum x]> state)
    | None => Some state
    end;
  in_stock ← get_num state "inventory_in_stock";
  in_transit ← get_num state "inventory_in_transit";
  in_distribution ← get_num state "inventory_in_distribution";
  let state := <["inventory_estimated" :=
    VNum (in_stock + in_transit - in_distribution)%Q]> state in
  estimated ← get_num state "inventory_estimated";
  capacity ← get_num state "storage_capacity";
  let state :=
    if Py.ge estimated (0.5 * capacity)%Q
    then <["is_over_stock" := VNum 1%Q]> state else state in
  estimated ← get_num state "inventory_estimated";
  let state :=
    if Py.le estimated 0%Q
    then <["is_out_of_stock" := VNum 1%Q]> state else state in
  max_vlt ← get_num state "max_vlt";
  sale_mean ← get_num state "sale_mean";
  sale_std ← get_num state "sale_std";
  service_level ← get_num state "service_level";
  let state := <["inventory_rop" :=
    VNum (max_vlt * sale_mean
          + np_sqrt max_vlt * sale_std * norm_ppf service_level)%Q]> state in
  estimated ← get_num state "inventory_estimated";
  rop ← get_num state "inventory_rop";
  Some (if Py.lt estimated rop
        then <["is_below_rop" := VNum 1%Q]> state else state).

Definition _state (self : SCEnvWrapper) (agent_info : AgentInfo)
  : option RawState :=
  let state : RawState := ∅ in
  state ← _add_facility_features self state agent_info;
  state ← _add_storage_features self state agent_info;
  state ← _add_bom_features self state agent_info;
  state ← _add_distributor_features self state agent_info;
  state ← _add_sale_features self state agent_info;
  state ← _add_vlt_features self state agent_info;
  state ← _add_consumer_features self state agent_info;
  _add_price_features self state agent_info.

(** *** Serialization *)

Definition keys_in_state : list (option string * list string) :=
  [ (None, ["is_over_stock"; "is_out_of_stock"; "is_below_rop";
            "constraint_idx"; "is_accepted"; "consumption_hist"]);
    (Some "storage_capacity", ["storage_utilization"]);
    (Some "sale_gamma", ["sale_std"; "sale_hist"; "pending_order";
                         "inventory_in_stock"; "inventory_in_transit";
                         "inventory_estimated"; "inventory_rop"]);
    (Some "max_price", ["sku_price"; "sku_cost"]) ].

(** [if not isinstance(vals, list): vals = [vals]]; only numbers and lists
    of numbers can be laid out in the numeric result array. *)
Definition as_vals (v : value) : option (list Q) :=
  match v with
  | VList l => Some l
  | VNum x => Some [x]
  | _ => None
  end.

(** [max(0.0, min(100.0, x / (ref + 0.01)))] *)
Definition normalize (ref x : Q) : option Q :=
  y ← Py.div x (ref + 0.01)%Q;
  Some (Py.max 0%Q (Py.min 100%Q y)).

(** The body of the innermost loop: the values one field contributes. *)
Definition serialize_field (agent_raw_state : RawState)
    (norm : option string) (field : string) : option (list Q) :=
  v ← agent_raw_state !! field;
  vals ← as_vals v;
  match norm with
  | Some norm =>
      mapM (λ x, ref ← get_num agent_raw_state norm; normalize ref x) vals
  | None => Some vals
  end.

Definition serialize_agent (agent_raw_state : RawState) : option (list Q) :=
  Py.foldM (λ result '(norm, fields),
      Py.foldM (λ result field,
          vals ← serialize_field agent_raw_state norm field;
          Some (result ++ vals)%list)
        fields result)
    keys_in_state [].

(** [for k, v in d.items(): out[k] = f(k, v)] where [f] may raise. *)
Definition dict_mapM_key {A B : Type} (f : nat → A → option B)
    (d : gmap nat A) : option (gmap nat B) :=
  map_fold (λ (k : nat) (a : A) (acc : option (gmap nat B)),
              out ← acc; b ← f k a; Some (<[k := b]> out))
           (Some ∅) d.

Definition dict_mapM {A B : Type} (f : A → option B) (d : gmap nat A)
  : option (gmap nat B) :=
  dict_mapM_key (λ _, f) d.

(** The two-role dictionaries [{"consumer": {...}, "producer": {...}}]. *)
Record ByRole (A : Type) := {
  role_consumer : gmap nat A;
  role_producer : gmap nat A;
}.
Arguments role_consumer {A} _.
Arguments role_producer {A} _.

Definition _serialize_state (state : ByRole RawState)
  : option (ByRole (list Q)) :=
  c ← dict_mapM serialize_agent (role_consumer state);
  p ← dict_mapM serialize_agent (role_producer state);
  Some {| role_consumer := c; role_producer := p |}.

(** *** State of all agents *)

(** The body of the loop over [self._agent_list]: refresh the storage
    cache of [self], build the agent's record, store it under both roles. *)
Definition _get_state_step (acc : SCEnvWrapper * ByRole RawState)
    (agent_info : AgentInfo) : option (SCEnvWrapper * ByRole RawState) :=
  let '(self, state) := acc in
  facility ← facility_levels self !! a_facility_id agent_info;
  st ← storage facility;
  let storage_index := node_index st in
  let storage_product_list :=
    ss_storage_product_list (env self) (tick (env self)) storage_index in
  let storage_product_number :=
    map Py.astype_int
        (ss_storage_product_number (env self) (tick (env self))
                                   storage_index) in
  let self := set_cur_storage self
    (Py.dict_of_zip storage_product_list storage_product_number)
    (foldl (λ d '(i, product_id), Py.dict_set d product_id i) []
           (Py.enumerate storage_product_list)) in
  f_state ← _state self agent_info;
  let f_state := _add_global_features self f_state in
  Some (self,
        {| role_consumer := <[a_id agent_info := f_state]> (role_consumer state);
           role_producer := <[a_id agent_info := f_state]> (role_producer state)
        |}).

(** The record of one agent, as the loop body above builds it:
    [f_state = self._state(agent_info);
     self._add_global_features(f_state)]. *)
Definition build_agent_state (self : SCEnvWrapper) (a : AgentInfo)
  : option RawState :=
  f_state ← _state self a;
  Some (_add_global_features self f_state).

Definition _get_state (self : SCEnvWrapper)
  : option (SCEnvWrapper * ByRole (list Q)) :=
  let self := set_cur_metrics self (metrics (env self)) in
  let state := {| role_consumer := ∅; role_producer := ∅ |} in
  '(self, state) ← Py.foldM _get_state_step (_agent_list self) (self, state);
  result ← _serialize_state state;
  Some (self, result).

Definition get_state (self : SCEnvWrapper) (event : unit)
  : option (SCEnvWrapper * ByRole (list Q)) :=
  _get_state self.

(** *** Rewards *)

(** [for k, v in d.items(): out[k] = v] *)
Definition dict_copy (d : gmap nat Q) : gmap nat Q :=
  map_fold (λ (k : nat) (v : Q) (out : gmap nat Q), <[k := v]> out) ∅ d.

Definition get_reward (self : SCEnvWrapper) (tick : option Z)
  : option (ByRole Q) :=
  let step_rewards : gmap nat Q := step_rewards (_cur_metrics self) in
  let step_balance_sheet : gmap nat Q :=
    step_balance_sheet (_cur_metrics self) in
  let wc : Q := global_reward_weight_consumer (settings (env self)) in
  parent_facility_balance ←
    dict_mapM_key (λ (f_id : nat) (sheet : Q),
        match unit_2_facility_dict self !! f_id with
        | Some facility_id => step_balance_sheet !! facility_id
        | None => Some sheet
        end)
      step_balance_sheet;
  consumer_reward_by_facility ←
    dict_mapM_key (λ (f_id : nat) (reward : Q),
        parent ← (parent_facility_balance : gmap nat Q) !! f_id;
        Some (wc * parent + (1 - wc) * reward)%Q)
      step_balance_sheet;
  let producer := dict_copy step_balance_sheet in
  let consumer := dict_copy consumer_reward_by_facility in
  Some {| role_consumer := consumer; role_producer := producer |}.

(** *** Actions *)

(** The action tuples of [maro.simulator.scenarios.supply_chain.actions],
    with their arguments in the order the wrapper passes them. *)
Inductive EnvAction :=
| ConsumerAction (agent_id product_id source_id : nat) (quantity : Q)
                 (multiplier : Q)
| ManufactureAction (agent_id : nat) (production_rate : Q).

Definition get_action (self : SCEnvWrapper) (action_by_agent : gmap nat Q)
  : option (gmap nat EnvAction) :=
  map_fold (λ (agent_id : nat) (action : Q)
              (acc : option (gmap nat EnvAction)),
      env_action ← acc;
      state_info ← state_info self;
      if bool_decide (is_Some (state_info !! agent_id)) then
        info ← state_info !! agent_id;
        let pd_id := si_product_id info in
        let sr_id := si_source_id info in
        Some (<[agent_id :=
                ConsumerAction agent_id pd_id sr_id action 1%Q]> env_action)
      else
        Some (<[agent_id := ManufactureAction agent_id action]> env_action))
    (Some ∅) action_by_agent.

End Wrapper.

Arguments role_consumer {A} _.
Arguments role_producer {A} _.

(** * A sample topology

    Facility 1 supplies SKU 1 to facility 2.  Facility 2 (storage capacity
    100) holds a product unit for SKU 1 with a consumer and a seller;
    facility 1 holds a product unit for SKU 1 with a manufacture unit only. *)

Module Sample.

Definition sku1 : Sku :=
{| sku_id := 1; price := 10; cost := 5; service_level := 0.95; vlt := 3;
   sale_gamma := 7 |}.

Definition sku2 : Sku :=
{| sku_id := 2; price := 20; cost := 8; service_level := 0.9; vlt := 2;
   sale_gamma := 9 |}.

(** SKU 1 as facility 1 configures it. *)
Definition sku1_at_supplier : Sku :=
{| sku_id := 1; price := 10; cost := 5; service_level := 0.95; vlt := 5;
   sale_gamma := 7 |}.

Definition mk_unit (i n : nat) (c s : gmap string Q) : UnitBaseInfo :=
{| unit_id := i; node_index := n; config := c; summary := s |}.

Definition supply_bundle : ProductInfo :=
{| skuproduct := mk_unit 22 0 ∅ {[ "max_vlt" := 1%Q ]};
   seller := None; consumer := None;
   manufacture := Some (mk_unit 23 0 ∅ ∅) |}.

Definition supplier : FacilityLevel :=
{| f_node_index := 0; f_config := ∅; upstreams := ∅;
   f_skus := {[ 1 := sku1_at_supplier ]};
   storage := Some (mk_unit 20 1 {[ "capacity" := 200%Q ]} ∅);
   distribution := Some (mk_unit 21 0 ∅ ∅);
   products := {[ 1 := supply_bundle ]} |}.

Definition retail_consumer : UnitBaseInfo := mk_unit 12 0 ∅ ∅.

Definition retail_bundle : ProductInfo :=
{| skuproduct := mk_unit 11 1 ∅ {[ "max_vlt" := 4%Q ]};
   seller := Some (mk_unit 13 0 ∅ ∅);
   consumer := Some retail_consumer;
   manufacture := None |}.

Definition retailer : FacilityLevel :=
{| f_node_index := 1; f_config := ∅; upstreams := {[ 1 := [1] ]};
   f_skus := {[ 1 := sku1 ]};
   storage := Some (mk_unit 10 0 {[ "capacity" := 100%Q ]} ∅);
   distribution := None;
   products := {[ 1 := retail_bundle ]} |}.

Definition sample_metrics : Metrics :=
{| max_sources_per_facility := 1; max_price := 20; step_rewards := ∅;
   step_balance_sheet := {[ 2 := 1000%Q; 11 := 200%Q ]};
   m_facilities :=
     {[ 1 := {| fm_total_balance_sheet := 5;
                in_transit_orders := {[ 1 := 0%Q; 2 := 0%Q ]};
                pending_order := Some {[ 1 := 2%Q ]} |};
        2 := {| fm_total_balance_sheet := 1000;
                in_transit_orders := {[ 1 := 6%Q; 2 := 0%Q ]};
                pending_order := None |} ]};
   m_products :=
     {[ 11 := {| pm_total_balance_sheet := 200; pm_sale_mean := 3;
                 pm_sale_std := 2; pending_order_daily := [1%Q; 2%Q] |};
        22 := {| pm_total_balance_sheet := -3; pm_sale_mean := 3;
                 pm_sale_std := 2; pending_order_daily := [0%Q; 0%Q] |} ]}
|}.

Definition sample_settings : Settings :=
{| global_reward_weight_consumer := 0.5; constraint_state_hist_len := 2;
   sale_hist_len := 3; consumption_hist_len := 2; pending_order_len := 2 |}.

Definition sample_env : Env :=
{| tick := 5; metrics := sample_metrics; settings := sample_settings;
   ss_storage_product_list := λ _ _, [1; 2];
   ss_storage_product_number :=
     λ _ i, if decide (i = 0) then [30%Q; 4%Q] else [50%Q; 0%Q];
   ss_consumer_latest_consumptions := λ ts _, map (λ _, 1%Q) ts;
   ss_seller_total_demand := λ _ _, [9%Q];
   ss_seller_sold_demand :=
     λ ts _, (map (λ _, 2%Q) ts ++ map (λ _, 3%Q) ts)%list;
   ss_distribution := λ _ _, [7%Q; 1%Q] |}.

Definition facility_agent : AgentInfo :=
{| a_id := 2; a_facility_id := 2; agent_type := 0; is_facility := true;
   a_sku := None |}.

(** The product agent of facility 2: consumer, seller, one upstream source. *)
Definition retail_agent : AgentInfo :=
{| a_id := 11; a_facility_id := 2; agent_type := 1; is_facility := false;
   a_sku := Some sku1 |}.

(** The product agent of facility 1: no consumer sub-unit. *)
Definition supply_agent : AgentInfo :=
{| a_id := 22; a_facility_id := 1; agent_type := 1; is_facility := false;
   a_sku := Some sku1_at_supplier |}.

(** The wrapper after [__init__]. *)
Definition fresh_self : SCEnvWrapper :=
{| env := sample_env; _agent_types := [0; 1]; _skus := [sku1; sku2];
   _agent_list := [facility_agent; retail_agent; supply_agent];
   _cur_metrics := sample_metrics;
   _cur_facility_storage_products := [];
   _cur_facility_storage_product_mapping := [];
   _max_sources_per_facility := 1;
   facility_levels := {[ 1 := supplier; 2 := retailer ]};
   unit_2_facility_dict :=
     {[ 10 := 2; 11 := 2; 12 := 2; 13 := 2;
        20 := 1; 21 := 1; 22 := 1; 23 := 1 ]};
   state_info := None |}.

(** The wrapper while the state of an agent of facility 2 is built. *)
Definition sample_self : SCEnvWrapper :=
set_cur_storage fresh_self [(1, 30%Q); (2, 4%Q)] [(1, 0); (2, 1)].

(** Stand-ins for [numpy.sqrt] (exact on perfect squares) and for
  [scipy.stats.norm.ppf] (its value at 0.95, to three decimals). *)
Definition sample_sqrt (x : Q) : Q := inject_Z (Z.sqrt (Qfloor x)).
Definition sample_ppf (x : Q) : Q := 1.645%Q.

End Sample.

(** * Verification *)

(** ** Reasoning about the option monad and loops *)

Lemma bind_Some_inv {A B} (m : option A) (f : A → option B) (y : B) :
  m ≫= f = Some y → ∃ x, m = Some x ∧ f x = Some y.
Proof. destruct m; simpl; eauto. discriminate. Qed.

Ltac inv_bind H :=
  let x := fresh "x" in
  let E := fresh "E" in
  apply bind_Some_inv in H as (x & E & H).

(** Lookups through a chain of inserts with literal keys. *)
Ltac str_ne := apply String.eqb_neq; vm_compute; reflexivity.

Ltac lk :=
  repeat first [ rewrite lookup_insert_eq | rewrite lookup_insert_ne by str_ne ].

Ltac split_notin H :=
  repeat (apply not_elem_of_cons in H as [? H]).

Lemma foldM_frame {S A} (R : S → S → Prop) `{!PreOrder R}
    (f : S → A → option S) (xs : list A) :
  (∀ s x s', f s x = Some s' → R s s') →
  ∀ s s', Py.foldM f xs s = Some s' → R s s'.
Proof.
  intros Hf. induction xs as [|x xs IH]; simpl; intros s s' H.
  - by simplify_eq.
  - inv_bind H. etrans; eauto.
Qed.

(** Total-correctness rule for a loop with an invariant. *)
Lemma foldM_inv {S A} (I : S → Prop) (f : S → A → option S) (xs : list A) :
  (∀ s x, x ∈ xs → I s → ∃ s', f s x = Some s' ∧ I s') →
  ∀ s, I s → ∃ s', Py.foldM f xs s = Some s' ∧ I s'.
Proof.
  induction xs as [|x xs IH]; simpl; intros Hf s Hs; [eauto|].
  destruct (Hf s x) as (s1 & -> & H1); [left | done |]. simpl.
  apply IH; [|done]. intros ???. apply Hf. by right.
Qed.

Lemma foldM_inv_post {S A} (I Q : S → Prop) (f : S → A → option S)
    (xs : list A) (s : S) :
  I s →
  (∀ s x, x ∈ xs → I s → ∃ s', f s x = Some s' ∧ I s') →
  (∀ s', I s' → Q s') →
  ∃ s', Py.foldM f xs s = Some s' ∧ Q s'.
Proof.
  intros Hs Hf HQ. destruct (foldM_inv I f xs Hf s Hs) as (s' & ? & ?).
  eauto.
Qed.

(** The same for a loop over [enumerate(xs)], the invariant indexed by the
    number of iterations done. *)
Lemma foldM_imap_inv {S A B} (P : nat → S → Prop) (g : nat → A → B)
    (f : S → B → option S) (xs : list A) (s : S) :
  P 0 s →
  (∀ i x s', xs !! i = Some x → P i s' →
             ∃ s'', f s' (g i x) = Some s'' ∧ P (Datatypes.S i) s'') →
  ∃ s', Py.foldM f (imap g xs) s = Some s' ∧ P (length xs) s'.
Proof.
  revert P g s. induction xs as [|x xs IH]; intros P g s H0 Hstep; simpl.
  - eauto.
  - destruct (Hstep 0 x s) as (s1 & -> & H1); [done..|]. simpl.
    apply (IH (λ i, P (Datatypes.S i))); [done|].
    intros i y s' Hy. apply (Hstep (Datatypes.S i)). done.
Qed.

Lemma foldM_enumerate_inv {S A} (P : nat → S → Prop)
    (f : S → nat * A → option S) (xs : list A) (s : S) :
  P 0 s →
  (∀ i x s', xs !! i = Some x → P i s' →
             ∃ s'', f s' (i, x) = Some s'' ∧ P (Datatypes.S i) s'') →
  ∃ s', Py.foldM f (Py.enumerate xs) s = Some s' ∧ P (length xs) s'.
Proof. apply foldM_imap_inv. Qed.

(** ** Reading and writing the raw state *)

(** [frame ks s s']: [s'] differs from [s] at most on the keys [ks]. *)
Definition frame (ks : list string) (s s' : RawState) : Prop :=
  ∀ k, k ∉ ks → s' !! k = s !! k.

Global Instance frame_preorder ks : PreOrder (frame ks).
Proof.
  split; [by intros s k|].
  intros s1 s2 s3 H12 H23 k Hk. by rewrite H23, H12.
Qed.

Lemma frame_weaken ks ks' s s' : ks ⊆ ks' → frame ks s s' → frame ks' s s'.
Proof. intros Hs H k Hk. apply H. intros ?. apply Hk. by apply Hs. Qed.

Lemma frame_insert ks k v s : k ∈ ks → frame ks s (<[k := v]> s).
Proof. intros Hk k' Hk'. apply lookup_insert_ne. by intros ->. Qed.

Lemma get_num_insert_eq (s : RawState) k x : get_num (<[k := VNum x]> s) k = Some x.
Proof. unfold get_num. by rewrite lookup_insert_eq. Qed.

Lemma get_num_insert_ne (s : RawState) k k' v :
  k' ≠ k → get_num (<[k' := v]> s) k = get_num s k.
Proof. intros. unfold get_num. by rewrite lookup_insert_ne. Qed.

Lemma get_list_insert_eq (s : RawState) k l :
  get_list (<[k := VList l]> s) k = Some l.
Proof. unfold get_list. by rewrite lookup_insert_eq. Qed.

Lemma get_list_insert_ne (s : RawState) k k' v :
  k' ≠ k → get_list (<[k' := v]> s) k = get_list s k.
Proof. intros. unfold get_list. by rewrite lookup_insert_ne. Qed.

Lemma get_num_Some (s : RawState) k x :
  get_num s k = Some x ↔ s !! k = Some (VNum x).
Proof.
  unfold get_num. destruct (s !! k) as [[]|]; split; intros; by simplify_eq.
Qed.

Lemma get_list_Some (s : RawState) k l :
  get_list s k = Some l ↔ s !! k = Some (VList l).
Proof.
  unfold get_list. destruct (s !! k) as [[]|]; split; intros; by simplify_eq.
Qed.

Lemma state_list_set_Some (s : RawState) key l i v :
  s !! key = Some (VList l) → i < length l →
  state_list_set s key i v = Some (<[key := VList (<[i := v]> l)]> s).
Proof.
  intros Hl Hi. unfold state_list_set, Py.list_set.
  apply get_list_Some in Hl. rewrite Hl. simpl. by rewrite decide_True.
Qed.

Lemma state_list_set_inv (s s' : RawState) key i v :
  state_list_set s key i v = Some s' →
  ∃ l, s !! key = Some (VList l) ∧ i < length l
       ∧ s' = <[key := VList (<[i := v]> l)]> s.
Proof.
  unfold state_list_set, Py.list_set. intros H. inv_bind H. inv_bind H.
  case_decide; simplify_eq. apply get_list_Some in E. eauto.
Qed.

Lemma state_list_set_frame ks s s' key i v :
  key ∈ ks → state_list_set s key i v = Some s' → frame ks s s'.
Proof.
  intros Hk H. apply state_list_set_inv in H as (l & _ & _ & ->).
  by apply frame_insert.
Qed.

Lemma frame_insert_r ks k v s s1 :
  k ∈ ks → frame ks s s1 → frame ks s (<[k := v]> s1).
Proof. intros. etrans; [done|]. by apply frame_insert. Qed.

Lemma frame_list_set_r ks s s1 s2 key i v :
  key ∈ ks → state_list_set s1 key i v = Some s2 → frame ks s s1 →
  frame ks s s2.
Proof. intros. etrans; [done|]. by eapply state_list_set_frame. Qed.

Ltac in_keys := apply (bool_decide_unpack _); vm_compute; exact I.

Ltac frame_solve :=
  repeat first
    [ reflexivity
    | assumption
    | apply frame_insert_r; [in_keys|]
    | eapply frame_list_set_r; [|eassumption|]; [in_keys|] ].

(** ** Keys written by each extractor *)

Definition storage_keys : list string :=
  ["storage_levels"; "storage_capacity"; "storage_utilization"].
Definition bom_keys : list string := ["bom_inputs"; "bom_outputs"].
Definition distributor_keys : list string :=
  ["distributor_in_transit_orders"; "distributor_in_transit_orders_qty"].
Definition sale_keys : list string :=
  ["sale_mean"; "sale_std"; "sale_gamma"; "service_level";
   "total_backlog_demand"; "sale_hist"; "backlog_demand_hist";
   "consumption_hist"; "pending_order"].
Definition vlt_keys : list string := ["vlt"; "max_vlt"].
Definition consumer_keys : list string :=
  ["consumer_source_export_mask"; "consumer_source_inventory";
   "consumer_in_transit_orders"; "inventory_in_stock"; "inventory_in_transit";
   "inventory_in_distribution"; "inventory_estimated"; "inventory_rop";
   "is_over_stock"; "is_out_of_stock"; "is_below_rop"].
Definition price_keys : list string := ["max_price"; "sku_price"; "sku_cost"].

Lemma storage_frame self st a st' :
  _add_storage_features self st a = Some st' → frame storage_keys st st'.
Proof.
  unfold _add_storage_features. intros H.
  inv_bind H. inv_bind H. inv_bind H.
  etrans; [|eapply (foldM_frame (frame storage_keys)); [|exact H]].
  - frame_solve.
  - intros s [pid pnum] s' Hs. inv_bind Hs. inv_bind Hs. simplify_eq.
    frame_solve.
Qed.

Lemma bom_frame self st a st' :
  _add_bom_features self st a = Some st' → frame bom_keys st st'.
Proof.
  unfold _add_bom_features. intros H.
  destruct (is_facility a); simpl in H.
  - simplify_eq. frame_solve.
  - inv_bind H. inv_bind H. frame_solve.
Qed.

Lemma distributor_frame self st a st' :
  _add_distributor_features self st a = Some st' →
  frame distributor_keys st st'.
Proof.
  unfold _add_distributor_features. intros H. inv_bind H.
  destruct (distribution x).
  - inv_bind H. inv_bind H. simplify_eq. frame_solve.
  - simplify_eq. frame_solve.
Qed.

Lemma price_frame self st a st' :
  _add_price_features self st a = Some st' → frame price_keys st st'.
Proof.
  unfold _add_price_features. intros H.
  destruct (is_facility a); simpl in H.
  - simplify_eq. frame_solve.
  - inv_bind H. simplify_eq. frame_solve.
Qed.

Lemma sale_frame self st a st' :
  _add_sale_features self st a = Some st' → frame sale_keys st st'.
Proof.
  unfold _add_sale_features. intros H.
  destruct (is_facility a).
  - simplify_eq. frame_solve.
  - inv_bind H. inv_bind H. inv_bind H. inv_bind H. inv_bind H.
    destruct (seller x3).
    + inv_bind H. inv_bind H. inv_bind H. simplify_eq.
      destruct (consumer x3); frame_solve.
    + simplify_eq. destruct (consumer x3); frame_solve.
Qed.

Lemma per_sku_loop_frame ks sku_list own body st st' :
  (∀ s j sku s', body s j sku = Some s' → frame ks s s') →
  per_sku_loop sku_list own body st = Some st' → frame ks st st'.
Proof.
  intros Hb. unfold per_sku_loop. apply foldM_frame; [apply _|].
  intros s [j sku] s' Hs. case_decide; [eauto|]. by simplify_eq.
Qed.

Lemma vlt_frame self st a st' :
  _add_vlt_features self st a = Some st' → frame vlt_keys st st'.
Proof.
  unfold _add_vlt_features. intros H. inv_bind H.
  destruct (is_facility a); simpl in H.
  - simplify_eq. frame_solve.
  - inv_bind H. inv_bind H.
    match type of H with (if ?b then _ else _) = _ => destruct b end.
    + etrans; [|eapply (foldM_frame (frame vlt_keys)); [|exact H]].
      * frame_solve.
      * intros s [i source] s'. apply per_sku_loop_frame.
        intros s1 j sku s2 Hs. inv_bind Hs. frame_solve.
    + simplify_eq. frame_solve.
Qed.

Section ConsumerPhases.
Variable np_sqrt : Q → Q.
Variable norm_ppf : Q → Q.

(** The phases of [_add_consumer_features], in program order. *)
Definition consumer_defaults (self : SCEnvWrapper) (state : RawState)
  : RawState :=
  let state := <["consumer_source_export_mask" :=
    VList (zeros (_max_sources_per_facility self * _sku_number self))]>
    state in
  let state :=
    <["consumer_source_inventory" := VList (zeros (_sku_number self))]>
    state in
  let state :=
    <["consumer_in_transit_orders" := VList (zeros (_sku_number self))]>
    state in
  let state := <["inventory_in_stock" := VNum 0%Q]> state in
  let state := <["inventory_in_transit" := VNum 0%Q]> state in
  let state := <["inventory_in_distribution" := VNum 0%Q]> state in
  let state := <["inventory_estimated" := VNum 0%Q]> state in
  let state := <["inventory_rop" := VNum 0%Q]> state in
  let state := <["is_over_stock" := VNum 0%Q]> state in
  let state := <["is_out_of_stock" := VNum 0%Q]> state in
  <["is_below_rop" := VNum 0%Q]> state.

Definition export_mask_loop (self : SCEnvWrapper) (own : Sku)
    (source_list : list nat) (state : RawState) : option RawState :=
  Py.foldM (λ state '(i, source),
      per_sku_loop (_skus self) (sku_id own) (λ state j sku,
          src ← facility_levels self !! source;
          ssku ← f_skus src !! sku_id sku;
          state_list_set state "consumer_source_export_mask"
                         (i * length (_skus self) + j + 1) (vlt ssku))
        state)
    (Py.enumerate source_list) state.

Definition in_transit_loop (self : SCEnvWrapper) (fmetrics : FacilityMetrics)
    (state : RawState) : option RawState :=
  Py.foldM (λ state '(i, sku),
      l ← get_list state "consumer_in_transit_orders";
      cur ← l !! sku_id sku;
      add ← in_transit_orders fmetrics !! sku_id sku;
      state_list_set state "consumer_in_transit_orders" (sku_id sku)
                     (cur + add)%Q)
    (Py.enumerate (_skus self)) state.

Definition inventory_tail (self : SCEnvWrapper) (agent_info : AgentInfo)
    (own : Sku) (state : RawState) : option RawState :=
  in_stock ← Py.dict_get (_cur_facility_storage_products self) (sku_id own);
  let state := <["inventory_in_stock" := VNum in_stock]> state in
  l ← get_list state "consumer_in_transit_orders";
  in_transit ← l !! sku_id own;
  let state := <["inventory_in_transit" := VNum in_transit]> state in
  fmetrics ← m_facilities (_cur_metrics self) !! a_facility_id agent_info;
  state ←
    match pending_order fmetrics with
    | Some pending_order =>
        x ← pending_order !! sku_id own;
        Some (<["inventory_in_distribution" := VNum x]> state)
    | None => Some state
    end;
  in_stock ← get_num state "inventory_in_stock";
  in_transit ← get_num state "inventory_in_transit";
  in_distribution ← get_num state "inventory_in_distribution";
  let state := <["inventory_estimated" :=
    VNum (in_stock + in_transit - in_distribution)%Q]> state in
  estimated ← get_num state "inventory_estimated";
  capacity ← get_num state "storage_capacity";
  let state :=
    if Py.ge estimated (0.5 * capacity)%Q
    then <["is_over_stock" := VNum 1%Q]> state else state in
  estimated ← get_num state "inventory_estimated";
  let state :=
    if Py.le estimated 0%Q
    then <["is_out_of_stock" := VNum 1%Q]> state else state in
  max_vlt ← get_num state "max_vlt";
  sale_mean ← get_num state "sale_mean";
  sale_std ← get_num state "sale_std";
  service_level ← get_num state "service_level";
  let state := <["inventory_rop" :=
    VNum (max_vlt * sale_mean
          + np_sqrt max_vlt * sale_std * norm_ppf service_level)%Q]> state in
  estimated ← get_num state "inventory_estimated";
  rop ← get_num state "inventory_rop";
  Some (if Py.lt estimated rop
        then <["is_below_rop" := VNum 1%Q]> state else state).

(** The early returns. *)
Lemma consumer_features_facility self st a :
  is_facility a = true →
  _add_consumer_features np_sqrt norm_ppf self st a
  = Some (consumer_defaults self st).
Proof. unfold _add_consumer_features. by intros ->. Qed.

Lemma consumer_features_no_consumer self st a facility own pinfo :
  is_facility a = false →
  facility_levels self !! a_facility_id a = Some facility →
  a_sku a = Some own →
  products facility !! sku_id own = Some pinfo →
  consumer pinfo = None →
  _add_consumer_features np_sqrt norm_ppf self st a
  = Some (consumer_defaults self st).
Proof.
  unfold _add_consumer_features. intros -> -> -> Hp Hc. simpl.
  rewrite Hp. simpl. rewrite Hc. by rewrite bool_decide_false by by intros [].
Qed.

Lemma consumer_features_no_source self st a facility own pinfo :
  is_facility a = false →
  facility_levels self !! a_facility_id a = Some facility →
  a_sku a = Some own →
  products facility !! sku_id own = Some pinfo →
  default [] (upstreams facility !! sku_id own) = [] →
  _add_consumer_features np_sqrt norm_ppf self st a
  = Some (consumer_defaults self st).
Proof.
  unfold _add_consumer_features. intros -> -> -> Hp Hs. simpl.
  rewrite Hp. simpl. rewrite Hs. simpl. by destruct (negb _).
Qed.

(** The full path. *)
Lemma consumer_features_active self st a facility own pinfo c :
  is_facility a = false →
  facility_levels self !! a_facility_id a = Some facility →
  a_sku a = Some own →
  products facility !! sku_id own = Some pinfo →
  consumer pinfo = Some c →
  default [] (upstreams facility !! sku_id own) ≠ [] →
  _add_consumer_features np_sqrt norm_ppf self st a
  = (state ← export_mask_loop self own
               (default [] (upstreams facility !! sku_id own))
               (consumer_defaults self st);
     fmetrics ← m_facilities (_cur_metrics self) !! a_facility_id a;
     state ← in_transit_loop self fmetrics state;
     inventory_tail self a own state).
Proof.
  unfold _add_consumer_features. intros -> -> -> Hp Hc Hs. simpl.
  rewrite Hp. simpl. rewrite Hc. rewrite bool_decide_true by eauto. simpl.
  rewrite bool_decide_false; [done|].
  intros Hl. apply Hs. by apply nil_length_inv.
Qed.
End ConsumerPhases.

Lemma get_num_if_ne (b : bool) (s : RawState) k k' v :
  k' ≠ k → get_num (if b then <[k' := v]> s else s) k = get_num s k.
Proof. intros. destruct b; [by apply get_num_insert_ne|done]. Qed.

Lemma get_num_if_eq (b : bool) (s : RawState) k :
  get_num s k = Some 0%Q →
  get_num (if b then <[k := VNum 1%Q]> s else s) k = Some (flag b).
Proof. intros. destruct b; [by apply get_num_insert_eq|done]. Qed.

Lemma frame_if_r ks (b : bool) k v s s1 :
  k ∈ ks → frame ks s s1 → frame ks s (if b then <[k := v]> s1 else s1).
Proof. intros. destruct b; [by apply frame_insert_r|done]. Qed.

Lemma frame_get_num ks s s' k :
  frame ks s s' → k ∉ ks → get_num s' k = get_num s k.
Proof. intros H Hk. unfold get_num. by rewrite H. Qed.

Lemma frame_get_list ks s s' k :
  frame ks s s' → k ∉ ks → get_list s' k = get_list s k.
Proof. intros H Hk. unfold get_list. by rewrite H. Qed.

Lemma frame_get_num_Some ks s s' k x :
  frame ks s s' → k ∉ ks → get_num s k = Some x → get_num s' k = Some x.
Proof. intros H Hk <-. by eapply frame_get_num. Qed.

Lemma frame_get_list_Some ks s s' k x :
  frame ks s s' → k ∉ ks → get_list s k = Some x → get_list s' k = Some x.
Proof. intros H Hk <-. by eapply frame_get_list. Qed.

Ltac not_in_keys := apply (bool_decide_unpack _); vm_compute; exact I.

Lemma get_list_if_ne (b : bool) (s : RawState) k k' v :
  k' ≠ k → get_list (if b then <[k' := v]> s else s) k = get_list s k.
Proof. intros. destruct b; [by apply get_list_insert_ne|done]. Qed.

Ltac state_reads :=
  repeat first
    [ rewrite get_num_insert_eq
    | rewrite get_list_insert_eq
    | rewrite get_num_insert_ne by str_ne
    | rewrite get_list_insert_ne by str_ne
    | rewrite get_num_if_ne by str_ne
    | rewrite get_list_if_ne by str_ne
    | rewrite get_num_if_eq by (state_reads; eassumption) ].

Section ConsumerTail.
Variable np_sqrt : Q → Q.
Variable norm_ppf : Q → Q.

Definition tail_keys : list string :=
  ["inventory_in_stock"; "inventory_in_transit"; "inventory_in_distribution";
   "inventory_estimated"; "inventory_rop";
   "is_over_stock"; "is_out_of_stock"; "is_below_rop"].

(** The value [inventory_in_distribution] takes. *)
Definition pending_outflow (fm : FacilityMetrics) (own : Sku) : option Q :=
  match pending_order fm with
  | Some po => po !! sku_id own
  | None => Some 0%Q
  end.

Lemma inventory_tail_spec self a own s in_stock t in_transit fm in_dist
    cap mv sm sd sl :
  Py.dict_get (_cur_facility_storage_products self) (sku_id own)
    = Some in_stock →
  get_list s "consumer_in_transit_orders" = Some t →
  t !! sku_id own = Some in_transit →
  m_facilities (_cur_metrics self) !! a_facility_id a = Some fm →
  pending_outflow fm own = Some in_dist →
  get_num s "inventory_in_distribution" = Some 0%Q →
  get_num s "storage_capacity" = Some cap →
  get_num s "max_vlt" = Some mv →
  get_num s "sale_mean" = Some sm →
  get_num s "sale_std" = Some sd →
  get_num s "service_level" = Some sl →
  get_num s "is_over_stock" = Some 0%Q →
  get_num s "is_out_of_stock" = Some 0%Q →
  get_num s "is_below_rop" = Some 0%Q →
  let est := (in_stock + in_transit - in_dist)%Q in
  let rop := (mv * sm + np_sqrt mv * sd * norm_ppf sl)%Q in
  ∃ st', inventory_tail np_sqrt norm_ppf self a own s = Some st'
    ∧ frame tail_keys s st'
    ∧ get_num st' "inventory_in_stock" = Some in_stock
    ∧ get_num st' "inventory_in_transit" = Some in_transit
    ∧ get_num st' "inventory_in_distribution" = Some in_dist
    ∧ get_num st' "inventory_estimated" = Some est
    ∧ get_num st' "inventory_rop" = Some rop
    ∧ get_num st' "is_over_stock" = Some (flag (Py.ge est (0.5 * cap)%Q))
    ∧ get_num st' "is_out_of_stock" = Some (flag (Py.le est 0%Q))
    ∧ get_num st' "is_below_rop" = Some (flag (Py.lt est rop)).
Proof.
  intros Hstock Ht Htr Hfm Hpo Hd Hcap Hmv Hsm Hsd Hsl Hov Hout Hrop est rop.
  unfold inventory_tail. rewrite Hstock. cbn [mbind option_bind].
  rewrite get_list_insert_ne by str_ne. rewrite Ht.
  cbn [mbind option_bind]. rewrite Htr.
  cbn [mbind option_bind]. rewrite Hfm. cbn [mbind option_bind].
  set (s2 := <["inventory_in_transit" := VNum in_transit]>
               (<["inventory_in_stock" := VNum in_stock]> s)).
  assert (∃ s3,
    match pending_order fm with
    | Some po =>
        x ← po !! sku_id own;
        Some (<["inventory_in_distribution" := VNum x]> s2)
    | None => Some s2
    end = Some s3
    ∧ frame ["inventory_in_stock"; "inventory_in_transit";
              "inventory_in_distribution"] s s3
    ∧ get_num s3 "inventory_in_stock" = Some in_stock
    ∧ get_num s3 "inventory_in_transit" = Some in_transit
    ∧ get_num s3 "inventory_in_distribution" = Some in_dist)
    as (s3 & -> & Hfr & H1 & H2 & H3).
  { unfold pending_outflow in Hpo. subst s2.
    destruct (pending_order fm) as [po|].
    - rewrite Hpo. eexists. split; [done|]. split; [frame_solve|].
      by state_reads.
    - simplify_eq. eexists. split; [done|]. split; [frame_solve|].
      by state_reads. }
  clearbody s2. clear s2.
  apply (frame_get_num_Some _ _ _ _ _ Hfr) in Hcap, Hmv, Hsm, Hsd, Hsl, Hov,
    Hout, Hrop; [|not_in_keys..].
  eapply (frame_weaken _ tail_keys) in Hfr;
    [|intros k Hk; apply (bool_decide_unpack _);
      repeat (apply elem_of_cons in Hk as [->|Hk]; [by vm_compute|]);
      by apply elem_of_nil in Hk].
  cbn [mbind option_bind]. rewrite H1. cbn [mbind option_bind].
  rewrite H2. cbn [mbind option_bind]. rewrite H3. cbn [mbind option_bind].
  fold est. rewrite get_num_insert_eq. cbn [mbind option_bind].
  rewrite get_num_insert_ne by str_ne. rewrite Hcap.
  cbn [mbind option_bind].
  rewrite get_num_if_ne by str_ne. rewrite get_num_insert_eq.
  cbn [mbind option_bind].
  rewrite !get_num_if_ne by str_ne. rewrite !get_num_insert_ne by str_ne.
  rewrite Hmv, Hsm, Hsd, Hsl. cbn [mbind option_bind].
  rewrite get_num_insert_eq, get_num_insert_ne by str_ne.
  rewrite !get_num_if_ne by str_ne. rewrite get_num_insert_eq.
  cbn [mbind option_bind]. fold rop.
  eexists. split; [reflexivity|]. split.
  { repeat first [ apply frame_if_r; [in_keys|]
                 | apply frame_insert_r; [in_keys|] ]. done. }
  state_reads. done.
Qed.
End ConsumerTail.

Lemma foldM_ext {S A} (f g : S → A → option S) (xs : list A) (s : S) :
  (∀ s x, f s x = g s x) → Py.foldM f xs s = Py.foldM g xs s.
Proof.
  intros Hfg. revert s. induction xs as [|x xs IH]; intros s; simpl; [done|].
  rewrite Hfg. destruct (g s x); simpl; auto.
Qed.

Lemma elem_of_enumerate {A} (xs : list A) i x :
  (i, x) ∈ Py.enumerate xs → xs !! i = Some x.
Proof.
  unfold Py.enumerate. intros H. apply elem_of_lookup_imap in H.
  destruct H as (i' & y & ? & ?). by simplify_eq.
Qed.

(** ** The per-source-per-sku loops *)

(** Both [_add_vlt_features] and [_add_consumer_features] fill a flat
    vector with the same doubly nested loop; [val source sku] is the value
    written for a source and a catalogue entry. *)
Definition slot_loop (key : string) (skus : list Sku) (own : nat)
    (val : nat → Sku → option Q) (sources : list nat) (state : RawState)
  : option RawState :=
  Py.foldM (λ state '(i, source),
      per_sku_loop skus own (λ state j sku,
          v ← val source sku;
          state_list_set state key (i * length skus + j + 1) v)
        state)
    (Py.enumerate sources) state.

(** The slot of source position [i] and catalogue position [j]. *)
Definition slot (n i j : nat) : nat := i * n + j + 1.

Lemma slot_inj n i j i' j' :
  j < n → j' < n → slot n i j = slot n i' j' → i = i' ∧ j = j'.
Proof.
  unfold slot. intros Hj Hj' Heq.
  destruct (Nat.lt_trichotomy i i') as [Hlt|[->|Hlt]]; [|lia|].
  - pose proof (Nat.mul_le_mono_r (S i) i' n Hlt). simpl in *. lia.
  - pose proof (Nat.mul_le_mono_r (S i') i n Hlt). simpl in *. lia.
Qed.

Section SlotLoop.
Context (key : string) (skus : list Sku) (own : nat).
Context (val : nat → Sku → option Q) (sources : list nat).
Context (s0 : RawState) (l0 : list Q).
Hypothesis Hkey : get_list s0 key = Some l0.
Hypothesis Hbound :
  ∀ i j, i < length sources → j < length skus →
         slot (length skus) i j < length l0.
Hypothesis Hval :
  ∀ i src j sku, sources !! i = Some src → skus !! j = Some sku →
                 sku_id sku = own → is_Some (val src sku).

(** Iterations completed before iteration [(i, j)]. *)
Definition before (i j i' j' : nat) : Prop := i' < i ∨ (i' = i ∧ j' < j).

Definition slot_inv (i j : nat) (s : RawState) : Prop :=
  frame [key] s0 s ∧
  ∃ m, get_list s key = Some m ∧ length m = length l0 ∧
    (∀ i' src j' sku,
        before i j i' j' → sources !! i' = Some src →
        skus !! j' = Some sku → sku_id sku = own →
        Some <$> m !! slot (length skus) i' j' = Some (val src sku)) ∧
    (∀ k, (∀ i' j' sku, before i j i' j' → i' < length sources →
                        skus !! j' = Some sku → sku_id sku = own →
                        k ≠ slot (length skus) i' j') →
          m !! k = l0 !! k).

Lemma slot_inv_init : slot_inv 0 0 s0.
Proof.
  split; [done|]. exists l0. repeat split; try done.
  intros i' src j' sku [?|[? ?]]; lia.
Qed.

Lemma slot_inv_row i s : slot_inv i (length skus) s → slot_inv (S i) 0 s.
Proof.
  intros (Hfr & m & Hm & Hlen & Hw & Hu). split; [done|].
  exists m. repeat split; try done.
  - intros i' src j' sku Hb Hsrc Hsku Hown. apply Hw; try done.
    apply lookup_lt_Some in Hsku. destruct Hb as [?|[? ?]]; [|lia].
    unfold before. lia.
  - intros k Hk. apply Hu. intros i' j' sku Hb Hi Hsku Hown.
    apply (Hk i' j' sku); try done. unfold before in *. lia.
Qed.

Lemma slot_inv_step i src j sku s :
  sources !! i = Some src → skus !! j = Some sku →
  slot_inv i j s →
  ∃ s',
    (if decide (sku_id sku = own)
     then v ← val src sku;
          state_list_set s key (i * length skus + j + 1) v
     else Some s) = Some s'
    ∧ slot_inv i (S j) s'.
Proof.
  intros Hsrc Hsku (Hfr & m & Hm & Hlen & Hw & Hu).
  pose proof (lookup_lt_Some _ _ _ Hsrc) as Hi.
  pose proof (lookup_lt_Some _ _ _ Hsku) as Hj.
  case_decide as Hown.
  - destruct (Hval i src j sku) as [v Hv]; try done.
    rewrite Hv. simpl. apply get_list_Some in Hm.
    rewrite (state_list_set_Some _ _ m);
      [|done|rewrite Hlen; by apply Hbound].
    eexists. split; [done|]. split.
    { apply frame_insert_r; [by left|done]. }
    exists (<[slot (length skus) i j := v]> m).
    split; [by rewrite get_list_insert_eq|].
    split; [by rewrite length_insert|]. split.
    + intros i' src' j' sku' Hb Hsrc' Hsku' Hown'.
      pose proof (lookup_lt_Some _ _ _ Hsku') as Hj'.
      destruct (decide (i' = i ∧ j' = j)) as [[-> ->]|Hne].
      * simplify_eq. rewrite list_lookup_insert_eq; [by rewrite Hv|].
        rewrite Hlen. by apply Hbound.
      * rewrite list_lookup_insert_ne.
        -- apply Hw; try done. unfold before in *. lia.
        -- intros Heq. apply slot_inj in Heq; [|done..]. lia.
    + intros k Hk. rewrite list_lookup_insert_ne.
      * apply Hu. intros i' j' sku' Hb Hi' Hsku' Hown'.
        apply (Hk i' j' sku'); try done. unfold before in *. lia.
      * intros <-. eapply (Hk i j sku); try done. unfold before. lia.
  - eexists. split; [done|]. split; [done|].
    exists m. repeat split; try done.
    + intros i' src' j' sku' Hb Hsrc' Hsku' Hown'.
      apply Hw; try done. unfold before in *.
      destruct (decide (i' = i ∧ j' = j)) as [[-> ->]|Hne]; [|lia].
      by simplify_eq.
    + intros k Hk. apply Hu. intros i' j' sku' Hb Hi' Hsku' Hown'.
      apply (Hk i' j' sku'); try done. unfold before in *. lia.
Qed.

Lemma slot_loop_spec :
  ∃ s' m,
    slot_loop key skus own val sources s0 = Some s'
    ∧ frame [key] s0 s'
    ∧ get_list s' key = Some m
    ∧ length m = length l0
    ∧ (∀ i src j sku,
          sources !! i = Some src → skus !! j = Some sku →
          sku_id sku = own →
          Some <$> m !! slot (length skus) i j = Some (val src sku))
    ∧ (∀ k, (∀ i j sku, i < length sources → skus !! j = Some sku →
                        sku_id sku = own → k ≠ slot (length skus) i j) →
            m !! k = l0 !! k).
Proof.
  unfold slot_loop.
  destruct (foldM_enumerate_inv (λ i, slot_inv i 0)
    (λ state '(i, source),
       per_sku_loop skus own (λ state j sku,
         v ← val source sku;
         state_list_set state key (i * length skus + j + 1) v) state)
    sources s0) as (s' & Hs' & Hfr & m & Hm & Hlen & Hw & Hu).
  - apply slot_inv_init.
  - intros i src s Hsrc Hinv. unfold per_sku_loop.
    destruct (foldM_enumerate_inv (λ j, slot_inv i j)
      (λ state '(j, sku),
         if decide (sku_id sku = own)
         then v ← val src sku;
              state_list_set state key (i * length skus + j + 1) v
         else Some state)
      skus s) as (s1 & Hs1 & Hinv1); [done| |].
    + intros j sku s1 Hsku Hinv1. by apply slot_inv_step.
    + exists s1. split; [done|]. by apply slot_inv_row.
  - exists s', m. repeat split; try done.
    + intros i src j sku Hsrc Hsku Hown. apply Hw; try done.
      left. by eapply lookup_lt_Some.
    + intros k Hk. apply Hu. intros i j sku Hb Hi Hsku Hown.
      by apply (Hk i j sku).
Qed.
End SlotLoop.

(** ** Well-formed inputs

    What the extractors look up must be there: these are the conditions
    under which no lookup of [_state] raises. *)

Definition wf_storage (self : SCEnvWrapper) (facility : FacilityLevel) : Prop :=
  match storage facility with
  | Some st => is_Some (config st !! "capacity")
  | None => False
  end
  ∧ Forall (λ kv, kv.1 < _sku_number self) (_cur_facility_storage_products self).

Definition wf_distribution (self : SCEnvWrapper) (facility : FacilityLevel)
  : Prop :=
  match distribution facility with
  | Some d =>
      (2 ≤ length (ss_distribution (env self) (tick (env self)) (unit_id d)))%nat
  | None => True
  end.

Definition wf_seller (self : SCEnvWrapper) (facility : FacilityLevel)
    (own : Sku) (pinfo : ProductInfo) : Prop :=
  match seller pinfo with
  | Some s =>
      Nat.even (length (ss_seller_sold_demand (env self)
                  (window (tick (env self))
                          (sale_hist_len (settings (env self))))
                  (node_index s))) = true
      ∧ (1 ≤ length (ss_seller_total_demand (env self) (tick (env self))
                                             (node_index s)))%nat
      ∧ is_Some (f_skus facility !! sku_id own)
  | None => True
  end.

Definition wf_source (self : SCEnvWrapper) (own : Sku) (source : nat) : Prop :=
  match facility_levels self !! source with
  | Some src => is_Some (f_skus src !! sku_id own)
  | None => False
  end.

Definition wf_consumer (self : SCEnvWrapper) (a : AgentInfo)
    (facility : FacilityLevel) (own : Sku) (pinfo : ProductInfo) : Prop :=
  match consumer pinfo, default [] (upstreams facility !! sku_id own) with
  | None, _ | _, [] => True
  | Some _, sources =>
      (length sources ≤ _max_sources_per_facility self)%nat
      ∧ is_Some (UnitBaseInfo_getitem (skuproduct pinfo) "max_vlt")
      ∧ is_Some (f_skus facility !! sku_id own)
      ∧ Forall (wf_source self own) sources
      ∧ match m_facilities (_cur_metrics self) !! a_facility_id a with
        | Some fm =>
            Forall (λ sku, sku_id sku < _sku_number self
                           ∧ is_Some (in_transit_orders fm !! sku_id sku))
                   (_skus self)
            ∧ match pending_order fm with
              | Some po => is_Some (po !! sku_id own)
              | None => True
              end
        | None => False
        end
      ∧ is_Some (Py.dict_get (_cur_facility_storage_products self)
                             (sku_id own))
  end.

Definition wf_agent (self : SCEnvWrapper) (a : AgentInfo) : Prop :=
  match facility_levels self !! a_facility_id a with
  | None => False
  | Some facility =>
      wf_storage self facility ∧ wf_distribution self facility ∧
      if is_facility a
      then is_Some (m_facilities (_cur_metrics self) !! a_facility_id a)
      else
        match a_sku a with
        | None => False
        | Some own =>
            sku_id own < _sku_number self
            ∧ is_Some (m_products (_cur_metrics self) !! a_id a)
            ∧ match products facility !! sku_id own with
              | Some pinfo =>
                  wf_seller self facility own pinfo
                  ∧ wf_consumer self a facility own pinfo
              | None => False
              end
        end
  end.

(** ** Facility, storage, bill-of-materials and distributor features *)

Lemma zeros_length n : length (zeros n) = n.
Proof. apply length_replicate. Qed.

Lemma facility_features_spec self st a :
  wf_agent self a →
  ∃ st', _add_facility_features self st a = Some st'
    ∧ get_list st' "is_accepted"
      = Some (zeros (constraint_state_hist_len (settings (env self))))
    ∧ get_list st' "constraint_idx" = Some [0%Q].
Proof.
  unfold wf_agent, _add_facility_features. intros Hwf.
  destruct (facility_levels self !! a_facility_id a) as [facility|]; [|done].
  destruct Hwf as (_ & _ & Hwf). cbn [mbind option_bind].
  destruct (is_facility a).
  - destruct Hwf as [fm ->]. cbn [mbind option_bind foldl atoms_keys].
    eexists. split; [done|]. by state_reads.
  - destruct (a_sku a) as [own|]; [|done]. destruct Hwf as (Hid & [pm ->] & _).
    cbn [mbind option_bind foldl atoms_keys].
    erewrite state_list_set_Some;
      [|by lk|by rewrite zeros_length].
    cbn [mbind option_bind]. eexists. split; [done|]. by state_reads.
Qed.

Definition is_num (s : RawState) (k : string) : Prop :=
  ∃ x, get_num s k = Some x.

Lemma storage_features_spec self st a facility su cap :
  facility_levels self !! a_facility_id a = Some facility →
  storage facility = Some su →
  config su !! "capacity" = Some cap →
  Forall (λ kv, kv.1 < _sku_number self) (_cur_facility_storage_products self) →
  ∃ st', _add_storage_features self st a = Some st'
    ∧ get_num st' "storage_capacity" = Some cap
    ∧ is_num st' "storage_utilization".
Proof.
  intros Hf Hs Hc Hall. unfold _add_storage_features.
  rewrite Hf. cbn [mbind option_bind]. rewrite Hs. cbn [mbind option_bind].
  rewrite Hc. cbn [mbind option_bind].
  apply (foldM_inv_post (λ s,
    (∃ l, get_list s "storage_levels" = Some l ∧ length l = _sku_number self)
    ∧ get_num s "storage_capacity" = Some cap
    ∧ is_num s "storage_utilization")); [| |by intros s' (_ & ? & ?)].
  - split; [|split].
    + eexists. state_reads. split; [done|]. apply zeros_length.
    + by state_reads.
    + eexists. by state_reads.
  - intros s [pid pnum] Hin ((l & Hl & Hlen) & Hcap & u & Hu).
    rewrite Forall_forall in Hall. specialize (Hall _ Hin). simpl in Hall.
    apply get_list_Some in Hl.
    rewrite (state_list_set_Some _ _ l) by (done || lia).
    cbn [mbind option_bind]. rewrite get_num_insert_ne by str_ne.
    rewrite Hu. cbn [mbind option_bind]. eexists. split; [done|].
    split; [|split].
    + eexists. state_reads. split; [done|]. by rewrite length_insert.
    + state_reads. done.
    + eexists. by state_reads.
Qed.

Lemma bom_features_total self st a :
  (if is_facility a then True
   else match a_sku a with
        | Some own => sku_id own < _sku_number self
        | None => False
        end) →
  is_Some (_add_bom_features self st a).
Proof.
  unfold _add_bom_features. destruct (is_facility a); simpl; [done|].
  destruct (a_sku a) as [own|]; [|done]. intros Hid. simpl.
  erewrite state_list_set_Some; [|by lk|by rewrite zeros_length].
  simpl.
  erewrite state_list_set_Some; [done|by lk|by rewrite zeros_length].
Qed.

Lemma lookup_map_lt {A B} (f : A → B) (l : list A) i :
  i < length l → is_Some (map f l !! i).
Proof. intros. apply lookup_lt_is_Some. by rewrite length_map. Qed.

Lemma distributor_features_total self st a facility :
  facility_levels self !! a_facility_id a = Some facility →
  wf_distribution self facility →
  is_Some (_add_distributor_features self st a).
Proof.
  unfold _add_distributor_features, wf_distribution. intros -> Hd.
  cbn [mbind option_bind]. destruct (distribution facility) as [d|]; [|done].
  destruct (lookup_map_lt Py.astype_int
    (ss_distribution (env self) (tick (env self)) (unit_id d)) 1) as [x ->];
    [lia|].
  destruct (lookup_map_lt Py.astype_int
    (ss_distribution (env self) (tick (env self)) (unit_id d)) 0) as [y ->];
    [lia|].
  done.
Qed.

Lemma price_features_spec self st a :
  (is_facility a = false → is_Some (a_sku a)) →
  ∃ st', _add_price_features self st a = Some st'
    ∧ get_num st' "max_price" = Some (max_price (_cur_metrics self))
    ∧ is_num st' "sku_price" ∧ is_num st' "sku_cost".
Proof.
  unfold _add_price_features. intros Hs. destruct (is_facility a); simpl.
  - eexists. split; [done|]. unfold is_num. state_reads. eauto.
  - destruct Hs as [own ->]; [done|]. simpl.
    eexists. split; [done|]. unfold is_num. state_reads. eauto.
Qed.

(** ** Sale features *)

Lemma sale_features_facility self st a :
  is_facility a = true →
  ∃ st', _add_sale_features self st a = Some st'
    ∧ get_num st' "sale_mean" = Some 1%Q
    ∧ get_num st' "sale_std" = Some 1%Q
    ∧ get_num st' "sale_gamma" = Some 1%Q
    ∧ get_num st' "service_level" = Some 0.95%Q
    ∧ get_list st' "sale_hist"
      = Some (zeros (sale_hist_len (settings (env self))))
    ∧ get_list st' "consumption_hist"
      = Some (zeros (consumption_hist_len (settings (env self))))
    ∧ get_list st' "pending_order"
      = Some (zeros (pending_order_len (settings (env self)))).
Proof.
  unfold _add_sale_features. intros ->. eexists. split; [done|].
  by state_reads.
Qed.

(** The windows and metrics a product agent's sale features are read from. *)
Definition sale_hist_of (self : SCEnvWrapper) (pinfo : ProductInfo) : list Q :=
  match seller pinfo with
  | Some s =>
      let buf := map Py.astype_int
        (ss_seller_sold_demand (env self)
           (window (tick (env self)) (sale_hist_len (settings (env self))))
           (node_index s)) in
      take (length buf / 2) buf
  | None => zeros (sale_hist_len (settings (env self)))
  end.

Definition consumption_hist_of (self : SCEnvWrapper) (pinfo : ProductInfo)
  : list Q :=
  match consumer pinfo with
  | Some c =>
      ss_consumer_latest_consumptions (env self)
        (window (tick (env self)) (consumption_hist_len (settings (env self))))
        (node_index c)
  | None => zeros (consumption_hist_len (settings (env self)))
  end.

Definition pending_order_of (self : SCEnvWrapper) (pinfo : ProductInfo)
    (pm : ProductMetrics) : list Q :=
  match consumer pinfo with
  | Some c => pending_order_daily pm
  | None => zeros (pending_order_len (settings (env self)))
  end.

Lemma sale_features_product self st a facility own pinfo pm :
  is_facility a = false →
  facility_levels self !! a_facility_id a = Some facility →
  a_sku a = Some own →
  products facility !! sku_id own = Some pinfo →
  m_products (_cur_metrics self) !! a_id a = Some pm →
  wf_seller self facility own pinfo →
  ∃ st', _add_sale_features self st a = Some st'
    ∧ get_num st' "sale_mean" = Some (pm_sale_mean pm)
    ∧ get_num st' "sale_std" = Some (pm_sale_std pm)
    ∧ is_num st' "sale_gamma"
    ∧ get_num st' "service_level" = Some (service_level own)
    ∧ get_list st' "sale_hist" = Some (sale_hist_of self pinfo)
    ∧ get_list st' "consumption_hist" = Some (consumption_hist_of self pinfo)
    ∧ get_list st' "pending_order" = Some (pending_order_of self pinfo pm).
Proof.
  unfold _add_sale_features, wf_seller, sale_hist_of, consumption_hist_of,
    pending_order_of, is_num.
  intros -> -> -> Hp -> Hwf.
  cbn [mbind option_bind]. rewrite lookup_insert_eq. cbn [mbind option_bind].
  rewrite Hp. cbn [mbind option_bind].
  destruct (seller pinfo) as [s|].
  - destruct Hwf as (Heven & Hlen & [fsku Hfsku]).
    unfold reshape2. rewrite length_map, Heven. cbn [mbind option_bind fst snd].
    destruct (lookup_map_lt Py.astype_int
      (ss_seller_total_demand (env self) (tick (env self)) (node_index s)) 0)
      as [x ->]; [lia|].
    cbn [mbind option_bind]. rewrite Hfsku. cbn [mbind option_bind].
    eexists. split; [done|].
    destruct (consumer pinfo); state_reads; rewrite ?length_map; eauto 10.
  - eexists. split; [done|].
    destruct (consumer pinfo); state_reads; eauto 10.
Qed.

(** ** Vendor-lead-time features *)

Definition vlt_defaults (self : SCEnvWrapper) (state : RawState) : RawState :=
  <["max_vlt" := VNum 0%Q]>
    (<["vlt" :=
       VList (zeros (_max_sources_per_facility self * _sku_number self))]>
       state).

Lemma vlt_features_facility self st a facility :
  is_facility a = true →
  facility_levels self !! a_facility_id a = Some facility →
  _add_vlt_features self st a = Some (vlt_defaults self st).
Proof. unfold _add_vlt_features. by intros -> ->. Qed.

Lemma vlt_features_idle self st a facility own pinfo :
  is_facility a = false →
  facility_levels self !! a_facility_id a = Some facility →
  a_sku a = Some own →
  products facility !! sku_id own = Some pinfo →
  consumer pinfo = None ∨ default [] (upstreams facility !! sku_id own) = [] →
  _add_vlt_features self st a = Some (vlt_defaults self st).
Proof.
  unfold _add_vlt_features. intros -> -> -> Hp Hc.
  cbn [mbind option_bind negb]. rewrite Hp. cbn [mbind option_bind].
  destruct Hc as [->| ->].
  - by rewrite bool_decide_false by by intros [].
  - rewrite (bool_decide_false (0 < _)) by (simpl; lia).
    by rewrite andb_false_r.
Qed.

(** What the loop of [_add_vlt_features] writes for a catalogue entry. *)
Definition vlt_val (facility : FacilityLevel) (source : nat) (sku : Sku)
  : option Q :=
  vlt <$> f_skus facility !! sku_id sku.

Lemma vlt_features_active self st a facility own pinfo c :
  is_facility a = false →
  facility_levels self !! a_facility_id a = Some facility →
  a_sku a = Some own →
  products facility !! sku_id own = Some pinfo →
  consumer pinfo = Some c →
  default [] (upstreams facility !! sku_id own) ≠ [] →
  _add_vlt_features self st a
  = slot_loop "vlt" (_skus self) (sku_id own) (vlt_val facility)
      (default [] (upstreams facility !! sku_id own))
      (<["max_vlt" :=
         match UnitBaseInfo_getitem (skuproduct pinfo) "max_vlt" with
         | Some x => VNum x
         | None => VNone
         end]> (vlt_defaults self st)).
Proof.
  unfold _add_vlt_features. intros -> -> -> Hp Hc Hs.
  cbn [mbind option_bind negb]. rewrite Hp. cbn [mbind option_bind].
  rewrite Hc. rewrite bool_decide_true by eauto.
  rewrite bool_decide_true.
  2:{ destruct (default [] _); [done|simpl; lia]. }
  cbn [andb]. unfold slot_loop. apply foldM_ext.
  intros s [i source]. unfold per_sku_loop. apply foldM_ext.
  intros s' [j sku]. case_decide; [|done]. unfold vlt_val.
  by destruct (f_skus facility !! sku_id sku).
Qed.

Lemma slot_bound mx n i j :
  i < mx → j < n → slot n i j < mx * (n + 1).
Proof.
  unfold slot. intros Hi Hj.
  pose proof (Nat.mul_le_mono_r (S i) mx n Hi).
  rewrite Nat.mul_add_distr_l, Nat.mul_1_r. simpl in *. lia.
Qed.

(** ** Consumer features: the two loops *)

Definition mask_val (self : SCEnvWrapper) (source : nat) (sku : Sku)
  : option Q :=
  src ← facility_levels self !! source;
  ssku ← f_skus src !! sku_id sku;
  Some (vlt ssku).

Lemma export_mask_loop_slot self own sources st :
  export_mask_loop self own sources st
  = slot_loop "consumer_source_export_mask" (_skus self) (sku_id own)
      (mask_val self) sources st.
Proof.
  unfold export_mask_loop, slot_loop. apply foldM_ext.
  intros s [i source]. unfold per_sku_loop. apply foldM_ext.
  intros s' [j sku]. case_decide; [|done]. unfold mask_val.
  destruct (facility_levels self !! source) as [src|]; [|done]. simpl.
  by destruct (f_skus src !! sku_id sku).
Qed.

Lemma in_transit_loop_spec self fm s t0 :
  get_list s "consumer_in_transit_orders" = Some t0 →
  length t0 = _sku_number self →
  Forall (λ sku, sku_id sku < _sku_number self
                 ∧ is_Some (in_transit_orders fm !! sku_id sku))
         (_skus self) →
  ∃ s', in_transit_loop self fm s = Some s'
    ∧ frame ["consumer_in_transit_orders"] s s'
    ∧ ∃ t, get_list s' "consumer_in_transit_orders" = Some t
           ∧ length t = _sku_number self.
Proof.
  intros Ht0 Hlen Hall. unfold in_transit_loop.
  apply (foldM_inv_post (λ s',
    frame ["consumer_in_transit_orders"] s s'
    ∧ ∃ t, get_list s' "consumer_in_transit_orders" = Some t
           ∧ length t = _sku_number self)); [|..|done].
  - split; [done|eauto].
  - intros s1 [i sku] Hin (Hfr & t & Ht & Hlt).
    apply elem_of_enumerate, list_elem_of_lookup_2 in Hin.
    rewrite Forall_forall in Hall. destruct (Hall _ Hin) as (Hid & add & Hadd).
    rewrite Ht. cbn [mbind option_bind].
    destruct (lookup_lt_is_Some_2 t (sku_id sku)) as [cur Hcur]; [lia|].
    rewrite Hcur. cbn [mbind option_bind]. rewrite Hadd.
    cbn [mbind option_bind]. apply get_list_Some in Ht.
    rewrite (state_list_set_Some _ _ t) by (done || lia).
    eexists. split; [done|]. split.
    + apply frame_insert_r; [by left|done].
    + eexists. rewrite get_list_insert_eq. split; [done|].
      by rewrite length_insert.
Qed.

Ltac keys_subset :=
  let k := fresh "k" in
  let Hk := fresh "Hk" in
  intros k Hk; apply (bool_decide_unpack _);
  repeat (apply elem_of_cons in Hk as [->|Hk]; [by vm_compute|]);
  by apply elem_of_nil in Hk.

Ltac keys_disjoint :=
  apply (bool_decide_unpack _); vm_compute; exact I.

Lemma consumer_defaults_frame self st :
  frame consumer_keys st (consumer_defaults self st).
Proof. unfold consumer_defaults. frame_solve. Qed.

Section ConsumerSpec.
Variable np_sqrt : Q → Q.
Variable norm_ppf : Q → Q.

Lemma consumer_features_active_spec self st a facility own pinfo c
    cap mv sm sd sl :
  is_facility a = false →
  facility_levels self !! a_facility_id a = Some facility →
  a_sku a = Some own →
  products facility !! sku_id own = Some pinfo →
  consumer pinfo = Some c →
  default [] (upstreams facility !! sku_id own) ≠ [] →
  wf_consumer self a facility own pinfo →
  sku_id own < _sku_number self →
  get_num st "storage_capacity" = Some cap →
  get_num st "max_vlt" = Some mv →
  get_num st "sale_mean" = Some sm →
  get_num st "sale_std" = Some sd →
  get_num st "service_level" = Some sl →
  ∃ st' in_stock in_transit in_dist m,
    let est := (in_stock + in_transit - in_dist)%Q in
    let rop := (mv * sm + np_sqrt mv * sd * norm_ppf sl)%Q in
    let sources := default [] (upstreams facility !! sku_id own) in
    _add_consumer_features np_sqrt norm_ppf self st a = Some st'
    ∧ frame consumer_keys st st'
    ∧ get_num st' "inventory_in_stock" = Some in_stock
    ∧ get_num st' "inventory_in_transit" = Some in_transit
    ∧ get_num st' "inventory_in_distribution" = Some in_dist
    ∧ get_num st' "inventory_estimated" = Some est
    ∧ get_num st' "inventory_rop" = Some rop
    ∧ get_num st' "is_over_stock" = Some (flag (Py.ge est (0.5 * cap)%Q))
    ∧ get_num st' "is_out_of_stock" = Some (flag (Py.le est 0%Q))
    ∧ get_num st' "is_below_rop" = Some (flag (Py.lt est rop))
    ∧ get_list st' "consumer_source_export_mask" = Some m
    ∧ length m = _max_sources_per_facility self * _sku_number self
    ∧ (∀ i src j sku,
          sources !! i = Some src → _skus self !! j = Some sku →
          sku_id sku = sku_id own →
          Some <$> m !! slot (length (_skus self)) i j
          = Some (mask_val self src sku))
    ∧ (∀ k, (∀ i j sku, i < length sources → _skus self !! j = Some sku →
                        sku_id sku = sku_id own →
                        k ≠ slot (length (_skus self)) i j) →
            m !! k
            = zeros (_max_sources_per_facility self * _sku_number self) !! k).
Proof.
  intros Hfac Hf Hown Hp Hc Hsrc Hwf Hid Hcap Hmv Hsm Hsd Hsl.
  rewrite (consumer_features_active _ _ _ _ _ _ _ _ _ Hfac Hf Hown Hp Hc Hsrc).
  unfold wf_consumer in Hwf. rewrite Hc in Hwf.
  destruct (default [] (upstreams facility !! sku_id own))
    as [|src0 srcs] eqn:Hsources; [done|].
  destruct Hwf as (Hmx & _ & _ & Hsrcs & Hfm & [in_stock Hstock]).
  destruct (m_facilities (_cur_metrics self) !! a_facility_id a)
    as [fm|] eqn:Hfmeq; [|done].
  destruct Hfm as (Hito & Hpo).
  rewrite export_mask_loop_slot.
  destruct (slot_loop_spec "consumer_source_export_mask" (_skus self)
    (sku_id own) (mask_val self) (src0 :: srcs) (consumer_defaults self st)
    (zeros (_max_sources_per_facility self * _sku_number self)))
    as (s1 & m & -> & Hfr1 & Hm & Hlen & Hw & Hu).
  { unfold consumer_defaults. by state_reads. }
  { intros i j Hi Hj. rewrite zeros_length. unfold _sku_number.
    apply slot_bound; lia. }
  { intros i src j sku Hi Hj Hsku. unfold mask_val.
    rewrite Forall_forall in Hsrcs.
    apply list_elem_of_lookup_2, Hsrcs in Hi. unfold wf_source in Hi.
    destruct (facility_levels self !! src) as [fsrc|]; [|done].
    cbn [mbind option_bind]. rewrite Hsku. destruct Hi as [ssku ->].
    by eexists. }
  cbn [mbind option_bind].
  destruct (in_transit_loop_spec self fm s1
    (zeros (_sku_number self))) as (s2 & -> & Hfr2 & t & Ht & Hlt).
  { erewrite (frame_get_list _ _ _ _ Hfr1) by not_in_keys.
    unfold consumer_defaults. by state_reads. }
  { apply zeros_length. }
  { done. }
  cbn [mbind option_bind].
  destruct (lookup_lt_is_Some_2 t (sku_id own)) as [in_transit Htr]; [lia|].
  assert (pending_outflow fm own = Some 0%Q
          ∨ ∃ po x, pending_order fm = Some po ∧ po !! sku_id own = Some x)
    as Hout.
  { unfold pending_outflow. destruct (pending_order fm) as [po|]; [|by left].
    destruct Hpo as [x Hx]. right. eauto. }
  assert (∃ in_dist, pending_outflow fm own = Some in_dist) as [in_dist Hd].
  { destruct Hout as [?|(po & x & Hpo' & Hx)]; [eauto|].
    unfold pending_outflow. rewrite Hpo'. eauto. }
  assert (frame ["consumer_source_export_mask"; "consumer_in_transit_orders"]
                (consumer_defaults self st) s2) as Hfr12.
  { etrans; (eapply frame_weaken; [|eassumption]); keys_subset. }
  assert (frame consumer_keys st s2) as Hfr.
  { etrans; [apply consumer_defaults_frame|].
    eapply frame_weaken; [|exact Hfr12]. keys_subset. }
  assert (∀ k x, k ∉ consumer_keys → get_num st k = Some x →
                 get_num s2 k = Some x) as Hkeep.
  { intros k x Hk. by apply frame_get_num_Some with consumer_keys. }
  assert (∀ k, k ∉ ["consumer_source_export_mask";
                    "consumer_in_transit_orders"] →
               get_num (consumer_defaults self st) k = Some 0%Q →
               get_num s2 k = Some 0%Q) as Hzero.
  { intros k Hk. by eapply frame_get_num_Some. }
  destruct (inventory_tail_spec np_sqrt norm_ppf self a own s2 in_stock t
    in_transit fm in_dist cap mv sm sd sl)
    as (st' & -> & Hfr3 & H1 & H2 & H3 & H4 & H5 & H6 & H7 & H8);
    try done;
    try (apply Hkeep; [not_in_keys|done]);
    try (apply Hzero; [not_in_keys|unfold consumer_defaults; by state_reads]).
  exists st', in_stock, in_transit, in_dist, m.
  cbn zeta. split; [done|]. split.
  { etrans; [exact Hfr|]. eapply frame_weaken; [|exact Hfr3]. keys_subset. }
  do 8 (split; [done|]).
  split.
  { erewrite (frame_get_list _ _ _ _ Hfr3) by not_in_keys.
    erewrite (frame_get_list _ _ _ _ Hfr2) by not_in_keys. done. }
  split; [by rewrite Hlen, zeros_length|]. split; [exact Hw|exact Hu].
Qed.
End ConsumerSpec.

(** ** Assembling the record *)

Lemma is_num_frame ks s s' k :
  frame ks s s' → k ∉ ks → is_num s k → is_num s' k.
Proof. intros H Hk [x Hx]. exists x. by eapply frame_get_num_Some. Qed.

(** The first four extractors, which no claim distinguishes by agent kind. *)
Definition state_prefix (self : SCEnvWrapper) (a : AgentInfo)
  : option RawState :=
  state ← _add_facility_features self ∅ a;
  state ← _add_storage_features self state a;
  state ← _add_bom_features self state a;
  _add_distributor_features self state a.

Definition prefix_keys : list string :=
  storage_keys ++ bom_keys ++ distributor_keys.

(** [facility['storage'].config["capacity"]] of the agent's facility. *)
Definition storage_capacity_of (self : SCEnvWrapper) (a : AgentInfo)
  : option Q :=
  facility ← facility_levels self !! a_facility_id a;
  su ← storage facility;
  config su !! "capacity".

Definition prefix_post (self : SCEnvWrapper) (a : AgentInfo) (st : RawState)
  : Prop :=
  get_list st "is_accepted"
  = Some (zeros (constraint_state_hist_len (settings (env self))))
  ∧ get_list st "constraint_idx" = Some [0%Q]
  ∧ (∃ cap, storage_capacity_of self a = Some cap
            ∧ get_num st "storage_capacity" = Some cap)
  ∧ is_num st "storage_utilization".

Lemma state_prefix_spec self a :
  wf_agent self a →
  ∃ st, state_prefix self a = Some st ∧ prefix_post self a st.
Proof.
  intros Hwf. unfold state_prefix.
  destruct (facility_features_spec self ∅ a Hwf) as (s1 & -> & Hacc & Hidx).
  cbn [mbind option_bind]. unfold wf_agent in Hwf.
  destruct (facility_levels self !! a_facility_id a) as [facility|] eqn:Hf;
    [|done].
  destruct Hwf as ((Hsu & Hall) & Hdist & Hrest).
  destruct (storage facility) as [su|] eqn:Hsu'; [|done].
  destruct Hsu as [cap Hcap].
  destruct (storage_features_spec self s1 a facility su cap)
    as (s2 & Hs2 & Hcap2 & Hu2); [done..|].
  rewrite Hs2. cbn [mbind option_bind].
  destruct (bom_features_total self s2 a) as [s3 Hs3].
  { destruct (is_facility a); [done|]. destruct (a_sku a); [|done].
    by destruct Hrest. }
  rewrite Hs3. cbn [mbind option_bind].
  destruct (distributor_features_total self s3 a facility) as [s4 Hs4];
    [done..|].
  exists s4. split; [done|].
  assert (frame prefix_keys s1 s4) as Hfr1.
  { etrans; [|etrans];
      [eapply frame_weaken; [|by eapply storage_frame]
      |eapply frame_weaken; [|by eapply bom_frame]
      |eapply frame_weaken; [|by eapply distributor_frame]]; keys_subset. }
  assert (frame (bom_keys ++ distributor_keys) s2 s4) as Hfr2.
  { etrans;
      [eapply frame_weaken; [|by eapply bom_frame]
      |eapply frame_weaken; [|by eapply distributor_frame]]; keys_subset. }
  repeat split.
  - by eapply frame_get_list_Some; [exact Hfr1|not_in_keys|].
  - by eapply frame_get_list_Some; [exact Hfr1|not_in_keys|].
  - exists cap. split.
    + unfold storage_capacity_of. rewrite Hf. simpl. by rewrite Hsu'.
    + by eapply frame_get_num_Some; [exact Hfr2|not_in_keys|].
  - eapply is_num_frame; [exact Hfr2|not_in_keys|done].
Qed.

Lemma prefix_post_frame ks self a s s' :
  frame ks s s' →
  Forall (λ k, k ∉ ks)
    ["is_accepted"; "constraint_idx"; "storage_capacity";
     "storage_utilization"] →
  prefix_post self a s → prefix_post self a s'.
Proof.
  intros Hfr Hks (H1 & H2 & (cap & Hc & H3) & H4).
  rewrite !Forall_cons in Hks. destruct Hks as (? & ? & ? & ? & _).
  split; [by eapply frame_get_list_Some|].
  split; [by eapply frame_get_list_Some|].
  split; [|by eapply is_num_frame].
  exists cap. split; [done|]. by eapply frame_get_num_Some.
Qed.

(** ** Sale stage *)

(** The externally supplied windows have the configured lengths. *)
Definition ext_widths_ok (self : SCEnvWrapper) (a : AgentInfo) : Prop :=
  ∀ facility own pinfo pm,
    facility_levels self !! a_facility_id a = Some facility →
    a_sku a = Some own →
    products facility !! sku_id own = Some pinfo →
    m_products (_cur_metrics self) !! a_id a = Some pm →
    (∀ c, consumer pinfo = Some c →
          length (ss_consumer_latest_consumptions (env self)
                    (window (tick (env self))
                            (consumption_hist_len (settings (env self))))
                    (node_index c))
          = consumption_hist_len (settings (env self))
          ∧ length (pending_order_daily pm)
            = pending_order_len (settings (env self)))
    ∧ (∀ s, seller pinfo = Some s →
            length (ss_seller_sold_demand (env self)
                      (window (tick (env self))
                              (sale_hist_len (settings (env self))))
                      (node_index s))
            = 2 * sale_hist_len (settings (env self))).

Definition sale_post (self : SCEnvWrapper) (a : AgentInfo) (st : RawState)
  : Prop :=
  is_num st "sale_mean" ∧ is_num st "sale_std" ∧ is_num st "sale_gamma"
  ∧ is_num st "service_level"
  ∧ ∃ sh ch po,
      get_list st "sale_hist" = Some sh
      ∧ get_list st "consumption_hist" = Some ch
      ∧ get_list st "pending_order" = Some po
      ∧ (ext_widths_ok self a →
         length sh = sale_hist_len (settings (env self))
         ∧ length ch = consumption_hist_len (settings (env self))
         ∧ length po = pending_order_len (settings (env self))).

Lemma sale_stage self a st :
  wf_agent self a →
  ∃ st', _add_sale_features self st a = Some st' ∧ sale_post self a st'.
Proof.
  intros Hwf. destruct (is_facility a) eqn:Hfac.
  - destruct (sale_features_facility self st a Hfac)
      as (st' & -> & H1 & H2 & H3 & H4 & H5 & H6 & H7).
    exists st'. split; [done|]. unfold sale_post, is_num.
    repeat split; eauto. do 3 eexists. repeat split; eauto;
      apply zeros_length.
  - unfold wf_agent in Hwf. rewrite Hfac in Hwf.
    destruct (facility_levels self !! a_facility_id a) as [facility|] eqn:Hf;
      [|done].
    destruct Hwf as (_ & _ & Hwf).
    destruct (a_sku a) as [own|] eqn:Hown; [|done].
    destruct Hwf as (_ & [pm Hpm] & Hwf).
    destruct (products facility !! sku_id own) as [pinfo|] eqn:Hp; [|done].
    destruct Hwf as (Hsell & _).
    destruct (sale_features_product self st a facility own pinfo pm)
      as (st' & -> & H1 & H2 & H3 & H4 & H5 & H6 & H7); [done..|].
    exists st'. split; [done|]. unfold sale_post, is_num.
    repeat split; eauto. do 3 eexists. repeat split; eauto;
      destruct (H facility own pinfo pm) as (Hc & Hs); try done.
    + unfold sale_hist_of. destruct (seller pinfo) as [s|];
        [|apply zeros_length].
      cbn zeta. rewrite length_take, length_map, (Hs s eq_refl).
      rewrite Nat.mul_comm, Nat.div_mul by done. lia.
    + unfold consumption_hist_of. destruct (consumer pinfo) as [c|];
        [|apply zeros_length]. by apply Hc.
    + unfold pending_order_of. destruct (consumer pinfo) as [c|];
        [|apply zeros_length]. by eapply Hc.
Qed.

Lemma sale_post_frame ks self a s s' :
  frame ks s s' →
  Forall (λ k, k ∉ ks)
    ["sale_mean"; "sale_std"; "sale_gamma"; "service_level"; "sale_hist";
     "consumption_hist"; "pending_order"] →
  sale_post self a s → sale_post self a s'.
Proof.
  intros Hfr Hks (H1 & H2 & H3 & H4 & sh & ch & po & H5 & H6 & H7 & H8).
  rewrite !Forall_cons in Hks.
  destruct Hks as (? & ? & ? & ? & ? & ? & ? & _).
  repeat (split; [by eapply is_num_frame|]).
  exists sh, ch, po. repeat (split; [by eapply frame_get_list_Some|]). done.
Qed.

(** ** The agent kinds *)

(** An agent for which the VLT and consumer extractors return their
    defaults: a facility agent, or a product agent without consumer sub-unit
    or without upstream source. *)
Definition idle (self : SCEnvWrapper) (a : AgentInfo) : Prop :=
  is_facility a = true
  ∨ ∃ facility own pinfo,
      is_facility a = false
      ∧ facility_levels self !! a_facility_id a = Some facility
      ∧ a_sku a = Some own
      ∧ products facility !! sku_id own = Some pinfo
      ∧ (consumer pinfo = None
         ∨ default [] (upstreams facility !! sku_id own) = []).

Definition consumer_zero_keys : list string :=
  ["inventory_in_stock"; "inventory_in_transit"; "inventory_in_distribution";
   "inventory_estimated"; "inventory_rop";
   "is_over_stock"; "is_out_of_stock"; "is_below_rop"].

Definition idle_post (self : SCEnvWrapper) (st : RawState) : Prop :=
  get_num st "max_vlt" = Some 0%Q
  ∧ get_list st "vlt"
    = Some (zeros (_max_sources_per_facility self * _sku_number self))
  ∧ get_list st "consumer_source_export_mask"
    = Some (zeros (_max_sources_per_facility self * _sku_number self))
  ∧ get_list st "consumer_source_inventory" = Some (zeros (_sku_number self))
  ∧ get_list st "consumer_in_transit_orders" = Some (zeros (_sku_number self))
  ∧ Forall (λ k, get_num st k = Some 0%Q) consumer_zero_keys.

Definition price_post (self : SCEnvWrapper) (st : RawState) : Prop :=
  get_num st "max_price" = Some (max_price (_cur_metrics self))
  ∧ is_num st "sku_price" ∧ is_num st "sku_cost".

Lemma wf_agent_sku self a :
  wf_agent self a → is_facility a = false → is_Some (a_sku a).
Proof.
  unfold wf_agent. intros Hwf Hfac. rewrite Hfac in Hwf.
  destruct (facility_levels self !! a_facility_id a); [|done].
  destruct Hwf as (_ & _ & Hwf). by destruct (a_sku a).
Qed.

Lemma wf_agent_facility self a :
  wf_agent self a → is_Some (facility_levels self !! a_facility_id a).
Proof.
  unfold wf_agent.
  by destruct (facility_levels self !! a_facility_id a).
Qed.

Section Assembly.
Variable np_sqrt : Q → Q.
Variable norm_ppf : Q → Q.

Lemma _state_eq self a :
  _state np_sqrt norm_ppf self a
  = (state ← state_prefix self a;
     state ← _add_sale_features self state a;
     state ← _add_vlt_features self state a;
     state ← _add_consumer_features np_sqrt norm_ppf self state a;
     _add_price_features self state a).
Proof.
  unfold _state, state_prefix.
  destruct (_add_facility_features self ∅ a) as [s1|]; [|done]. simpl.
  destruct (_add_storage_features self s1 a) as [s2|]; [|done]. simpl.
  by destruct (_add_bom_features self s2 a) as [s3|].
Qed.

Lemma vlt_consumer_idle self a st :
  wf_agent self a → idle self a →
  ∃ s6 s7,
    _add_vlt_features self st a = Some s6
    ∧ _add_consumer_features np_sqrt norm_ppf self s6 a = Some s7
    ∧ frame (vlt_keys ++ consumer_keys) st s7
    ∧ idle_post self s7.
Proof.
  intros Hwf Hidle.
  assert (_add_vlt_features self st a = Some (vlt_defaults self st)
          ∧ ∀ s, _add_consumer_features np_sqrt norm_ppf self s a
                 = Some (consumer_defaults self s)) as [Hv Hc].
  { destruct Hidle as [Hfac|(facility & own & pinfo & Hfac & Hf & Ho & Hp & Hk)].
    - destruct (wf_agent_facility self a Hwf) as [facility Hf]. split.
      + by eapply vlt_features_facility.
      + intros s. by apply consumer_features_facility.
    - split; [by eapply vlt_features_idle|]. intros s.
      destruct Hk as [Hk|Hk].
      + by eapply consumer_features_no_consumer.
      + by eapply consumer_features_no_source. }
  exists (vlt_defaults self st), (consumer_defaults self (vlt_defaults self st)).
  split; [done|]. split; [done|]. split.
  { unfold consumer_defaults, vlt_defaults. frame_solve. }
  unfold idle_post, consumer_defaults, vlt_defaults, consumer_zero_keys.
  repeat split; [state_reads; done..|].
  repeat (apply Forall_cons; split; [by state_reads|]). done.
Qed.

Lemma idle_post_frame ks self s s' :
  frame ks s s' →
  Forall (λ k, k ∉ ks)
    (["max_vlt"; "vlt"; "consumer_source_export_mask";
      "consumer_source_inventory"; "consumer_in_transit_orders"]
     ++ consumer_zero_keys) →
  idle_post self s → idle_post self s'.
Proof.
  intros Hfr Hks (H1 & H2 & H3 & H4 & H5 & H6).
  apply Forall_app in Hks as [Hks Hz].
  rewrite !Forall_cons in Hks. destruct Hks as (? & ? & ? & ? & ? & _).
  split; [by eapply frame_get_num_Some|].
  repeat (split; [by eapply frame_get_list_Some|]).
  rewrite Forall_forall in *. intros k Hk.
  eapply frame_get_num_Some; [done|by apply Hz|by apply H6].
Qed.

(** A well-formed idle agent: the record is built, and the VLT and consumer
    fields hold their defaults. *)
Lemma state_idle self a :
  wf_agent self a → idle self a →
  ∃ st, _state np_sqrt norm_ppf self a = Some st
    ∧ prefix_post self a st ∧ sale_post self a st
    ∧ idle_post self st ∧ price_post self st.
Proof.
  intros Hwf Hidle. rewrite _state_eq.
  destruct (state_prefix_spec self a Hwf) as (s4 & -> & Hpre).
  cbn [mbind option_bind].
  destruct (sale_stage self a s4 Hwf) as (s5 & Hs5 & Hsale).
  rewrite Hs5. cbn [mbind option_bind].
  destruct (vlt_consumer_idle self a s5 Hwf Hidle)
    as (s6 & s7 & -> & Hs7 & Hfr57 & Hpost).
  cbn [mbind option_bind]. rewrite Hs7. cbn [mbind option_bind].
  destruct (price_features_spec self s7 a) as (st & Hst & Hprice);
    [by apply (wf_agent_sku self)|].
  exists st. split; [done|].
  pose proof (price_frame _ _ _ _ Hst) as Hfr78.
  pose proof (sale_frame _ _ _ _ Hs5) as Hfr45.
  assert (frame (vlt_keys ++ consumer_keys ++ price_keys) s5 st) as Hfr5.
  { etrans; (eapply frame_weaken; [|eassumption]); keys_subset. }
  assert (frame (sale_keys ++ vlt_keys ++ consumer_keys ++ price_keys) s4 st)
    as Hfr4.
  { etrans; (eapply frame_weaken; [|eassumption]); keys_subset. }
  split; [|split; [|split]].
  - eapply prefix_post_frame; [exact Hfr4|keys_disjoint|done].
  - eapply sale_post_frame; [exact Hfr5|keys_disjoint|done].
  - eapply idle_post_frame; [exact Hfr78|keys_disjoint|done].
  - done.
Qed.
End Assembly.

(** A per-source-per-sku vector [v]: the slot of each source position and
    each catalogue position of the agent's SKU holds [val]; every other
    slot is zero. *)
Definition slots_filled (self : SCEnvWrapper) (own : Sku) (sources : list nat)
    (val : nat → Sku → option Q) (v : list Q) : Prop :=
  length v = _max_sources_per_facility self * _sku_number self
  ∧ (∀ i src j sku,
        sources !! i = Some src → _skus self !! j = Some sku →
        sku_id sku = sku_id own →
        Some <$> v !! slot (length (_skus self)) i j = Some (val src sku))
  ∧ (∀ k, (∀ i j sku, i < length sources → _skus self !! j = Some sku →
                      sku_id sku = sku_id own →
                      k ≠ slot (length (_skus self)) i j) →
          v !! k
          = zeros (_max_sources_per_facility self * _sku_number self) !! k).

Lemma vlt_stage_active self a st facility own pinfo c :
  is_facility a = false →
  facility_levels self !! a_facility_id a = Some facility →
  a_sku a = Some own →
  products facility !! sku_id own = Some pinfo →
  consumer pinfo = Some c →
  default [] (upstreams facility !! sku_id own) ≠ [] →
  wf_consumer self a facility own pinfo →
  ∃ s6 mv v,
    _add_vlt_features self st a = Some s6
    ∧ UnitBaseInfo_getitem (skuproduct pinfo) "max_vlt" = Some mv
    ∧ get_num s6 "max_vlt" = Some mv
    ∧ get_list s6 "vlt" = Some v
    ∧ slots_filled self own (default [] (upstreams facility !! sku_id own))
                   (vlt_val facility) v.
Proof.
  intros Hfac Hf Hown Hp Hc Hsrc Hwf.
  rewrite (vlt_features_active _ _ _ _ _ _ _ Hfac Hf Hown Hp Hc Hsrc).
  unfold wf_consumer in Hwf. rewrite Hc in Hwf.
  destruct (default [] (upstreams facility !! sku_id own))
    as [|src0 srcs] eqn:Hsources; [done|].
  destruct Hwf as (Hmx & [mv Hmv] & [fsku Hfsku] & _).
  rewrite Hmv.
  destruct (slot_loop_spec "vlt" (_skus self) (sku_id own) (vlt_val facility)
    (src0 :: srcs) (<["max_vlt" := VNum mv]> (vlt_defaults self st))
    (zeros (_max_sources_per_facility self * _sku_number self)))
    as (s6 & v & -> & Hfr & Hv & Hlen & Hw & Hu).
  { unfold vlt_defaults. by state_reads. }
  { intros i j Hi Hj. rewrite zeros_length. unfold _sku_number.
    apply slot_bound; lia. }
  { intros i src j sku Hi Hj Hsku. unfold vlt_val. rewrite Hsku, Hfsku.
    by eexists. }
  exists s6, mv, v. split; [done|]. split; [done|]. split.
  { erewrite (frame_get_num _ _ _ _ Hfr) by not_in_keys. by state_reads. }
  split; [done|]. split; [by rewrite Hlen, zeros_length|]. by split.
Qed.

Section ActiveAssembly.
Variable np_sqrt : Q → Q.
Variable norm_ppf : Q → Q.

(** The product agent with a consumer sub-unit and at least one upstream
    source. *)
Definition active (self : SCEnvWrapper) (a : AgentInfo)
    (facility : FacilityLevel) (own : Sku) (pinfo : ProductInfo) : Prop :=
  is_facility a = false
  ∧ facility_levels self !! a_facility_id a = Some facility
  ∧ a_sku a = Some own
  ∧ products facility !! sku_id own = Some pinfo
  ∧ is_Some (consumer pinfo)
  ∧ default [] (upstreams facility !! sku_id own) ≠ [].

Definition active_post (self : SCEnvWrapper) (facility : FacilityLevel)
    (own : Sku) (pinfo : ProductInfo) (st : RawState) : Prop :=
  ∃ cap mv sm sd sl in_stock in_transit in_dist v m,
    let est := (in_stock + in_transit - in_dist)%Q in
    let rop := (mv * sm + np_sqrt mv * sd * norm_ppf sl)%Q in
    let sources := default [] (upstreams facility !! sku_id own) in
    get_num st "storage_capacity" = Some cap
    ∧ UnitBaseInfo_getitem (skuproduct pinfo) "max_vlt" = Some mv
    ∧ get_num st "max_vlt" = Some mv
    ∧ get_num st "sale_mean" = Some sm
    ∧ get_num st "sale_std" = Some sd
    ∧ get_num st "service_level" = Some sl
    ∧ get_num st "inventory_in_stock" = Some in_stock
    ∧ get_num st "inventory_in_transit" = Some in_transit
    ∧ get_num st "inventory_in_distribution" = Some in_dist
    ∧ get_num st "inventory_estimated" = Some est
    ∧ get_num st "inventory_rop" = Some rop
    ∧ get_num st "is_over_stock" = Some (flag (Py.ge est (0.5 * cap)%Q))
    ∧ get_num st "is_out_of_stock" = Some (flag (Py.le est 0%Q))
    ∧ get_num st "is_below_rop" = Some (flag (Py.lt est rop))
    ∧ get_list st "vlt" = Some v
    ∧ slots_filled self own sources (vlt_val facility) v
    ∧ get_list st "consumer_source_export_mask" = Some m
    ∧ slots_filled self own sources (mask_val self) m.

Definition active_fields : list string :=
  (["storage_capacity"; "max_vlt"; "sale_mean"; "sale_std";
    "service_level"; "vlt"; "consumer_source_export_mask"]
   ++ consumer_zero_keys)%list.

Lemma active_post_frame ks self facility own pinfo s s' :
  frame ks s s' →
  Forall (λ k, k ∉ ks) active_fields →
  active_post self facility own pinfo s →
  active_post self facility own pinfo s'.
Proof.
  intros Hfr Hks.
  rewrite Forall_forall in Hks.
  assert (∀ k x, k ∈ active_fields →
                 get_num s k = Some x → get_num s' k = Some x) as Hn.
  { intros k x Hk. eapply frame_get_num_Some; [done|by apply Hks]. }
  assert (∀ k x, k ∈ active_fields →
                 get_list s k = Some x → get_list s' k = Some x) as Hl.
  { intros k x Hk. eapply frame_get_list_Some; [done|by apply Hks]. }
  intros (cap & mv & sm & sd & sl & a1 & a2 & a3 & v & m & H).
  exists cap, mv, sm, sd, sl, a1, a2, a3, v, m. cbn zeta in *.
  destruct H as (H1 & H2 & H3 & H4 & H5 & H6 & H7 & H8 & H9 & H10 & H11
                 & H12 & H13 & H14 & H15 & H16 & H17 & H18).
  repeat split; try done;
    first [ apply Hn; [keys_disjoint|done]
          | apply Hl; [keys_disjoint|done]
          | apply H16 | apply H18 ].
Qed.

Lemma state_active self a facility own pinfo :
  wf_agent self a → active self a facility own pinfo →
  ∃ st, _state np_sqrt norm_ppf self a = Some st
    ∧ prefix_post self a st ∧ sale_post self a st
    ∧ active_post self facility own pinfo st ∧ price_post self st.
Proof.
  intros Hwf (Hfac & Hf & Hown & Hp & [c Hc] & Hsrc). rewrite _state_eq.
  destruct (state_prefix_spec self a Hwf) as (s4 & -> & Hpre).
  cbn [mbind option_bind].
  destruct (sale_stage self a s4 Hwf) as (s5 & Hs5 & Hsale).
  rewrite Hs5. cbn [mbind option_bind].
  assert (sku_id own < _sku_number self
          ∧ wf_consumer self a facility own pinfo) as [Hid Hwfc].
  { unfold wf_agent in Hwf. rewrite Hf, Hfac, Hown, Hp in Hwf.
    by destruct Hwf as (_ & _ & ? & _ & _ & ?). }
  destruct (vlt_stage_active self a s5 facility own pinfo c)
    as (s6 & mv & v & Hs6 & Hsum & Hmv & Hv & Hvs); [done..|].
  rewrite Hs6. cbn [mbind option_bind].
  pose proof (sale_frame _ _ _ _ Hs5) as Hfr45.
  pose proof (vlt_frame _ _ _ _ Hs6) as Hfr56.
  assert (prefix_post self a s6) as Hpre6.
  { eapply prefix_post_frame; [exact Hfr56|keys_disjoint|].
    eapply prefix_post_frame; [exact Hfr45|keys_disjoint|done]. }
  assert (sale_post self a s6) as Hsale6.
  { eapply sale_post_frame; [exact Hfr56|keys_disjoint|done]. }
  destruct Hpre6 as (Hacc & Hidx & (cap & Hcapof & Hcap) & Hutil).
  destruct Hsale6 as ([sm Hsm] & [sd Hsd] & Hgam & [sl Hsl] & Hlists).
  destruct (consumer_features_active_spec np_sqrt norm_ppf self s6 a
    facility own pinfo c cap mv sm sd sl)
    as (s7 & a1 & a2 & a3 & m & Hs7 & Hfr67 & T1 & T2 & T3 & T4 & T5 & T6
        & T7 & T8 & Hm & Hmlen & Hmw & Hmu); [done..|].
  cbn zeta in *. rewrite Hs7. cbn [mbind option_bind].
  destruct (price_features_spec self s7 a) as (st & Hst & Hprice);
    [by apply (wf_agent_sku self)|].
  exists st. split; [done|].
  pose proof (price_frame _ _ _ _ Hst) as Hfr78.
  assert (frame (consumer_keys ++ price_keys) s6 st) as Hfr6.
  { etrans; (eapply frame_weaken; [|eassumption]); keys_subset. }
  split; [|split; [|split]].
  - eapply prefix_post_frame; [exact Hfr6|keys_disjoint|].
    split; [done|]. split; [done|]. split; [eauto|done].
  - eapply sale_post_frame; [exact Hfr6|keys_disjoint|].
    unfold sale_post, is_num. eauto 10.
  - eapply active_post_frame; [exact Hfr78|keys_disjoint|].
    exists cap, mv, sm, sd, sl, a1, a2, a3, v, m. cbn zeta.
    assert (∀ k x, k ∉ consumer_keys → get_num s6 k = Some x →
                   get_num s7 k = Some x) as Hn.
    { intros k x Hk. by eapply frame_get_num_Some. }
    repeat split; try done; try (apply Hn; [not_in_keys|done]);
      try apply Hvs.
    by eapply frame_get_list_Some; [exact Hfr67|not_in_keys|].
  - done.
Qed.
End ActiveAssembly.

(** ** Serialization *)




Lemma normalize_Some ref x :
  (0 <= ref)%Q →
  normalize ref x = Some (Py.max 0 (Py.min 100 (x / (ref + 0.01))))%Q.
Proof.
  intros Href. unfold normalize, Py.div.
  destruct (Qeq_bool (ref + 0.01) 0) eqn:Hz; [|done].
  apply Qeq_bool_eq in Hz. lra.
Qed.

(** The fields in emission order, each with its normalization reference:
    [keys_in_state] flattened. *)
Definition serialized_fields : list (option string * string) :=
  [ (None, "is_over_stock"); (None, "is_out_of_stock"); (None, "is_below_rop");
    (None, "constraint_idx"); (None, "is_accepted"); (None, "consumption_hist");
    (Some "storage_capacity", "storage_utilization");
    (Some "sale_gamma", "sale_std"); (Some "sale_gamma", "sale_hist");
    (Some "sale_gamma", "pending_order");
    (Some "sale_gamma", "inventory_in_stock");
    (Some "sale_gamma", "inventory_in_transit");
    (Some "sale_gamma", "inventory_estimated");
    (Some "sale_gamma", "inventory_rop");
    (Some "max_price", "sku_price"); (Some "max_price", "sku_cost") ].

Lemma serialized_fields_eq :
  serialized_fields
  = flat_map (λ '(norm, fields), map (λ f, (norm, f)) fields) keys_in_state.
Proof. reflexivity. Qed.

(** [out] is the concatenation of what each field contributes, in order. *)
Definition laid_out (st : RawState) (out : list Q) : Prop :=
  ∃ chunks,
    Forall2 (λ nf chunk, serialize_field st nf.1 nf.2 = Some chunk)
            serialized_fields chunks
    ∧ out = concat chunks.

Lemma serialize_agent_laid_out st out :
  serialize_agent st = Some out ↔ laid_out st out.
Proof.
  unfold serialize_agent, keys_in_state, laid_out, serialized_fields.
  cbn [Py.foldM]. split.
  - intros H.
    repeat match goal with
           | H : _ ≫= _ = Some _ |- _ => inv_bind H
           | H : Some _ = Some _ |- _ => apply (inj Some) in H; subst
           end.
    eexists [_;_;_;_;_;_;_;_;_;_;_;_;_;_;_;_]. split.
    + repeat (apply Forall2_cons; split; [eassumption|]). constructor.
    + cbn [concat]. rewrite app_nil_r, !app_assoc. done.
  - intros (chunks & Hall & ->).
    repeat (apply Forall2_cons_inv_l in Hall as (? & ? & Hc & Hall & ->);
            cbn [fst snd] in Hc; rewrite Hc; clear Hc;
            cbn [mbind option_bind]).
    apply Forall2_nil_inv_l in Hall as ->.
    cbn [concat]. rewrite app_nil_r, !app_assoc. done.
Qed.

(** The values a field holds, as the serializer reads them. *)
Definition field_vals (st : RawState) (field : string) : option (list Q) :=
  v ← st !! field; as_vals v.

Lemma field_vals_num st k x : get_num st k = Some x → field_vals st k = Some [x].
Proof. intros H%get_num_Some. unfold field_vals. by rewrite H. Qed.

Lemma field_vals_list st k l : get_list st k = Some l → field_vals st k = Some l.
Proof. intros H%get_list_Some. unfold field_vals. by rewrite H. Qed.

Lemma serialize_field_length st norm field chunk :
  serialize_field st norm field = Some chunk →
  ∃ vals, field_vals st field = Some vals ∧ length chunk = length vals.
Proof.
  unfold serialize_field, field_vals. intros H. inv_bind H. inv_bind H.
  rewrite E. simpl. rewrite E0. eexists. split; [done|].
  destruct norm; [|by simplify_eq]. symmetry. by eapply length_mapM.
Qed.

Lemma serialize_field_raw st field vals :
  field_vals st field = Some vals → serialize_field st None field = Some vals.
Proof.
  unfold serialize_field, field_vals. intros H. inv_bind H.
  rewrite E. simpl. by rewrite H.
Qed.

Lemma serialize_field_norm st norm field vals ref :
  field_vals st field = Some vals →
  get_num st norm = Some ref → (0 <= ref)%Q →
  serialize_field st (Some norm) field
  = Some (map (λ x, Py.max 0 (Py.min 100 (x / (ref + 0.01))))%Q vals).
Proof.
  unfold serialize_field, field_vals. intros H Hr Href. inv_bind H.
  rewrite E. simpl. rewrite H. simpl. apply mapM_Some_2.
  apply Forall2_fmap_r, Forall_Forall2_diag, Forall_forall.
  intros y _. rewrite Hr. simpl. by apply normalize_Some.
Qed.

(** ** The record of one agent *)

(** The width each serialized field has when the windows supplied by the
    simulator have their configured lengths. *)
Definition field_width (s : Settings) (field : string) : nat :=
  if String.eqb field "is_accepted" then constraint_state_hist_len s
  else if String.eqb field "consumption_hist" then consumption_hist_len s
  else if String.eqb field "sale_hist" then sale_hist_len s
  else if String.eqb field "pending_order" then pending_order_len s
  else 1.

Definition state_width (s : Settings) : nat :=
  12 + constraint_state_hist_len s + consumption_hist_len s
  + sale_hist_len s + pending_order_len s.

Lemma state_width_eq s :
  sum_list (map (λ nf, field_width s nf.2) serialized_fields) = state_width s.
Proof. unfold state_width. cbn. lia. Qed.

(** Every serialized field holds numbers, of the expected width. *)
Definition shaped (self : SCEnvWrapper) (a : AgentInfo) (st : RawState)
  : Prop :=
  Forall (λ nf, ∃ vals,
            field_vals st nf.2 = Some vals
            ∧ (ext_widths_ok self a →
               length vals = field_width (settings (env self)) nf.2))
         serialized_fields
  ∧ Forall (is_num st) ["storage_capacity"; "sale_gamma"; "max_price"].

Lemma shaped_intro self a st :
  prefix_post self a st → sale_post self a st → price_post self st →
  Forall (is_num st) consumer_zero_keys →
  shaped self a st.
Proof.
  intros (Hacc & Hidx & (cap & _ & Hcap) & [u Hu])
         ([sm Hsm] & [sd Hsd] & [sg Hsg] & _ & sh & ch & po & Hsh & Hch & Hpo
          & Hlen)
         (Hmp & [sp Hsp] & [sc Hsc]) Hz.
  unfold consumer_zero_keys in Hz. rewrite !Forall_cons in Hz.
  destruct Hz as ([x1 H1] & [x2 H2] & _ & [x4 H4] & [x5 H5] & [x6 H6] & [x7 H7]
                  & [x8 H8] & _).
  assert (∀ k x, get_num st k = Some x →
                 String.eqb k "is_accepted" = false →
                 String.eqb k "consumption_hist" = false →
                 String.eqb k "sale_hist" = false →
                 String.eqb k "pending_order" = false →
                 ∃ vals, field_vals st k = Some vals
                   ∧ (ext_widths_ok self a →
                      length vals = field_width (settings (env self)) k))
    as Hnum.
  { intros k x Hk E1 E2 E3 E4. exists [x]. split; [by apply field_vals_num|].
    intros _. unfold field_width. by rewrite E1, E2, E3, E4. }
  split.
  - unfold serialized_fields.
    repeat (apply Forall_cons; split); [..|by constructor]; cbn [snd];
      try (eapply Hnum; [eassumption|reflexivity..]).
    + exists [0%Q]. split; [by apply field_vals_list|done].
    + eexists. split; [by apply field_vals_list|].
      intros _. apply zeros_length.
    + eexists. split; [by apply field_vals_list|].
      intros He. by destruct (Hlen He) as (? & ? & ?).
    + eexists. split; [by apply field_vals_list|].
      intros He. by destruct (Hlen He) as (? & ? & ?).
    + eexists. split; [by apply field_vals_list|].
      intros He. by destruct (Hlen He) as (? & ? & ?).
  - repeat (apply Forall_cons; split); [by eexists..|by constructor].
Qed.

Lemma laid_out_length self a st out :
  shaped self a st → ext_widths_ok self a → laid_out st out →
  length out = state_width (settings (env self)).
Proof.
  intros [Hsh _] Hext (chunks & Hall & ->).
  rewrite <- state_width_eq. revert Hsh Hall.
  generalize serialized_fields. intros fields.
  revert chunks. induction fields as [|nf fields IH]; intros chunks Hsh Hall.
  - by apply Forall2_nil_inv_l in Hall as ->.
  - apply Forall2_cons_inv_l in Hall as (chunk & chunks' & Hc & Hall & ->).
    apply Forall_cons in Hsh as [(vals & Hv & Hlen) Hsh].
    apply serialize_field_length in Hc as (vals' & Hv' & Hlen').
    simplify_eq. cbn [concat map sum_list]. rewrite length_app.
    rewrite (IH _ Hsh Hall). rewrite Hlen', Hlen by done. done.
Qed.

Definition refs_nonneg (st : RawState) : Prop :=
  Forall (λ ref, ∀ x, get_num st ref = Some x → (0 <= x)%Q)
         ["storage_capacity"; "sale_gamma"; "max_price"].

Lemma shaped_serializes self a st :
  shaped self a st → refs_nonneg st → is_Some (serialize_agent st).
Proof.
  intros [Hsh Hrefs] Hnn. unfold refs_nonneg in Hnn.
  rewrite !Forall_cons in Hrefs, Hnn.
  destruct Hrefs as ([r1 Hr1] & [r2 Hr2] & [r3 Hr3] & _).
  destruct Hnn as (Hn1 & Hn2 & Hn3 & _).
  specialize (Hn1 _ Hr1). specialize (Hn2 _ Hr2). specialize (Hn3 _ Hr3).
  assert (∀ nf, nf ∈ serialized_fields →
                is_Some (serialize_field st nf.1 nf.2)) as Hf.
  { rewrite Forall_forall in Hsh. intros nf Hin.
    destruct (Hsh nf Hin) as (vals & Hv & _).
    unfold serialized_fields in Hin.
    repeat (apply elem_of_cons in Hin as [->|Hin];
            [cbn [fst snd] in *;
             first [ by erewrite serialize_field_raw
                   | by erewrite serialize_field_norm ]|]).
    by apply elem_of_nil in Hin. }
  assert (∃ chunks,
    Forall2 (λ nf chunk, serialize_field st nf.1 nf.2 = Some chunk)
            serialized_fields chunks) as [chunks Hc].
  { revert Hf. generalize serialized_fields. intros fields.
    induction fields as [|nf fields IH]; intros Hf; [by exists []|].
    destruct (Hf nf) as [chunk Hc]; [by left|].
    destruct IH as [chunks Hcs]; [intros ??; apply Hf; by right|].
    exists (chunk :: chunks). by constructor. }
  exists (concat chunks). apply serialize_agent_laid_out. by exists chunks.
Qed.

Section Build.
Variable np_sqrt : Q → Q.
Variable norm_ppf : Q → Q.

Lemma global_frame self st :
  frame ["global_time"] st (_add_global_features self st).
Proof. unfold _add_global_features. frame_solve. Qed.

Lemma build_idle self a :
  wf_agent self a → idle self a →
  ∃ st, build_agent_state np_sqrt norm_ppf self a = Some st
    ∧ is_Some (st !! "global_time")
    ∧ prefix_post self a st ∧ sale_post self a st
    ∧ idle_post self st ∧ price_post self st.
Proof.
  intros Hwf Hidle.
  destruct (state_idle np_sqrt norm_ppf self a Hwf Hidle)
    as (st & Hst & H1 & H2 & H3 & (H4 & H5 & H6)).
  unfold build_agent_state. rewrite Hst. cbn [mbind option_bind].
  eexists. split; [done|].
  pose proof (global_frame self st) as Hfr.
  split; [unfold _add_global_features; by rewrite lookup_insert_eq|].
  split; [eapply prefix_post_frame; [exact Hfr|keys_disjoint|done]|].
  split; [eapply sale_post_frame; [exact Hfr|keys_disjoint|done]|].
  split; [eapply idle_post_frame; [exact Hfr|keys_disjoint|done]|].
  split; [by eapply frame_get_num_Some; [exact Hfr|not_in_keys|]|].
  split; (eapply is_num_frame; [exact Hfr|not_in_keys|done]).
Qed.

Lemma build_active self a facility own pinfo :
  wf_agent self a → active self a facility own pinfo →
  ∃ st, build_agent_state np_sqrt norm_ppf self a = Some st
    ∧ is_Some (st !! "global_time")
    ∧ prefix_post self a st ∧ sale_post self a st
    ∧ active_post np_sqrt norm_ppf self facility own pinfo st
    ∧ price_post self st.
Proof.
  intros Hwf Hact.
  destruct (state_active np_sqrt norm_ppf self a facility own pinfo Hwf Hact)
    as (st & Hst & H1 & H2 & H3 & (H4 & H5 & H6)).
  unfold build_agent_state. rewrite Hst. cbn [mbind option_bind].
  eexists. split; [done|].
  pose proof (global_frame self st) as Hfr.
  split; [unfold _add_global_features; by rewrite lookup_insert_eq|].
  split; [eapply prefix_post_frame; [exact Hfr|keys_disjoint|done]|].
  split; [eapply sale_post_frame; [exact Hfr|keys_disjoint|done]|].
  split; [eapply active_post_frame; [exact Hfr|keys_disjoint|done]|].
  split; [by eapply frame_get_num_Some; [exact Hfr|not_in_keys|]|].
  split; (eapply is_num_frame; [exact Hfr|not_in_keys|done]).
Qed.

(** Every well-formed agent is of one of the two kinds. *)
Lemma idle_or_active self a :
  wf_agent self a →
  idle self a ∨ ∃ facility own pinfo, active self a facility own pinfo.
Proof.
  intros Hwf. unfold idle, active.
  destruct (is_facility a) eqn:Hfac; [by do 2 left|].
  unfold wf_agent in Hwf. rewrite Hfac in Hwf.
  destruct (facility_levels self !! a_facility_id a) as [facility|] eqn:Hf;
    [|done].
  destruct Hwf as (_ & _ & Hwf).
  destruct (a_sku a) as [own|] eqn:Hown; [|done].
  destruct Hwf as (_ & _ & Hwf).
  destruct (products facility !! sku_id own) as [pinfo|] eqn:Hp; [|done].
  destruct (consumer pinfo) as [c|] eqn:Hc;
    [|left; right; exists facility, own, pinfo; eauto 10].
  destruct (default [] (upstreams facility !! sku_id own)) eqn:Hs.
  - left. right. exists facility, own, pinfo. eauto 10.
  - right. exists facility, own, pinfo. rewrite Hs, Hc. eauto 10.
Qed.

Lemma idle_nums self st :
  idle_post self st → Forall (is_num st) consumer_zero_keys.
Proof.
  intros (_ & _ & _ & _ & _ & Hz). eapply Forall_impl; [exact Hz|].
  intros k Hk. by exists 0%Q.
Qed.

Lemma active_nums self facility own pinfo st :
  active_post np_sqrt norm_ppf self facility own pinfo st →
  Forall (is_num st) consumer_zero_keys.
Proof.
  intros (cap & mv & sm & sd & sl & a1 & a2 & a3 & v & m & H).
  cbn zeta in H. unfold consumer_zero_keys.
  repeat (apply Forall_cons; split); [..|by constructor];
    eexists; apply H.
Qed.

Lemma build_shaped self a :
  wf_agent self a →
  ∃ st, build_agent_state np_sqrt norm_ppf self a = Some st
    ∧ is_Some (st !! "global_time") ∧ shaped self a st.
Proof.
  intros Hwf.
  destruct (idle_or_active self a Hwf)
    as [Hidle|(facility & own & pinfo & Hact)].
  - destruct (build_idle self a Hwf Hidle)
      as (st & Hst & Hg & H1 & H2 & H3 & H4).
    exists st. split; [done|]. split; [done|].
    apply shaped_intro; try done. by eapply idle_nums.
  - destruct (build_active self a facility own pinfo Hwf Hact)
      as (st & Hst & Hg & H1 & H2 & H3 & H4).
    exists st. split; [done|]. split; [done|].
    apply shaped_intro; try done. by eapply active_nums.
Qed.
End Build.

(** ** Loops over dictionaries *)

Lemma dict_mapM_key_spec {A B} (f : nat → A → option B) (d : gmap nat A) :
  match dict_mapM_key f d with
  | Some r => ∀ k, r !! k = d !! k ≫= f k
  | None => ∃ k a, d !! k = Some a ∧ f k a = None
  end.
Proof.
  unfold dict_mapM_key.
  apply (map_fold_weak_ind (λ acc m,
    match acc with
    | Some r => ∀ k, r !! k = m !! k ≫= f k
    | None => ∃ k a, m !! k = Some a ∧ f k a = None
    end)).
  - intros k. by rewrite !lookup_empty.
  - intros i x m [out|] Hi IH; cbn [mbind option_bind].
    + destruct (f i x) as [b|] eqn:Hb; cbn [mbind option_bind].
      * intros k. destruct (decide (i = k)) as [->|Hne].
        -- rewrite !lookup_insert_eq. simpl. by rewrite Hb.
        -- rewrite !lookup_insert_ne by done. apply IH.
      * exists i, x. by rewrite lookup_insert_eq.
    + destruct IH as (k & a & Hk & Hf). exists k, a. split; [|done].
      rewrite lookup_insert_ne; [done|]. intros ->. congruence.
Qed.

Lemma dict_mapM_key_Some {A B} (f : nat → A → option B) (d : gmap nat A) :
  (∀ k a, d !! k = Some a → is_Some (f k a)) →
  ∃ r, dict_mapM_key f d = Some r ∧ ∀ k, r !! k = d !! k ≫= f k.
Proof.
  intros Hf. pose proof (dict_mapM_key_spec f d) as H.
  destruct (dict_mapM_key f d) as [r|]; [eauto|].
  destruct H as (k & a & Hk & Hn). destruct (Hf k a Hk) as [b Hb]. congruence.
Qed.

Lemma dict_copy_id (d : gmap nat Q) : dict_copy d = d.
Proof.
  unfold dict_copy.
  apply (map_fold_weak_ind (λ (r m : gmap nat Q), r = m)); [done|].
  by intros i x m r _ ->.
Qed.

(** ** Rewards *)

(** The balance an entity's own balance is blended with. *)
Definition parent_balance (self : SCEnvWrapper) (x : nat) : option Q :=
  match unit_2_facility_dict self !! x with
  | Some facility_id => step_balance_sheet (_cur_metrics self) !! facility_id
  | None => step_balance_sheet (_cur_metrics self) !! x
  end.

(** Every sub-unit with a balance has its facility's balance recorded. *)
Definition owners_balanced (self : SCEnvWrapper) : Prop :=
  map_Forall (λ x _, is_Some (parent_balance self x))
             (step_balance_sheet (_cur_metrics self)).

Lemma get_reward_spec self t :
  owners_balanced self →
  ∃ r, get_reward self t = Some r
    ∧ role_producer r = step_balance_sheet (_cur_metrics self)
    ∧ ∀ x, role_consumer r !! x
           = (b ← step_balance_sheet (_cur_metrics self) !! x;
              p ← parent_balance self x;
              Some (global_reward_weight_consumer (settings (env self)) * p
                    + (1 - global_reward_weight_consumer (settings (env self)))
                      * b)%Q).
Proof.
  intros Hown. unfold get_reward.
  destruct (dict_mapM_key_Some
    (λ (f_id : nat) (sheet : Q),
       match unit_2_facility_dict self !! f_id with
       | Some facility_id =>
           step_balance_sheet (_cur_metrics self) !! facility_id
       | None => Some sheet
       end) (step_balance_sheet (_cur_metrics self))) as (pb & -> & Hpb).
  { intros k a Hk. specialize (Hown k a Hk). unfold parent_balance in Hown.
    destruct (unit_2_facility_dict self !! k); [done|by eexists]. }
  cbn [mbind option_bind].
  assert (∀ k a, step_balance_sheet (_cur_metrics self) !! k = Some a →
                 pb !! k = parent_balance self k) as Hpb'.
  { intros k a Hk. rewrite Hpb, Hk. simpl. unfold parent_balance.
    destruct (unit_2_facility_dict self !! k); [done|by rewrite Hk]. }
  destruct (dict_mapM_key_Some
    (λ (f_id : nat) (reward : Q),
       parent ← pb !! f_id;
       Some (global_reward_weight_consumer (settings (env self)) * parent
             + (1 - global_reward_weight_consumer (settings (env self)))
               * reward)%Q)
    (step_balance_sheet (_cur_metrics self))) as (cr & -> & Hcr).
  { intros k a Hk. rewrite (Hpb' k a Hk).
    destruct (Hown k a Hk) as [p ->]. by eexists. }
  cbn [mbind option_bind]. eexists. split; [done|].
  cbn [role_consumer role_producer]. rewrite !dict_copy_id. split; [done|].
  intros x. rewrite Hcr.
  destruct (step_balance_sheet (_cur_metrics self) !! x) as [b|] eqn:Hb;
    [|done].
  cbn [mbind option_bind]. by rewrite (Hpb' x b Hb).
Qed.

(** ** Actions *)

(** The action built for one agent id once the side table exists. *)
Definition action_of (tbl : gmap nat StateInfo) (agent_id : nat) (action : Q)
  : EnvAction :=
  match tbl !! agent_id with
  | Some info =>
      ConsumerAction agent_id (si_product_id info) (si_source_id info)
                     action 1%Q
  | None => ManufactureAction agent_id action
  end.

Lemma get_action_spec self tbl (action_by_agent : gmap nat Q) :
  state_info self = Some tbl →
  ∃ r, get_action self action_by_agent = Some r
    ∧ ∀ a, r !! a = action_of tbl a <$> action_by_agent !! a.
Proof.
  intros Htbl. unfold get_action.
  apply (map_fold_weak_ind (λ acc (m : gmap nat Q),
    ∃ r : gmap nat EnvAction,
      acc = Some r ∧ ∀ a, r !! a = action_of tbl a <$> m !! a)).
  - exists ∅. split; [done|]. intros a. by rewrite !lookup_empty.
  - intros i x m acc Hi (r & -> & Hr). cbn [mbind option_bind].
    rewrite Htbl. cbn [mbind option_bind].
    exists (<[i := action_of tbl i x]> r). split.
    + unfold action_of. destruct (tbl !! i) as [info|] eqn:Hinfo.
      * by rewrite bool_decide_true by eauto.
      * by rewrite bool_decide_false by by intros [].
    + intros a. destruct (decide (i = a)) as [->|Hne].
      * by rewrite !lookup_insert_eq.
      * rewrite !lookup_insert_ne by done. apply Hr.
Qed.

Lemma get_action_empty self : get_action self ∅ = Some ∅.
Proof. unfold get_action. by rewrite map_fold_empty. Qed.

(** ** The state of all agents *)

Section GetState.
Variable np_sqrt : Q → Q.
Variable norm_ppf : Q → Q.

Lemma get_state_step_roles acc a acc' :
  _get_state_step np_sqrt norm_ppf acc a = Some acc' →
  role_consumer acc.2 = role_producer acc.2 →
  role_consumer acc'.2 = role_producer acc'.2.
Proof.
  destruct acc as [self state]. unfold _get_state_step. intros H Heq.
  inv_bind H. inv_bind H. inv_bind H. simplify_eq. simpl in *.
  by rewrite Heq.
Qed.

Lemma get_state_loop_roles agents acc acc' :
  Py.foldM (_get_state_step np_sqrt norm_ppf) agents acc = Some acc' →
  role_consumer acc.2 = role_producer acc.2 →
  role_consumer acc'.2 = role_producer acc'.2.
Proof.
  revert acc. induction agents as [|a agents IH]; simpl; intros acc H Heq.
  - by simplify_eq.
  - inv_bind H. eapply IH; [done|]. by eapply get_state_step_roles.
Qed.

Lemma get_state_roles self self' r :
  _get_state np_sqrt norm_ppf self = Some (self', r) →
  role_consumer r = role_producer r.
Proof.
  unfold _get_state. intros H. inv_bind H. destruct x as [self1 state].
  apply get_state_loop_roles in E; [|done]. simpl in E.
  unfold _serialize_state in H. inv_bind H. simplify_eq.
  inv_bind E0. inv_bind E0. simplify_eq. simpl. rewrite E in E1.
  congruence.
Qed.

(** The loop body builds the record with [build_agent_state]. *)
Lemma get_state_step_build self state a facility st :
  facility_levels self !! a_facility_id a = Some facility →
  storage facility = Some st →
  let self' := set_cur_storage self
    (Py.dict_of_zip
       (ss_storage_product_list (env self) (tick (env self)) (node_index st))
       (map Py.astype_int
          (ss_storage_product_number (env self) (tick (env self))
                                     (node_index st))))
    (foldl (λ d '(i, product_id), Py.dict_set d product_id i) []
       (Py.enumerate
          (ss_storage_product_list (env self) (tick (env self))
                                   (node_index st)))) in
  _get_state_step np_sqrt norm_ppf (self, state) a
  = (f_state ← build_agent_state np_sqrt norm_ppf self' a;
     Some (self',
           {| role_consumer := <[a_id a := f_state]> (role_consumer state);
              role_producer := <[a_id a := f_state]> (role_producer state)
           |})).
Proof.
  intros Hf Hs. unfold _get_state_step, build_agent_state.
  rewrite Hf. cbn [mbind option_bind]. rewrite Hs. cbn [mbind option_bind].
  cbn zeta. by destruct (_state _ _ _ _).
Qed.
End GetState.

(** * The claims *)

(** A 0/1 flag [x] is set exactly when [P] holds. *)
Definition set_exactly_when (x : Q) (P : Prop) : Prop :=
  (x = 1%Q ∧ P) ∨ (x = 0%Q ∧ ¬ P).

Lemma flag_exactly_when (b : bool) (P : Prop) :
  (b = true ↔ P) → set_exactly_when (flag b) P.
Proof.
  intros H. destruct b; [left|right]; split; try done.
  - by apply H.
  - intros HP. by apply H in HP.
Qed.

(** The slot [k] belongs to a source position and a catalogue position of
    the agent's SKU. *)
Definition designated (self : SCEnvWrapper) (own : Sku) (sources : list nat)
    (k : nat) : Prop :=
  ∃ i j sku, i < length sources ∧ _skus self !! j = Some sku
             ∧ sku_id sku = sku_id own
             ∧ k = i * length (_skus self) + j + 1.

Lemma slots_filled_zero self own sources val v k :
  slots_filled self own sources val v →
  k < length v → ¬ designated self own sources k → v !! k = Some 0%Q.
Proof.
  intros (Hlen & _ & Hu) Hk Hn. rewrite Hu.
  - apply lookup_replicate. split; [done|]. by rewrite <- Hlen.
  - intros i j sku Hi Hj Hs ->. apply Hn. by exists i, j, sku.
Qed.

Lemma fmap_Some_eq {A} (o o' : option A) : Some <$> o = Some o' → o = o'.
Proof. destruct o; simpl; congruence. Qed.

Lemma zeros_undesignated n k : k < n → zeros n !! k = Some 0%Q.
Proof. intros. by apply lookup_replicate. Qed.

Section Claims.
Variable np_sqrt : Q → Q.
Variable norm_ppf : Q → Q.

(** C1, as amended.  The record of every well-formed agent is built; its
    serialization, which exists whenever the three normalization
    references are non-negative, is the concatenation of what the sixteen
    fields of [serialized_fields] contribute, in that order (the other
    fields of the record are not emitted); and its length is
    [state_width], the same for all agents and ticks, when the windows
    supplied by the simulator have their configured lengths. *)
Theorem C1_serialize_layout self a :
  wf_agent self a →
  ∃ st, build_agent_state np_sqrt norm_ppf self a = Some st
    ∧ (refs_nonneg st → is_Some (serialize_agent st))
    ∧ ∀ out, serialize_agent st = Some out →
             laid_out st out
             ∧ (ext_widths_ok self a →
                length out = state_width (settings (env self))).
Proof.
  intros Hwf.
  destruct (build_shaped np_sqrt norm_ppf self a Hwf) as (st & Hst & _ & Hsh).
  exists st. split; [done|]. split; [by eapply shaped_serializes|].
  intros out Hout. apply serialize_agent_laid_out in Hout.
  split; [done|]. intros Hext. by eapply laid_out_length.
Qed.

(** C2.  When every sub-unit with a balance has its facility's balance
    recorded, [get_reward] returns, for every entity [x] of the balance
    sheet, producer[x] = balance[x] and
    consumer[x] = wc * parentBalance[x] + (1 - wc) * balance[x]; at wc = 0
    the consumer reward is the own balance, at wc = 1 the parent's. *)
Theorem C2_reward_blend self t :
  owners_balanced self →
  ∃ r, get_reward self t = Some r
    ∧ ∀ x b, step_balance_sheet (_cur_metrics self) !! x = Some b →
        ∃ p c,
          let wc := global_reward_weight_consumer (settings (env self)) in
          parent_balance self x = Some p
          ∧ role_producer r !! x = Some b
          ∧ role_consumer r !! x = Some c
          ∧ c = (wc * p + (1 - wc) * b)%Q
          ∧ ((wc == 0)%Q → (c == b)%Q)
          ∧ ((wc == 1)%Q → (c == p)%Q).
Proof.
  intros Hown. destruct (get_reward_spec self t Hown) as (r & Hr & Hp & Hc).
  exists r. split; [done|]. intros x b Hb.
  destruct (Hown x b Hb) as [p Hpb]. eexists p, _. cbn zeta.
  split; [done|]. split; [by rewrite Hp|]. split.
  { rewrite Hc, Hb. cbn [mbind option_bind]. by rewrite Hpb. }
  split; [done|]. split; intros ->; ring.
Qed.

(** C3, as amended.  For every product-level agent the VLT vector has
    length max_sources_per_facility * (sku_count + 1) and is zero at every
    slot other than i * sku_count + j + 1, for i an upstream source
    position and j a catalogue position of the agent's own SKU; when the
    agent has a consumer sub-unit and an upstream source, the export mask,
    of the same length, holds at those slots the lead time the upstream
    source configures for the SKU and zero elsewhere. *)
Theorem C3_vlt_slots self a facility own pinfo :
  wf_agent self a →
  is_facility a = false →
  facility_levels self !! a_facility_id a = Some facility →
  a_sku a = Some own →
  products facility !! sku_id own = Some pinfo →
  let sources := default [] (upstreams facility !! sku_id own) in
  let width := _max_sources_per_facility self * (length (_skus self) + 1) in
  ∃ st v,
    build_agent_state np_sqrt norm_ppf self a = Some st
    ∧ get_list st "vlt" = Some v
    ∧ length v = width
    ∧ (∀ k, k < width → ¬ designated self own sources k →
            v !! k = Some 0%Q)
    ∧ (is_Some (consumer pinfo) → sources ≠ [] →
       ∃ m, get_list st "consumer_source_export_mask" = Some m
         ∧ length m = width
         ∧ (∀ i source j sku,
               sources !! i = Some source → _skus self !! j = Some sku →
               sku_id sku = sku_id own →
               ∃ src ssku,
                 facility_levels self !! source = Some src
                 ∧ f_skus src !! sku_id own = Some ssku
                 ∧ m !! (i * length (_skus self) + j + 1)
                   = Some (vlt ssku))
         ∧ (∀ k, k < width → ¬ designated self own sources k →
                 m !! k = Some 0%Q)).
Proof.
  intros Hwf Hfac Hf Hown Hp sources width.
  destruct (idle_or_active self a Hwf)
    as [Hidle|(facility' & own' & pinfo' & Hact)].
  - destruct (build_idle np_sqrt norm_ppf self a Hwf Hidle)
      as (st & Hst & _ & _ & _ & (_ & Hv & _) & _).
    eexists st, _. split; [done|]. split; [done|].
    split; [by rewrite zeros_length|]. split.
    { intros k Hk _. by apply zeros_undesignated. }
    intros Hc Hs. exfalso.
    destruct Hidle as [?|(f2 & o2 & p2 & _ & ? & ? & ? & [Hn|Hn])];
      [congruence|simplify_eq..].
    rewrite Hn in Hc. by destruct Hc.
  - pose proof Hact as (_ & Hf' & Hown' & Hp' & Hc' & Hs'). simplify_eq.
    destruct (build_active np_sqrt norm_ppf self a facility own pinfo Hwf Hact)
      as (st & Hst & _ & _ & _ & Hpost & _).
    destruct Hpost as (cap & mv & sm & sd & sl & a1 & a2 & a3 & v & m & H).
    cbn zeta in H.
    destruct H as (_ & _ & _ & _ & _ & _ & _ & _ & _ & _ & _ & _ & _ & _
                   & Hv & Hvs & Hm & Hms).
    exists st, v. split; [done|]. split; [done|].
    pose proof Hvs as (Hvlen & _). pose proof Hms as (Hmlen & Hmw & _).
    split; [done|]. split.
    { intros k Hk. eapply slots_filled_zero; [exact Hvs|].
      rewrite Hvlen. exact Hk. }
    intros _ _. exists m. split; [done|]. split; [done|]. split.
    + intros i source j sku Hi Hj Hsku.
      specialize (Hmw i source j sku Hi Hj Hsku).
      apply fmap_Some_eq in Hmw. unfold mask_val, slot in Hmw.
      apply lookup_lt_Some in Hi as Hilt.
      apply lookup_lt_Some in Hj as Hjlt.
      assert (is_Some (m !! (i * length (_skus self) + j + 1))) as [x Hx].
      { apply lookup_lt_is_Some. rewrite Hmlen. unfold _sku_number.
        apply (slot_bound _ _ i j); [|done].
        unfold wf_agent in Hwf. rewrite Hf, Hfac, Hown, Hp in Hwf.
        destruct Hwf as (_ & _ & _ & _ & _ & Hwfc).
        unfold wf_consumer in Hwfc. destruct Hc' as [c Hc'].
        rewrite Hc' in Hwfc. fold sources in Hwfc, Hilt.
        destruct sources; [simpl in Hilt; lia|].
        destruct Hwfc as (? & _). lia. }
      rewrite Hx in Hmw.
      destruct (facility_levels self !! source) as [src|] eqn:Hsrc;
        simpl in Hmw; [|discriminate].
      rewrite Hsku in Hmw.
      destruct (f_skus src !! sku_id own) as [ssku|] eqn:Hssku;
        simpl in Hmw; [|discriminate].
      exists src, ssku. split; [done|]. split; [done|]. congruence.
    + intros k Hk. eapply slots_filled_zero; [exact Hms|].
      rewrite Hmlen. exact Hk.
Qed.

(** What the VLT loop writes into a designated slot: the lead time of the
    SKU's entry in the agent's own facility, whichever the source. *)
Lemma vlt_slot_value self a facility own pinfo :
  wf_agent self a → active self a facility own pinfo →
  ∃ st v fsku,
    build_agent_state np_sqrt norm_ppf self a = Some st
    ∧ get_list st "vlt" = Some v
    ∧ f_skus facility !! sku_id own = Some fsku
    ∧ ∀ i source j sku,
        default [] (upstreams facility !! sku_id own) !! i = Some source →
        _skus self !! j = Some sku → sku_id sku = sku_id own →
        v !! (i * length (_skus self) + j + 1) = Some (vlt fsku).
Proof.
  intros Hwf Hact.
  destruct (build_active np_sqrt norm_ppf self a facility own pinfo Hwf Hact)
    as (st & Hst & _ & _ & _ & Hpost & _).
  destruct Hpost as (cap & mv & sm & sd & sl & a1 & a2 & a3 & v & m & H).
  cbn zeta in H.
  destruct H as (_ & _ & _ & _ & _ & _ & _ & _ & _ & _ & _ & _ & _ & _
                 & Hv & (_ & Hvw & _) & _).
  destruct Hact as (Hfac & Hf & Hown & Hp & [c Hc] & Hs).
  assert (is_Some (f_skus facility !! sku_id own)) as [fsku Hfsku].
  { unfold wf_agent in Hwf. rewrite Hf, Hfac, Hown, Hp in Hwf.
    destruct Hwf as (_ & _ & _ & _ & _ & Hwfc).
    unfold wf_consumer in Hwfc. rewrite Hc in Hwfc.
    destruct (default [] (upstreams facility !! sku_id own)); [done|].
    by destruct Hwfc as (_ & _ & ? & _). }
  exists st, v, fsku. split; [done|]. split; [done|]. split; [done|].
  intros i source j sku Hi Hj Hsku.
  specialize (Hvw i source j sku Hi Hj Hsku).
  apply fmap_Some_eq in Hvw.
  unfold vlt_val, slot in Hvw. by rewrite Hsku, Hfsku in Hvw.
Qed.
End Claims.



Lemma py_lt_iff a b : Py.lt a b = true ↔ (a < b)%Q.
Proof.
  unfold Py.lt. rewrite negb_true_iff. split.
  - intros H. apply Qnot_le_lt. intros Hle. apply Qle_bool_iff in Hle.
    congruence.
  - intros H. destruct (Qle_bool b a) eqn:E; [|done].
    apply Qle_bool_iff in E. lra.
Qed.

Section Claims2.
Variable np_sqrt : Q → Q.
Variable norm_ppf : Q → Q.



(** C6.  For a product-level agent with a consumer sub-unit: with an
    upstream source,
    inventory_rop = max_vlt * sale_mean
                    + sqrt(max_vlt) * sale_std * ppf(service_level);
    without one, max_vlt = 0, inventory_rop = 0 and the export mask is all
    zeros. *)
Theorem C6_reorder_point self a facility own pinfo c :
  wf_agent self a →
  is_facility a = false →
  facility_levels self !! a_facility_id a = Some facility →
  a_sku a = Some own →
  products facility !! sku_id own = Some pinfo →
  consumer pinfo = Some c →
  ∃ st,
    build_agent_state np_sqrt norm_ppf self a = Some st
    ∧ (default [] (upstreams facility !! sku_id own) ≠ [] →
       ∃ max_vlt sale_mean sale_std service_level,
         get_num st "max_vlt" = Some max_vlt
         ∧ get_num st "sale_mean" = Some sale_mean
         ∧ get_num st "sale_std" = Some sale_std
         ∧ get_num st "service_level" = Some service_level
         ∧ get_num st "inventory_rop"
           = Some (max_vlt * sale_mean
                   + np_sqrt max_vlt * sale_std * norm_ppf service_level)%Q)
    ∧ (default [] (upstreams facility !! sku_id own) = [] →
       get_num st "max_vlt" = Some 0%Q
       ∧ get_num st "inventory_rop" = Some 0%Q
       ∧ get_list st "consumer_source_export_mask"
         = Some (zeros (_max_sources_per_facility self * _sku_number self))).
Proof.
  intros Hwf Hfac Hf Hown Hp Hc.
  destruct (default [] (upstreams facility !! sku_id own)) as [|s0 ss] eqn:Hs.
  - destruct (build_idle np_sqrt norm_ppf self a Hwf)
      as (st & Hst & _ & _ & _ & (Hmv & _ & Hm & _ & _ & Hz) & _).
    { right. exists facility, own, pinfo. eauto 10. }
    exists st. split; [done|]. split; [done|]. intros _.
    split; [done|]. split; [|done].
    rewrite Forall_forall in Hz. apply Hz.
    apply (bool_decide_unpack _). vm_compute. exact I.
  - destruct (build_active np_sqrt norm_ppf self a facility own pinfo Hwf)
      as (st & Hst & _ & _ & _ & Hpost & _).
    { unfold active. rewrite Hs, Hc. eauto 10. }
    destruct Hpost as (cap & mv & sm & sd & sl & a1 & a2 & a3 & v & m & H).
    cbn zeta in H.
    destruct H as (_ & _ & Hmv & Hsm & Hsd & Hsl & _ & _ & _ & _ & Hrop & _).
    exists st. split; [done|]. split; [|done]. intros _.
    exists mv, sm, sd, sl. eauto 10.
Qed.

(** What the loop of [get_action] does on a wrapper that holds a side
    table, an attribute no method of the class assigns: an agent id the
    table tracks becomes the replenishment action
    (agent_id, product_id, source_id, quantity, 1), every other id the
    production action (agent_id, quantity). *)
Lemma get_action_with_table self tbl (action_by_agent : gmap nat Q) :
  state_info self = Some tbl →
  ∃ env_action,
    get_action self action_by_agent = Some env_action
    ∧ (∀ agent_id quantity,
          action_by_agent !! agent_id = Some quantity →
          env_action !! agent_id
          = Some match tbl !! agent_id with
                 | Some info =>
                     ConsumerAction agent_id (si_product_id info)
                                    (si_source_id info) quantity 1%Q
                 | None => ManufactureAction agent_id quantity
                 end)
    ∧ (∀ agent_id, action_by_agent !! agent_id = None →
                   env_action !! agent_id = None).
Proof.
  intros Htbl.
  destruct (get_action_spec self tbl action_by_agent Htbl) as (r & Hr & Hall).
  exists r. split; [done|]. split.
  - intros a q Ha. by rewrite Hall, Ha.
  - intros a Ha. by rewrite Hall, Ha.
Qed.

(** C8.  For a product-level agent whose bundle has no consumer sub-unit,
    the record is built and every consumer/inventory field holds its zero
    default. *)
Theorem C8_no_consumer_defaults self a facility own pinfo :
  wf_agent self a →
  is_facility a = false →
  facility_levels self !! a_facility_id a = Some facility →
  a_sku a = Some own →
  products facility !! sku_id own = Some pinfo →
  consumer pinfo = None →
  ∃ st,
    build_agent_state np_sqrt norm_ppf self a = Some st
    ∧ Forall (λ field, get_num st field = Some 0%Q)
        ["inventory_in_stock"; "inventory_in_transit";
         "inventory_in_distribution"; "inventory_estimated";
         "inventory_rop"; "is_over_stock"; "is_out_of_stock";
         "is_below_rop"]
    ∧ get_list st "consumer_source_export_mask"
      = Some (zeros (_max_sources_per_facility self * _sku_number self))
    ∧ get_list st "consumer_in_transit_orders"
      = Some (zeros (_sku_number self))
    ∧ get_list st "consumer_source_inventory"
      = Some (zeros (_sku_number self)).
Proof.
  intros Hwf Hfac Hf Hown Hp Hc.
  destruct (build_idle np_sqrt norm_ppf self a Hwf)
    as (st & Hst & _ & _ & _ & (_ & _ & Hm & Hi & Ht & Hz) & _).
  { right. exists facility, own, pinfo. eauto 10. }
  exists st. by repeat split.
Qed.

(** C9.  Whatever [_get_state] returns, each agent's consumer-role vector
    and producer-role vector are the same. *)
Theorem C9_roles_agree self self' r :
  _get_state np_sqrt norm_ppf self = Some (self', r) →
  ∀ agent_id, role_consumer r !! agent_id = role_producer r !! agent_id.
Proof.
  intros H agent_id. by rewrite (get_state_roles _ _ _ _ _ H).
Qed.

(** C10.  [get_reward] does not depend on its tick argument: two calls
    return the same reward maps whenever the cached metrics, the
    configured consumer weight and the unit-to-facility map are the same,
    whatever the two ticks (given or absent) and the rest of [self]. *)
Theorem C10_reward_ignores_tick (self1 self2 : SCEnvWrapper)
    (t1 t2 : option Z) :
  _cur_metrics self1 = _cur_metrics self2 →
  global_reward_weight_consumer (settings (env self1))
  = global_reward_weight_consumer (settings (env self2)) →
  unit_2_facility_dict self1 = unit_2_facility_dict self2 →
  get_reward self1 t1 = get_reward self2 t2.
Proof.
  intros Hm Hw Hu. unfold get_reward. by rewrite Hm, Hw, Hu.
Qed.

(** Without the side table, which nothing in the class assigns, any
    non-empty action map makes [get_action] raise. *)
Lemma get_action_no_table self (action_by_agent : gmap nat Q) :
  state_info self = None → action_by_agent ≠ ∅ →
  get_action self action_by_agent = None.
Proof.
  intros Hn. unfold get_action.
  apply (map_fold_weak_ind (λ acc (m : gmap nat Q),
    m ≠ ∅ → acc = None)); [done|].
  intros i x m acc _ _ _. destruct acc; [|done]. simpl. by rewrite Hn.
Qed.
End Claims2.

(** * The sample topology is well-formed *)

Import Sample.

Lemma wf_retail_agent : wf_agent sample_self retail_agent.
Proof.
  vm_compute. repeat split; eauto; repeat constructor; eauto.
Defined.

Lemma wf_supply_agent : wf_agent sample_self supply_agent.
Proof.
  vm_compute. repeat split; eauto; repeat constructor; eauto.
Defined.



(** The model run on the sample: the inventory fields of the retail agent
    (30 in stock, 6 in transit, nothing pending; reorder point
    4 * 3 + sqrt 4 * 2 * 1.645 = 18.58), its serialized vector, and the
    rewards. *)
Example retail_inventory :
  (st ← build_agent_state sample_sqrt sample_ppf sample_self retail_agent;
   mapM (λ k, Qred <$> get_num st k)
        ["inventory_in_stock"; "inventory_in_transit";
         "inventory_in_distribution"; "inventory_estimated";
         "storage_capacity"; "inventory_rop";
         "is_over_stock"; "is_out_of_stock"; "is_below_rop"])
  = Some [30; 6; 0; 36; 100; 929 # 50; 0; 0; 0]%Q.
Proof. vm_compute. reflexivity. Qed.

Example retail_vector :
  (x ← _get_state sample_sqrt sample_ppf fresh_self;
   out ← role_producer x.2 !! 11;
   Some (map Qred out))
  = Some [0; 0; 0; 0; 0; 0; 1; 1; 3400 # 10001; 200 # 701; 200 # 701;
          200 # 701; 200 # 701; 100 # 701; 200 # 701; 3000 # 701; 600 # 701;
          3600 # 701; 1858 # 701; 1000 # 2001; 500 # 2001]%Q.
Proof. vm_compute. reflexivity. Qed.

Example sample_rewards :
  (r ← get_reward sample_self None;
   Some (Qred <$> role_consumer r !! 11, Qred <$> role_consumer r !! 2))
  = Some (Some 600%Q, Some 1000%Q).
Proof. vm_compute. reflexivity. Qed.

(** * The claims on the sample topology *)

(** The claim C1 as stated: every field of the record is emitted. *)
Definition every_field_emitted (st : RawState) : Prop :=
  ∀ field, is_Some (st !! field) → field ∈ serialized_fields.*2.

(** C1 fails as stated: the record of the retail agent holds [global_time],
    which the serializer does not emit. *)
Lemma C1_counterexample :
  ∃ st, build_agent_state sample_sqrt sample_ppf sample_self retail_agent
        = Some st
    ∧ ¬ every_field_emitted st.
Proof.
  destruct (build_shaped sample_sqrt sample_ppf sample_self retail_agent
              wf_retail_agent) as (st & Hst & Hg & _).
  exists st. split; [exact Hst|].
  intros Hall. specialize (Hall "global_time" Hg).
  assert ("global_time" ∉ serialized_fields.*2) as Hn.
  { apply (bool_decide_unpack _). vm_compute. exact I. }
  by apply Hn.
Qed.

Lemma C1_serialize_layout_witness :
  wf_agent sample_self retail_agent
  ∧ ∃ st, build_agent_state sample_sqrt sample_ppf sample_self retail_agent
          = Some st
      ∧ (refs_nonneg st → is_Some (serialize_agent st))
      ∧ ∀ out, serialize_agent st = Some out →
               laid_out st out
               ∧ (ext_widths_ok sample_self retail_agent →
                  length out = state_width (settings (env sample_self))).
Proof.
  split; [exact wf_retail_agent|].
  exact (C1_serialize_layout sample_sqrt sample_ppf sample_self retail_agent
           wf_retail_agent).
Defined.

Lemma owners_balanced_sample : owners_balanced sample_self.
Proof. apply (bool_decide_unpack _). vm_compute. exact I. Defined.

(** C2 on the balance sheet {2: 1000, 11: 200} with weight 0.5, entity 11
    being a unit of facility 2: producer[11] = 200, consumer[11] = 600. *)
Lemma C2_reward_blend_witness :
  owners_balanced sample_self
  ∧ ∃ r, get_reward sample_self None = Some r
      ∧ role_producer r !! 11 = Some 200%Q
      ∧ ∃ c, role_consumer r !! 11 = Some c ∧ (c == 600)%Q.
Proof.
  split; [exact owners_balanced_sample|].
  destruct (C2_reward_blend sample_self None owners_balanced_sample)
    as (r & Hr & Hall).
  exists r. split; [exact Hr|].
  destruct (Hall 11 200%Q eq_refl) as (p & c & Hp & Hprod & Hcons & Hc & _).
  split; [exact Hprod|]. exists c. split; [exact Hcons|].
  vm_compute in Hp. injection Hp as <-. rewrite Hc. reflexivity.
Defined.

(** C3 fails as stated on the retail agent (one source, two SKUs): the VLT
    vector has three slots, more than max_sources_per_facility * sku_count
    = 2, and its slot 0 * 2 + 1 holds 3, the lead time facility 2 itself
    configures for SKU 1, whereas the upstream source, facility 1,
    configures 5. *)
Lemma C3_counterexample :
  ∃ st v,
    build_agent_state sample_sqrt sample_ppf sample_self retail_agent = Some st
    ∧ get_list st "vlt" = Some v
    ∧ ¬ (length v ≤ _max_sources_per_facility sample_self
                    * length (_skus sample_self))%nat
    ∧ v !! (0 * length (_skus sample_self) + sku_id sku1) = Some 3%Q
    ∧ (src ← facility_levels sample_self !! 1; vlt <$> f_skus src !! 1)
      = Some 5%Q.
Proof.
  assert ((st ← build_agent_state sample_sqrt sample_ppf sample_self
                   retail_agent;
           get_list st "vlt") = Some [0%Q; 3%Q; 0%Q]) as H.
  { vm_compute. reflexivity. }
  apply bind_Some_inv in H as (st & Hst & Hv).
  exists st, [0%Q; 3%Q; 0%Q]. split; [exact Hst|]. split; [exact Hv|].
  split; [simpl; lia|]. split; reflexivity.
Qed.

Lemma C3_vlt_slots_witness :
  wf_agent sample_self retail_agent
  ∧ ∃ st v,
      build_agent_state sample_sqrt sample_ppf sample_self retail_agent
      = Some st
      ∧ get_list st "vlt" = Some v
      ∧ length v = 3.
Proof.
  split; [exact wf_retail_agent|].
  destruct (C3_vlt_slots sample_sqrt sample_ppf sample_self retail_agent
              retailer sku1 retail_bundle wf_retail_agent eq_refl eq_refl eq_refl eq_refl)
    as (st & v & Hst & Hv & Hlen & _).
  exists st, v. split; [exact Hst|]. split; [exact Hv|]. exact Hlen.
Defined.




Lemma C6_reorder_point_witness :
  wf_agent sample_self retail_agent
  ∧ ∃ st,
      build_agent_state sample_sqrt sample_ppf sample_self retail_agent
      = Some st
      ∧ ∃ max_vlt sale_mean sale_std service_level,
          get_num st "max_vlt" = Some max_vlt
          ∧ get_num st "sale_mean" = Some sale_mean
          ∧ get_num st "sale_std" = Some sale_std
          ∧ get_num st "service_level" = Some service_level
          ∧ get_num st "inventory_rop"
            = Some (max_vlt * sale_mean
                    + sample_sqrt max_vlt * sale_std
                      * sample_ppf service_level)%Q.
Proof.
  split; [exact wf_retail_agent|].
  destruct (C6_reorder_point sample_sqrt sample_ppf sample_self retail_agent
              retailer sku1 retail_bundle retail_consumer wf_retail_agent
              eq_refl eq_refl eq_refl eq_refl eq_refl)
    as (st & Hst & Hact & _).
  exists st. split; [exact Hst|]. apply Hact. discriminate.
Defined.

Lemma C8_no_consumer_defaults_witness :
  wf_agent sample_self supply_agent
  ∧ ∃ st,
      build_agent_state sample_sqrt sample_ppf sample_self supply_agent
      = Some st
      ∧ get_num st "inventory_rop" = Some 0%Q.
Proof.
  split; [exact wf_supply_agent|].
  destruct (C8_no_consumer_defaults sample_sqrt sample_ppf sample_self
              supply_agent supplier sku1_at_supplier supply_bundle
              wf_supply_agent
              eq_refl eq_refl eq_refl eq_refl eq_refl)
    as (st & Hst & Hz & _).
  exists st. split; [exact Hst|].
  rewrite Forall_forall in Hz. apply Hz.
  apply (bool_decide_unpack _). vm_compute. exact I.
Defined.

Lemma get_state_fresh_returns :
  is_Some (_get_state sample_sqrt sample_ppf fresh_self).
Proof. apply (bool_decide_unpack _). vm_compute. exact I. Defined.

Lemma C9_roles_agree_witness :
  ∃ self' r,
    _get_state sample_sqrt sample_ppf fresh_self = Some (self', r)
    ∧ role_consumer r !! 11 = role_producer r !! 11.
Proof.
  destruct get_state_fresh_returns as [[self' r] H].
  exists self', r. split; [exact H|].
  exact (C9_roles_agree sample_sqrt sample_ppf fresh_self self' r H 11).
Defined.

(** C10 on the wrapper before and after a storage refresh, at an absent tick
    and at tick 7. *)
Lemma C10_reward_ignores_tick_witness :
  get_reward fresh_self None = get_reward sample_self (Some 7%Z).
Proof.
  exact (C10_reward_ignores_tick fresh_self sample_self None (Some 7%Z)
           eq_refl eq_refl eq_refl).
Defined.

(** * Further properties of the wrapper *)

(** ** The constraint atoms

    The module-level predicates over a raw state record.  A chained
    comparison [0 < a <= b] evaluates [a] once, and [b] only when
    [0 < a] holds. *)

Definition stock_constraint (f_state : RawState) : option bool :=
  in_stock ← get_num f_state "inventory_in_stock";
  if Py.lt 0 in_stock then
    max_vlt ← get_num f_state "max_vlt";
    sale_mean ← get_num f_state "sale_mean";
    Some (Py.le in_stock ((max_vlt + 7) * sale_mean)%Q)
  else Some false.

Definition is_replenish_constraint (f_state : RawState) : option bool :=
  hist ← get_list f_state "consumption_hist";
  x ← last hist;
  Some (Py.gt x 0).

Definition low_profit (f_state : RawState) : option bool :=
  sku_price ← get_num f_state "sku_price";
  sku_cost ← get_num f_state "sku_cost";
  sale_mean ← get_num f_state "sale_mean";
  Some (Py.le ((sku_price - sku_cost) * sale_mean)%Q 1000).

Definition low_stock_constraint (f_state : RawState) : option bool :=
  in_stock ← get_num f_state "inventory_in_stock";
  if Py.lt 0 in_stock then
    max_vlt ← get_num f_state "max_vlt";
    sale_mean ← get_num f_state "sale_mean";
    Some (Py.le in_stock ((max_vlt + 3) * sale_mean)%Q)
  else Some false.

Definition out_of_stock (f_state : RawState) : option bool :=
  in_stock ← get_num f_state "inventory_in_stock";
  Some (Py.lt 0 in_stock).

(** The dictionary [atoms], in insertion order. *)
Definition atoms : list (string * (RawState → option bool)) :=
  [ ("stock_constraint", stock_constraint);
    ("is_replenish_constraint", is_replenish_constraint);
    ("low_profit", low_profit);
    ("low_stock_constraint", low_stock_constraint);
    ("out_of_stock", out_of_stock) ].

Lemma atoms_keys_eq : atoms_keys = atoms.*1.
Proof. reflexivity. Qed.

(** A record holding just the three fields the stock atoms read. *)
Definition stock_record (in_stock max_vlt sale_mean : Q) : RawState :=
  <["inventory_in_stock" := VNum in_stock]>
    (<["max_vlt" := VNum max_vlt]> (<["sale_mean" := VNum sale_mean]> ∅)).

(** X1.  The tighter stock atom implies the looser one when the mean sale is
    not negative: the bound [(max_vlt + 3) * sale_mean] is then at most
    [(max_vlt + 7) * sale_mean]. *)
Theorem low_stock_implies_stock_constraint (st : RawState) (sm : Q) :
  get_num st "sale_mean" = Some sm → (0 <= sm)%Q →
  low_stock_constraint st = Some true →
  stock_constraint st = Some true.
Proof.
  unfold low_stock_constraint, stock_constraint. intros Hsm Hnn H.
  inv_bind H. rewrite E. cbn [mbind option_bind].
  destruct (Py.lt 0 x); [|done].
  inv_bind H. inv_bind H. rewrite E0, E1. cbn [mbind option_bind].
  rewrite Hsm in E1. injection E1 as <-. injection H as H. f_equal.
  unfold Py.le in *. apply Qle_bool_iff. apply Qle_bool_iff in H.
  lra.
Qed.

Lemma low_stock_implies_stock_constraint_witness :
  low_stock_constraint (stock_record 20 4 3) = Some true
  ∧ stock_constraint (stock_record 20 4 3) = Some true.
Proof.
  split; [vm_compute; reflexivity|].
  apply (low_stock_implies_stock_constraint (stock_record 20 4 3) 3).
  - vm_compute; reflexivity.
  - vm_compute. discriminate.
  - vm_compute; reflexivity.
Defined.

(** X2.  The three stock atoms need stock: whenever [stock_constraint] or
    [low_stock_constraint] holds, so does the atom named [out_of_stock],
    which despite its name tests that the stock is positive; and with no
    stock all three answer [False], the bound of the chained comparison
    not being evaluated, even on a record without [max_vlt] or
    [sale_mean]. *)
Theorem stock_atoms_need_stock (st : RawState) :
  (stock_constraint st = Some true → out_of_stock st = Some true)
  ∧ (low_stock_constraint st = Some true → out_of_stock st = Some true)
  ∧ (∀ x, get_num st "inventory_in_stock" = Some x → (x <= 0)%Q →
          stock_constraint st = Some false
          ∧ low_stock_constraint st = Some false
          ∧ out_of_stock st = Some false).
Proof.
  unfold stock_constraint, low_stock_constraint, out_of_stock.
  split; [|split].
  - intros H. inv_bind H. rewrite E. cbn [mbind option_bind].
    by destruct (Py.lt 0 x).
  - intros H. inv_bind H. rewrite E. cbn [mbind option_bind].
    by destruct (Py.lt 0 x).
  - intros x Hx Hle. rewrite Hx. cbn [mbind option_bind]. unfold Py.lt.
    apply Qle_bool_iff in Hle. by rewrite Hle.
Qed.

(** ** Normalization *)

(** X3.  For a non-negative reference the normalized value grows with the raw
    value. *)
Theorem normalize_monotone (ref x y a b : Q) :
  (0 <= ref)%Q → (x <= y)%Q →
  normalize ref x = Some a → normalize ref y = Some b → (a <= b)%Q.
Proof.
  intros Href Hxy. rewrite !normalize_Some by done. intros ??; simplify_eq.
  assert (x / (ref + 0.01) <= y / (ref + 0.01))%Q as Hdiv.
  { unfold Qdiv. apply Qmult_le_compat_r; [done|].
    apply Qinv_le_0_compat. lra. }
  unfold Py.max, Py.min. repeat destruct (Qlt_le_dec _ _); lra.
Qed.

Lemma normalize_monotone_witness :
  ∃ a b, normalize 100 30 = Some a ∧ normalize 100 60 = Some b ∧ (a <= b)%Q.
Proof.
  destruct (normalize 100 30) as [a|] eqn:Ha; [|by vm_compute in Ha].
  destruct (normalize 100 60) as [b|] eqn:Hb; [|by vm_compute in Hb].
  exists a, b. split; [done|]. split; [done|].
  apply (normalize_monotone 100 30 60 a b); done.
Defined.

(** X4.  For a non-negative reference the two clamps return their own bound:
    the normalized value is the constant 0 for every raw value that is not
    positive, and the constant 100 whenever the quotient
    [x / (ref + 0.01)], as computed, is at least 100. *)
Theorem normalize_saturates (ref x : Q) :
  (0 <= ref)%Q →
  ((x <= 0)%Q → normalize ref x = Some 0%Q)
  ∧ ((100 <= x / (ref + 0.01))%Q → normalize ref x = Some 100%Q).
Proof.
  intros Href. rewrite normalize_Some by done.
  assert (0 < ref + 0.01)%Q as Hpos by lra.
  split; intros Hx; f_equal.
  - assert (x / (ref + 0.01) <= 0)%Q as Hdiv.
    { apply Qle_shift_div_r; [done|]. lra. }
    unfold Py.max, Py.min. repeat destruct (Qlt_le_dec _ _); try done; lra.
  - unfold Py.max, Py.min. repeat destruct (Qlt_le_dec _ _); try done; lra.
Qed.

Lemma normalize_saturates_witness :
  normalize 1 (-5) = Some 0%Q ∧ normalize 1 2000 = Some 100%Q.
Proof.
  split.
  - apply (normalize_saturates 1 (-5)); vm_compute; discriminate.
  - apply (normalize_saturates 1 2000); vm_compute; discriminate.
Defined.

(** ** What the serializer reads *)

(** The nineteen keys the serializer looks up: the sixteen emitted fields
    and the three normalization references. *)
Definition serialized_keys : list string :=
  (map snd serialized_fields
   ++ ["storage_capacity"; "sale_gamma"; "max_price"])%list.

Lemma serialize_field_ext (st st' : RawState) norm field :
  st !! field = st' !! field →
  (∀ n, norm = Some n → st !! n = st' !! n) →
  serialize_field st norm field = serialize_field st' norm field.
Proof.
  intros Hf Hn. unfold serialize_field. rewrite Hf.
  destruct (st' !! field) as [v|]; [|done]. cbn [mbind option_bind].
  destruct (as_vals v) as [vals|]; [|done]. cbn [mbind option_bind].
  destruct norm as [n|]; [|done]. apply mapM_ext. intros x.
  unfold get_num. by rewrite (Hn n eq_refl).
Qed.

(** X6.  Two records that agree on the keys the serializer looks up have the
    same serialization: no other field of a record reaches the
    observation vector. *)
Theorem serialize_agent_reads_only (st st' : RawState) :
  (∀ k, k ∈ serialized_keys → st !! k = st' !! k) →
  serialize_agent st = serialize_agent st'.
Proof.
  intros Hk. unfold serialize_agent, keys_in_state. cbn [Py.foldM].
  repeat match goal with
  | |- context [serialize_field st ?n ?f] =>
      rewrite (serialize_field_ext st st' n f);
        [|apply Hk; in_keys|intros ? [= <-]; apply Hk; in_keys]
  end.
  done.
Qed.

(** ** Rewards and actions *)

Lemma dict_mapM_key_defined {A B} (f : nat → A → option B) (d : gmap nat A) r :
  dict_mapM_key f d = Some r → ∀ k a, d !! k = Some a → is_Some (f k a).
Proof.
  unfold dict_mapM_key. revert r.
  apply (map_fold_weak_ind (λ acc m,
    ∀ r, acc = Some r → ∀ k a, m !! k = Some a → is_Some (f k a))).
  - intros r _ k a. by rewrite lookup_empty.
  - intros i x m acc Hi IH r Hr k a Hk. inv_bind Hr. inv_bind Hr.
    destruct (decide (i = k)) as [->|Hne].
    + rewrite lookup_insert_eq in Hk. simplify_eq. by eexists.
    + rewrite lookup_insert_ne in Hk by done. by eapply IH.
Qed.

Lemma get_reward_balanced self t r :
  get_reward self t = Some r → owners_balanced self.
Proof.
  unfold get_reward. intros H. inv_bind H. clear H.
  intros k a Hk.
  destruct (dict_mapM_key_defined _ _ _ E k a Hk) as [p Hp].
  unfold parent_balance.
  destruct (unit_2_facility_dict self !! k); [by eexists|].
  rewrite Hk. by eexists.
Qed.

(** X7.  [get_reward] returns exactly when every sub-unit of the balance sheet
    has its facility's balance recorded; otherwise the lookup of the
    parent balance raises. *)
Theorem get_reward_returns_iff_balanced self t :
  is_Some (get_reward self t) ↔ owners_balanced self.
Proof.
  split.
  - intros [r Hr]. by eapply get_reward_balanced.
  - intros Hown. destruct (get_reward_spec self t Hown) as (r & -> & _).
    by eexists.
Qed.

(** X8.  The reward maps list the entities of the balance sheet and no other:
    the producer map is the balance sheet itself, and the consumer map has
    the same keys. *)
Theorem get_reward_same_entities self t r :
  get_reward self t = Some r →
  role_producer r = step_balance_sheet (_cur_metrics self)
  ∧ dom (role_consumer r) = dom (step_balance_sheet (_cur_metrics self)).
Proof.
  intros Hr. pose proof (get_reward_balanced _ _ _ Hr) as Hown.
  destruct (get_reward_spec self t Hown) as (r' & Hr' & Hp & Hc).
  rewrite Hr in Hr'. injection Hr' as <-. split; [done|].
  apply set_eq. intros x. rewrite !elem_of_dom, Hc.
  destruct (step_balance_sheet (_cur_metrics self) !! x) as [b|] eqn:Hb.
  - destruct (Hown x b Hb) as [p ->]. cbn [mbind option_bind].
    split; intros _; by eexists.
  - cbn [mbind option_bind]. split; by intros [? ?].
Qed.

Lemma get_reward_same_entities_witness :
  ∃ r, get_reward sample_self None = Some r
    ∧ role_producer r = step_balance_sheet (_cur_metrics sample_self)
    ∧ dom (role_consumer r)
      = dom (step_balance_sheet (_cur_metrics sample_self)).
Proof.
  destruct (get_reward_spec sample_self None owners_balanced_sample)
    as (r & Hr & _).
  exists r. split; [exact Hr|].
  exact (get_reward_same_entities sample_self None r Hr).
Defined.

(** X9.  An entity that the unit-to-facility map does not list, a facility
    itself, is its own parent: its consumer reward is the weighted sum
    [wc * b + (1 - wc) * b] of its own balance [b] taken twice, as
    computed. *)
Theorem get_reward_facility_own_balance self t r x b :
  get_reward self t = Some r →
  unit_2_facility_dict self !! x = None →
  step_balance_sheet (_cur_metrics self) !! x = Some b →
  let wc := global_reward_weight_consumer (settings (env self)) in
  role_consumer r !! x = Some (wc * b + (1 - wc) * b)%Q.
Proof.
  intros Hr Hx Hb. pose proof (get_reward_balanced _ _ _ Hr) as Hown.
  destruct (get_reward_spec self t Hown) as (r' & Hr' & Hp & Hc).
  rewrite Hr in Hr'. injection Hr' as <-.
  cbv zeta. rewrite Hc, Hb. cbn [mbind option_bind]. unfold parent_balance.
  rewrite Hx, Hb. cbn [mbind option_bind]. done.
Qed.

Lemma get_reward_facility_own_balance_witness :
  ∃ r, get_reward sample_self None = Some r
    ∧ role_consumer r !! 2 = Some (0.5 * 1000 + (1 - 0.5) * 1000)%Q.
Proof.
  destruct (get_reward_spec sample_self None owners_balanced_sample)
    as (r & Hr & _).
  exists r. split; [exact Hr|].
  exact (get_reward_facility_own_balance sample_self None r 2 1000%Q Hr
           eq_refl eq_refl).
Defined.

(** X10.  The wrapper as its initializer leaves it has no side table: on it
    [get_action] translates the empty action map into the empty map and
    raises on every other one. *)
Theorem get_action_without_table self (action_by_agent : gmap nat Q) :
  state_info self = None →
  get_action self action_by_agent
  = if decide (action_by_agent = ∅) then Some ∅ else None.
Proof.
  intros Hn. case_decide as He.
  - subst. apply get_action_empty.
  - by apply get_action_no_table.
Qed.

Lemma get_action_without_table_witness :
  get_action fresh_self {[ 11 := 0.5%Q ]} = None.
Proof.
  rewrite (get_action_without_table fresh_self {[ 11 := 0.5%Q ]} eq_refl).
  apply decide_False. apply map_non_empty_singleton.
Defined.

(** ** What each extractor leaves in the record *)

Lemma frame_lookup ks (s s' : RawState) k v :
  frame ks s s' → k ∉ ks → s !! k = Some v → s' !! k = Some v.
Proof. intros H Hk <-. by apply H. Qed.

(** [grows s s']: every key of [s] is a key of [s']. *)
Definition grows (s s' : RawState) : Prop :=
  ∀ k, is_Some (s !! k) → is_Some (s' !! k).

Global Instance grows_preorder : PreOrder grows.
Proof.
  split; [by intros s k|]. intros s1 s2 s3 H12 H23 k Hk. by apply H23, H12.
Qed.

Lemma grows_insert (s : RawState) k v : grows s (<[k := v]> s).
Proof.
  intros k' Hk'. destruct (decide (k = k')) as [->|Hne].
  - rewrite lookup_insert_eq. by eexists.
  - by rewrite lookup_insert_ne.
Qed.

(** [ext ks s s']: [s'] keeps every key of [s] and differs from it at most
    on the keys [ks]. *)
Definition ext (ks : list string) (s s' : RawState) : Prop :=
  frame ks s s' ∧ grows s s'.

Global Instance ext_preorder ks : PreOrder (ext ks).
Proof.
  split; [by split|].
  intros s1 s2 s3 [F12 G12] [F23 G23]. split; by etrans.
Qed.

Lemma ext_insert_r ks k v (s s1 : RawState) :
  k ∈ ks → ext ks s s1 → ext ks s (<[k := v]> s1).
Proof.
  intros Hk [F G]. split; [by apply frame_insert_r|].
  etrans; [done|]. apply grows_insert.
Qed.

Lemma ext_list_set_r ks (s s1 s2 : RawState) key i v :
  key ∈ ks → state_list_set s1 key i v = Some s2 → ext ks s s1 →
  ext ks s s2.
Proof.
  intros Hk H He. apply state_list_set_inv in H as (l & _ & _ & ->).
  by apply ext_insert_r.
Qed.

Lemma ext_if_r ks (b : bool) k v (s s1 : RawState) :
  k ∈ ks → ext ks s s1 → ext ks s (if b then <[k := v]> s1 else s1).
Proof. intros. destruct b; [by apply ext_insert_r|done]. Qed.

Ltac ext_solve :=
  repeat first
    [ reflexivity
    | assumption
    | apply ext_insert_r; [in_keys|]
    | apply ext_if_r; [in_keys|]
    | eapply ext_list_set_r; [|eassumption|]; [in_keys|] ].

Lemma ext_weaken ks ks' s s' : ks ⊆ ks' → ext ks s s' → ext ks' s s'.
Proof. intros Hs [F G]. split; [by eapply frame_weaken|done]. Qed.

(** A key is present after a chain of writes with literal keys. *)
Ltac present :=
  repeat first
    [ rewrite lookup_insert_eq
    | rewrite lookup_insert_ne by str_ne ];
  try (by eexists).

Ltac all_present :=
  repeat (apply Forall_cons; split; [present|]); try apply Forall_nil_2.

(** *** Facility features *)

Definition facility_keys : list string :=
  ["facility_type"; "facility"; "is_accepted"; "constraint_idx";
   "stock_constraint"; "is_replenish_constraint"; "low_profit";
   "low_stock_constraint"; "out_of_stock"; "facility_id"; "facility_info";
   "sku_info"; "is_positive_balance"; "echelon_level"].

(** The one-hot encoding of the agent's SKU id: all zeros for a facility
    agent. *)
Definition sku_one_hot (self : SCEnvWrapper) (a : AgentInfo) : list Q :=
  if is_facility a then zeros (_sku_number self)
  else match a_sku a with
       | Some sku => <[sku_id sku := 1%Q]> (zeros (_sku_number self))
       | None => zeros (_sku_number self)
       end.

(** [metrics["total_balance_sheet"].total()] of the entity the agent stands
    for: its facility, or its product unit. *)
Definition total_balance (self : SCEnvWrapper) (a : AgentInfo) : option Q :=
  if is_facility a
  then fm_total_balance_sheet <$> m_facilities (_cur_metrics self) !! a_facility_id a
  else pm_total_balance_sheet <$> m_products (_cur_metrics self) !! a_id a.

Definition facility_post (self : SCEnvWrapper) (a : AgentInfo)
    (st : RawState) : Prop :=
  st !! "facility_type"
  = Some (VList (map (λ i, flag (bool_decide (i = agent_type a)))
                     (seq 0 (length (_agent_types self)))))
  ∧ st !! "facility" = Some VNone
  ∧ st !! "is_accepted"
    = Some (VList (zeros (constraint_state_hist_len (settings (env self)))))
  ∧ st !! "constraint_idx" = Some (VList [0%Q])
  ∧ Forall (λ k, st !! k
                 = Some (VList (ones (constraint_state_hist_len
                                        (settings (env self))))))
           atoms_keys
  ∧ st !! "facility_id" = Some (VList (sku_one_hot self a))
  ∧ (∃ facility, facility_levels self !! a_facility_id a = Some facility
       ∧ st !! "facility_info" = Some (VConfig (f_config facility)))
  ∧ st !! "sku_info"
    = Some (VSku (if is_facility a then None else a_sku a))
  ∧ (∃ bal, total_balance self a = Some bal
       ∧ st !! "is_positive_balance" = Some (VNum (flag (Py.gt bal 0))))
  ∧ st !! "echelon_level" = Some (VNum 0%Q).

Lemma facility_features_inv self st a st' :
  _add_facility_features self st a = Some st' →
  frame facility_keys st st'
  ∧ Forall (λ k, is_Some (st' !! k)) facility_keys
  ∧ facility_post self a st'
  ∧ (is_facility a = false →
     ∃ sku, a_sku a = Some sku ∧ sku_id sku < _sku_number self).
Proof.
  unfold _add_facility_features. intros H. inv_bind H. inv_bind H.
  injection H as <-. cbn [foldl atoms_keys] in E0.
  unfold facility_post, total_balance, sku_one_hot.
  destruct (is_facility a) eqn:Hfac.
  - inv_bind E0. injection E0 as <-. rewrite E1. cbn [fmap option_fmap option_map].
    split; [frame_solve|]. split; [unfold facility_keys; all_present|].
    split; [|done].
    repeat split; try (by lk).
    + unfold atoms_keys. repeat (apply Forall_cons; split; [by lk|]).
      apply Forall_nil_2.
    + exists x. split; [done|]. by lk.
    + eexists. split; [done|]. by lk.
  - inv_bind E0. inv_bind E0. rewrite E1.
    cbn [fmap option_fmap option_map].
    apply state_list_set_inv in E0 as (l & Hl & Hi & ->).
    revert Hl. lk. intros [= <-]. rewrite zeros_length in Hi.
    split; [frame_solve|]. split; [unfold facility_keys; all_present|].
    split; [|intros _; by exists x2].
    repeat split; try (by lk).
    + unfold atoms_keys. repeat (apply Forall_cons; split; [by lk|]).
      apply Forall_nil_2.
    + rewrite E2. by lk.
    + exists x. split; [done|]. by lk.
    + eexists. split; [done|]. by lk.
Qed.

(** *** Storage features *)

(** What the loop over the cached storage content computes: each cached
    number written at its product id, and their running sum. *)
Definition storage_levels_of (n : nat) (cache : list (nat * Q)) : list Q :=
  foldl (λ l kv, <[kv.1 := kv.2]> l) (zeros n) cache.

Definition storage_utilization_of (cache : list (nat * Q)) : Q :=
  foldl (λ u kv, (u + kv.2)%Q) 0%Q cache.

Lemma storage_loop_inv (cache : list (nat * Q)) :
  ∀ (s : RawState) u l s',
    s !! "storage_utilization" = Some (VNum u) →
    s !! "storage_levels" = Some (VList l) →
    Py.foldM (λ state '(product_id, product_number),
        state ← state_list_set state "storage_levels" product_id product_number;
        u ← get_num state "storage_utilization";
        Some (<["storage_utilization" := VNum (u + product_number)%Q]> state))
      cache s = Some s' →
    s' !! "storage_utilization"
    = Some (VNum (foldl (λ u kv, (u + kv.2)%Q) u cache))
    ∧ s' !! "storage_levels"
      = Some (VList (foldl (λ l kv, <[kv.1 := kv.2]> l) l cache))
    ∧ Forall (λ kv, kv.1 < length l) cache.
Proof.
  induction cache as [|[pid pnum] cache IH]; intros s u l s' Hu Hl H.
  - simpl in H. injection H as <-. by repeat split.
  - cbn [Py.foldM] in H. inv_bind H. inv_bind E. inv_bind E.
    injection E as <-.
    apply state_list_set_inv in E0 as (l0 & Hl0 & Hi & ->).
    rewrite Hl in Hl0. injection Hl0 as <-.
    rewrite get_num_insert_ne in E1 by str_ne.
    apply get_num_Some in E1. rewrite Hu in E1. injection E1 as <-.
    apply (IH _ (u + pnum)%Q (<[pid := pnum]> l)) in H as (H1 & H2 & H3);
      [|by lk..].
    cbn [foldl fst snd]. split; [done|]. split; [done|].
    apply Forall_cons. split; [done|].
    eapply Forall_impl; [exact H3|]. intros kv. by rewrite length_insert.
Qed.

Definition storage_post (self : SCEnvWrapper) (a : AgentInfo)
    (st : RawState) : Prop :=
  (∃ cap, storage_capacity_of self a = Some cap
          ∧ st !! "storage_capacity" = Some (VNum cap))
  ∧ st !! "storage_utilization"
    = Some (VNum (storage_utilization_of (_cur_facility_storage_products self)))
  ∧ st !! "storage_levels"
    = Some (VList (storage_levels_of (_sku_number self)
                     (_cur_facility_storage_products self))).

Lemma storage_features_inv self st a st' :
  _add_storage_features self st a = Some st' →
  Forall (λ k, is_Some (st' !! k)) storage_keys
  ∧ storage_post self a st'
  ∧ Forall (λ kv, kv.1 < _sku_number self) (_cur_facility_storage_products self).
Proof.
  intros H. pose proof (storage_frame _ _ _ _ H) as Hfr.
  unfold _add_storage_features in H. inv_bind H. inv_bind H. inv_bind H.
  pose proof H as Hloop.
  apply (storage_loop_inv _ _ 0%Q (zeros (_sku_number self))) in H
    as (H1 & H2 & H3); [|by lk..].
  rewrite zeros_length in H3.
  assert (st' !! "storage_capacity" = Some (VNum x1)) as Hcap.
  { assert (frame ["storage_levels"; "storage_utilization"]
      (<["storage_utilization" := VNum 0%Q]>
         (<["storage_capacity" := VNum x1]>
            (<["storage_levels" := VList (zeros (_sku_number self))]> st)))
      st') as Hfr'.
    { eapply (foldM_frame (frame _)); [|exact Hloop].
      intros s [pid pnum] s' Hs. inv_bind Hs. inv_bind Hs. simplify_eq.
      frame_solve. }
    eapply frame_lookup; [exact Hfr'|not_in_keys|by lk]. }
  split.
  { unfold storage_keys. repeat (apply Forall_cons; split; [by eexists|]).
    apply Forall_nil_2. }
  split; [|done]. split; [|done].
  exists x1. split; [|done]. unfold storage_capacity_of.
  rewrite E. cbn [mbind option_bind]. rewrite E0. done.
Qed.



(** *** Bill-of-materials, distributor and price features *)

Lemma bom_features_inv self st a st' :
  _add_bom_features self st a = Some st' →
  st' !! "bom_inputs" = Some (VList (sku_one_hot self a))
  ∧ st' !! "bom_outputs" = Some (VList (sku_one_hot self a)).
Proof.
  unfold _add_bom_features, sku_one_hot. intros H.
  destruct (is_facility a); cbn [negb] in H.
  - injection H as <-. split; by lk.
  - inv_bind H. inv_bind H. rewrite E.
    apply state_list_set_inv in E0 as (l & Hl & Hi & ->).
    apply state_list_set_inv in H as (l' & Hl' & Hi' & ->).
    revert Hl. lk. intros [= <-]. revert Hl'. lk. intros [= <-].
    split; by lk.
Qed.

(** *** Conversion to 64-bit integers *)

(** Within the 64-bit range [.astype(np.int)] truncates toward zero. *)
Lemma astype_int_in_range (x : Q) :
  (inject_Z Py.INT64_MIN <= x)%Q → (x <= inject_Z Py.INT64_MAX)%Q →
  Py.astype_int x = inject_Z (if Qle_bool 0 x then Qfloor x else Qceiling x).
Proof.
  intros Hlo Hhi. unfold Py.astype_int. cbv zeta.
  destruct (Qle_bool 0 x) eqn:Hx.
  - apply Qle_bool_iff in Hx.
    pose proof (Qfloor_resp_le (inject_Z 0) x Hx) as H0.
    rewrite Qfloor_Z in H0.
    pose proof (Qfloor_resp_le _ _ Hhi) as H1. rewrite Qfloor_Z in H1.
    assert (Py.INT64_MIN <= 0)%Z as Hm by (vm_compute; discriminate).
    by rewrite (proj2 (Z.leb_le _ _)), (proj2 (Z.leb_le _ _)) by lia.
  - assert (x <= 0)%Q as Hx'.
    { destruct (Qlt_le_dec x 0) as [Hlt|Hge]; [lra|].
      apply Qle_bool_iff in Hge. congruence. }
    pose proof (Qceiling_resp_le x (inject_Z 0) Hx') as H0.
    rewrite Qceiling_Z in H0.
    pose proof (Qceiling_resp_le _ _ Hlo) as H1. rewrite Qceiling_Z in H1.
    assert (0 <= Py.INT64_MAX)%Z as Hm by (vm_compute; discriminate).
    by rewrite (proj2 (Z.leb_le _ _)), (proj2 (Z.leb_le _ _)) by lia.
Qed.

(** Outside of it the conversion yields [INT64_MIN], whatever the sign. *)
Example astype_int_out_of_range :
  Py.astype_int (inject_Z (2 ^ 64)) = inject_Z Py.INT64_MIN
  ∧ Py.astype_int (- inject_Z (2 ^ 64)) = inject_Z Py.INT64_MIN
  ∧ Py.astype_int (-7 # 2) = inject_Z (-3).
Proof. by vm_compute. Qed.

(** *** Distributor features *)

(** [dist_states[1]] and [dist_states[0]] of the agent's facility, each
    converted to a 64-bit integer: both 0 when it has no distribution
    unit. *)
Definition dist_states_of (self : SCEnvWrapper) (a : AgentInfo)
  : option (Q * Q) :=
  facility ← facility_levels self !! a_facility_id a;
  match distribution facility with
  | Some d =>
      let dist_states :=
        map Py.astype_int
            (ss_distribution (env self) (tick (env self)) (unit_id d)) in
      orders ← dist_states !! 1%nat;
      qty ← dist_states !! 0%nat;
      Some (orders, qty)
  | None => Some (0%Q, 0%Q)
  end.

Lemma distributor_features_inv self st a st' :
  _add_distributor_features self st a = Some st' →
  ∃ orders qty,
    dist_states_of self a = Some (orders, qty)
    ∧ st' !! "distributor_in_transit_orders" = Some (VNum orders)
    ∧ st' !! "distributor_in_transit_orders_qty" = Some (VNum qty).
Proof.
  unfold _add_distributor_features, dist_states_of. intros H. inv_bind H.
  rewrite E. cbn [mbind option_bind]. destruct (distribution x) as [d|].
  - inv_bind H. inv_bind H. injection H as <-. cbn zeta. rewrite E0, E1.
    cbn [mbind option_bind]. exists x0, x1. split; [done|]. split; by lk.
  - injection H as <-. exists 0%Q, 0%Q. split; [done|]. split; by lk.
Qed.

(** The price and cost written for the agent: 0 for a facility agent. *)
Definition agent_price (a : AgentInfo) : option (Q * Q) :=
  if is_facility a then Some (0%Q, 0%Q)
  else sku ← a_sku a; Some (price sku, cost sku).

Lemma price_features_inv self st a st' :
  _add_price_features self st a = Some st' →
  st' !! "max_price" = Some (VNum (max_price (_cur_metrics self)))
  ∧ ∃ p c, agent_price a = Some (p, c)
      ∧ st' !! "sku_price" = Some (VNum p)
      ∧ st' !! "sku_cost" = Some (VNum c).
Proof.
  unfold _add_price_features, agent_price. intros H.
  destruct (is_facility a); cbn [negb] in H.
  - injection H as <-. split; [by lk|]. exists 0%Q, 0%Q.
    split; [done|]. split; by lk.
  - inv_bind H. injection H as <-. rewrite E. cbn [mbind option_bind].
    split; [by lk|]. exists (price x), (cost x).
    split; [done|]. split; by lk.
Qed.

(** *** Sale features *)

(** [hist_states[1]]: the second row of the reshaped seller window. *)
Definition backlog_hist_of (self : SCEnvWrapper) (pinfo : ProductInfo)
  : list Q :=
  match seller pinfo with
  | Some s =>
      let buf := map Py.astype_int
        (ss_seller_sold_demand (env self)
           (window (tick (env self)) (sale_hist_len (settings (env self))))
           (node_index s)) in
      drop (length buf / 2) buf
  | None => zeros (sale_hist_len (settings (env self)))
  end.

(** [sale_gamma] and [total_backlog_demand] of a product agent: the mean
    sale and 0 without a seller sub-unit, the facility's configured
    [sale_gamma] and the total demand, converted to a 64-bit integer,
    with one. *)
Definition seller_scalars (self : SCEnvWrapper) (facility : FacilityLevel)
    (own : Sku) (pinfo : ProductInfo) (pm : ProductMetrics) : option (Q * Q) :=
  match seller pinfo with
  | Some s =>
      total ← map Py.astype_int
                (ss_seller_total_demand (env self) (tick (env self))
                                        (node_index s)) !! 0%nat;
      fsku ← f_skus facility !! sku_id own;
      Some (sale_gamma fsku, total)
  | None => Some (pm_sale_mean pm, 0%Q)
  end.

Definition sale_values (self : SCEnvWrapper) (a : AgentInfo) (st : RawState)
  : Prop :=
  if is_facility a then
    st !! "sale_mean" = Some (VNum 1%Q)
    ∧ st !! "sale_std" = Some (VNum 1%Q)
    ∧ st !! "sale_gamma" = Some (VNum 1%Q)
    ∧ st !! "service_level" = Some (VNum 0.95%Q)
    ∧ st !! "total_backlog_demand" = Some (VNum 0%Q)
    ∧ st !! "sale_hist"
      = Some (VList (zeros (sale_hist_len (settings (env self)))))
    ∧ st !! "backlog_demand_hist"
      = Some (VList (zeros (sale_hist_len (settings (env self)))))
    ∧ st !! "consumption_hist"
      = Some (VList (zeros (consumption_hist_len (settings (env self)))))
    ∧ st !! "pending_order"
      = Some (VList (zeros (pending_order_len (settings (env self)))))
  else
    ∃ pm own facility pinfo gamma total,
      m_products (_cur_metrics self) !! a_id a = Some pm
      ∧ a_sku a = Some own
      ∧ facility_levels self !! a_facility_id a = Some facility
      ∧ products facility !! sku_id own = Some pinfo
      ∧ seller_scalars self facility own pinfo pm = Some (gamma, total)
      ∧ st !! "sale_mean" = Some (VNum (pm_sale_mean pm))
      ∧ st !! "sale_std" = Some (VNum (pm_sale_std pm))
      ∧ st !! "sale_gamma" = Some (VNum gamma)
      ∧ st !! "service_level" = Some (VNum (service_level own))
      ∧ st !! "total_backlog_demand" = Some (VNum total)
      ∧ st !! "sale_hist" = Some (VList (sale_hist_of self pinfo))
      ∧ st !! "backlog_demand_hist" = Some (VList (backlog_hist_of self pinfo))
      ∧ st !! "consumption_hist"
        = Some (VList (consumption_hist_of self pinfo))
      ∧ st !! "pending_order" = Some (VList (pending_order_of self pinfo pm)).

Lemma sale_features_inv self st a st' :
  _add_sale_features self st a = Some st' →
  Forall (λ k, is_Some (st' !! k)) sale_keys ∧ sale_values self a st'.
Proof.
  unfold _add_sale_features, sale_values. intros H.
  destruct (is_facility a).
  - injection H as <-. split; [unfold sale_keys; all_present|].
    repeat split; by lk.
  - apply bind_Some_inv in H as (pm & Hpm & H).
    apply bind_Some_inv in H as (own & Hown & H).
    apply bind_Some_inv in H as (sm & Hsm & H).
    apply bind_Some_inv in H as (facility & Hf & H).
    apply bind_Some_inv in H as (pinfo & Hp & H).
    revert Hsm. lk. intros [= <-].
    unfold seller_scalars, sale_hist_of, backlog_hist_of, consumption_hist_of,
      pending_order_of.
    destruct (seller pinfo) as [s|] eqn:Hs.
    + apply bind_Some_inv in H as (hs & Hhs & H).
      apply bind_Some_inv in H as (total & Htotal & H).
      apply bind_Some_inv in H as (fsku & Hfsku & H).
      injection H as <-.
      unfold reshape2 in Hhs.
      destruct (Nat.even _) in Hhs; [|done]. injection Hhs as <-.
      cbn [fst snd].
      split.
      { unfold sale_keys. destruct (consumer pinfo); all_present. }
      exists pm, own, facility, pinfo, (sale_gamma fsku), total.
      rewrite Hs. cbv beta iota zeta in Htotal |- *.
      rewrite Htotal. cbn [mbind option_bind]. rewrite Hfsku.
      cbn [mbind option_bind].
      do 5 (split; [done|]).
      destruct (consumer pinfo); repeat split; by lk.
    + injection H as <-.
      split.
      { unfold sale_keys. destruct (consumer pinfo); all_present. }
      exists pm, own, facility, pinfo, (pm_sale_mean pm), 0%Q.
      rewrite Hs.
      do 5 (split; [done|]).
      destruct (consumer pinfo); repeat split; by lk.
Qed.

(** *** Vendor-lead-time and consumer features *)

Lemma per_sku_loop_ext ks sku_list own body st st' :
  (∀ s j sku s', body s j sku = Some s' → ext ks s s') →
  per_sku_loop sku_list own body st = Some st' → ext ks st st'.
Proof.
  intros Hb. unfold per_sku_loop. apply foldM_frame; [apply _|].
  intros s [j sku] s' Hs. case_decide; [eauto|]. by simplify_eq.
Qed.

Lemma vlt_features_ext self st a st' :
  _add_vlt_features self st a = Some st' →
  ext vlt_keys (vlt_defaults self st) st'.
Proof.
  unfold _add_vlt_features, vlt_defaults. intros H. inv_bind H.
  destruct (is_facility a); simpl in H.
  - by simplify_eq.
  - inv_bind H. inv_bind H.
    match type of H with (if ?b then _ else _) = _ => destruct b end.
    + etrans; [|eapply (foldM_frame (ext vlt_keys)); [|exact H]].
      * ext_solve.
      * intros s [i source] s'. apply per_sku_loop_ext.
        intros s1 j sku s2 Hs. inv_bind Hs. ext_solve.
    + by simplify_eq.
Qed.

(** The keys [_add_consumer_features] may overwrite after its defaults:
    [consumer_source_inventory] is not among them. *)
Definition consumer_written : list string :=
  (["consumer_source_export_mask"; "consumer_in_transit_orders"]
   ++ tail_keys)%list.

Section ConsumerInv.
Variable np_sqrt : Q → Q.
Variable norm_ppf : Q → Q.

Lemma export_mask_loop_ext self own sources s s' :
  export_mask_loop self own sources s = Some s' → ext consumer_written s s'.
Proof.
  unfold export_mask_loop. apply foldM_frame; [apply _|].
  intros s1 [i source] s2. apply per_sku_loop_ext.
  intros s3 j sku s4 Hs. inv_bind Hs. inv_bind Hs. ext_solve.
Qed.

Lemma in_transit_loop_ext self fm s s' :
  in_transit_loop self fm s = Some s' → ext consumer_written s s'.
Proof.
  unfold in_transit_loop. apply foldM_frame; [apply _|].
  intros s1 [i sku] s2 Hs. inv_bind Hs. inv_bind Hs. inv_bind Hs. ext_solve.
Qed.

Lemma inventory_tail_ext self a own s s' :
  inventory_tail np_sqrt norm_ppf self a own s = Some s' →
  ext consumer_written s s'.
Proof.
  unfold inventory_tail. intros H.
  apply bind_Some_inv in H as (in_stock & _ & H).
  apply bind_Some_inv in H as (l & _ & H).
  apply bind_Some_inv in H as (in_transit & _ & H).
  apply bind_Some_inv in H as (fm & _ & H).
  apply bind_Some_inv in H as (s3 & Hs3 & H).
  assert (ext consumer_written s s3) as Hx4.
  { destruct (pending_order fm).
    - inv_bind Hs3. injection Hs3 as <-. ext_solve.
    - injection Hs3 as <-. ext_solve. }
  clear Hs3.
  repeat (apply bind_Some_inv in H as (? & _ & H)).
  injection H as <-. ext_solve.
Qed.

Lemma consumer_features_cases self st a st' :
  _add_consumer_features np_sqrt norm_ppf self st a = Some st' →
  st' = consumer_defaults self st
  ∨ ∃ facility own pinfo s1 fm s2,
      active self a facility own pinfo
      ∧ export_mask_loop self own
          (default [] (upstreams facility !! sku_id own))
          (consumer_defaults self st) = Some s1
      ∧ m_facilities (_cur_metrics self) !! a_facility_id a = Some fm
      ∧ in_transit_loop self fm s1 = Some s2
      ∧ inventory_tail np_sqrt norm_ppf self a own s2 = Some st'.
Proof.
  intros H. destruct (is_facility a) eqn:Hfac.
  { rewrite consumer_features_facility in H by done. left. congruence. }
  destruct (facility_levels self !! a_facility_id a) as [facility|] eqn:Hf;
    [|unfold _add_consumer_features in H; by rewrite Hfac, Hf in H].
  destruct (a_sku a) as [own|] eqn:Hown;
    [|unfold _add_consumer_features in H; by rewrite Hfac, Hf, Hown in H].
  destruct (products facility !! sku_id own) as [pinfo|] eqn:Hp;
    [|unfold _add_consumer_features in H; rewrite Hfac, Hf, Hown in H;
      cbn [mbind option_bind] in H; by rewrite Hp in H].
  destruct (consumer pinfo) as [c|] eqn:Hc.
  2:{ erewrite consumer_features_no_consumer in H by done. left. congruence. }
  destruct (decide (default [] (upstreams facility !! sku_id own) = []))
    as [Hs|Hs].
  { erewrite consumer_features_no_source in H by done. left. congruence. }
  erewrite consumer_features_active in H by done.
  apply bind_Some_inv in H as (s1 & Hs1 & H).
  apply bind_Some_inv in H as (fm & Hfm & H).
  apply bind_Some_inv in H as (s2 & Hs2 & H).
  right. exists facility, own, pinfo, s1, fm, s2.
  split; [|done]. unfold active. rewrite Hc. eauto 10.
Qed.

Lemma consumer_features_ext self st a st' :
  _add_consumer_features np_sqrt norm_ppf self st a = Some st' →
  ext consumer_written (consumer_defaults self st) st'.
Proof.
  intros H. apply consumer_features_cases in H
    as [->|(facility & own & pinfo & s1 & fm & s2 & _ & H1 & _ & H2 & H3)];
    [done|].
  etrans; [by eapply export_mask_loop_ext|].
  etrans; [by eapply in_transit_loop_ext|].
  by eapply inventory_tail_ext.
Qed.

Lemma consumer_features_frame self st a st' :
  _add_consumer_features np_sqrt norm_ppf self st a = Some st' →
  frame consumer_keys st st'.
Proof.
  intros H. apply consumer_features_ext in H as [H _].
  etrans; [apply consumer_defaults_frame|].
  eapply frame_weaken; [|exact H]. keys_subset.
Qed.

Lemma consumer_features_present self st a st' :
  _add_consumer_features np_sqrt norm_ppf self st a = Some st' →
  Forall (λ k, is_Some (st' !! k)) consumer_keys
  ∧ st' !! "consumer_source_inventory"
    = Some (VList (zeros (_sku_number self))).
Proof.
  intros H. apply consumer_features_ext in H as [F G]. split.
  - unfold consumer_keys.
    repeat (apply Forall_cons; split;
            [apply G; unfold consumer_defaults; present|]).
    apply Forall_nil_2.
  - eapply frame_lookup; [exact F|not_in_keys|].
    unfold consumer_defaults. by lk.
Qed.
End ConsumerInv.

(** ** The record of one agent, field by field *)

(** The keys each stage of [build_agent_state] writes, in program order. *)
Definition stage_keys : list (list string) :=
  [facility_keys; storage_keys; bom_keys; distributor_keys; sale_keys;
   vlt_keys; consumer_keys; price_keys; ["global_time"]].

(** The keys written after the first [n] stages. *)
Definition later_keys (n : nat) : list string := concat (drop n stage_keys).

(** Every key of a record. *)
Definition record_keys : list string := later_keys 0.

Lemma frame_step ks1 ks2 ks (s1 s2 s3 : RawState) :
  frame ks1 s1 s2 → frame ks2 s2 s3 → ks1 ⊆ ks → ks2 ⊆ ks → frame ks s1 s3.
Proof.
  intros F1 F2 H1 H2.
  etrans; [exact (frame_weaken _ _ _ _ H1 F1)|exact (frame_weaken _ _ _ _ H2 F2)].
Qed.

Ltac keys_included := apply (bool_decide_unpack _); vm_compute; exact I.

Lemma present_frame ks keys (s s' : RawState) :
  frame ks s s' → Forall (λ k, k ∉ ks) keys →
  Forall (λ k, is_Some (s !! k)) keys → Forall (λ k, is_Some (s' !! k)) keys.
Proof.
  intros F Hd Hp. rewrite Forall_forall in *. intros k Hk.
  rewrite F by by apply Hd. by apply Hp.
Qed.



Section Records.
Variable np_sqrt : Q → Q.
Variable norm_ppf : Q → Q.

(** The intermediate records of a successful build, each with the frame
    that relates it to the final record. *)
Lemma build_stages self a st :
  build_agent_state np_sqrt norm_ppf self a = Some st →
  ∃ s1 s2 s3 s4 s5 s6 s7 s8,
    (_add_facility_features self ∅ a = Some s1 ∧ frame (later_keys 1) s1 st)
    ∧ (_add_storage_features self s1 a = Some s2
       ∧ frame (later_keys 2) s2 st)
    ∧ (_add_bom_features self s2 a = Some s3 ∧ frame (later_keys 3) s3 st)
    ∧ (_add_distributor_features self s3 a = Some s4
       ∧ frame (later_keys 4) s4 st)
    ∧ (_add_sale_features self s4 a = Some s5 ∧ frame (later_keys 5) s5 st)
    ∧ (_add_vlt_features self s5 a = Some s6 ∧ frame (later_keys 6) s6 st)
    ∧ (_add_consumer_features np_sqrt norm_ppf self s6 a = Some s7
       ∧ frame (later_keys 7) s7 st)
    ∧ (_add_price_features self s7 a = Some s8 ∧ frame (later_keys 8) s8 st)
    ∧ st = _add_global_features self s8
    ∧ frame record_keys ∅ st.
Proof.
  unfold build_agent_state. intros H.
  apply bind_Some_inv in H as (s8 & H & Hst). injection Hst as <-.
  unfold _state in H.
  apply bind_Some_inv in H as (s1 & H1 & H).
  apply bind_Some_inv in H as (s2 & H2 & H).
  apply bind_Some_inv in H as (s3 & H3 & H).
  apply bind_Some_inv in H as (s4 & H4 & H).
  apply bind_Some_inv in H as (s5 & H5 & H).
  apply bind_Some_inv in H as (s6 & H6 & H).
  apply bind_Some_inv in H as (s7 & H7 & H8).
  pose proof (global_frame self s8) as F8.
  assert (frame (later_keys 7) s7 (_add_global_features self s8)) as F7.
  { eapply frame_step; [by eapply price_frame|exact F8|keys_included..]. }
  assert (frame (later_keys 6) s6 (_add_global_features self s8)) as F6.
  { eapply frame_step;
      [by eapply consumer_features_frame|exact F7|keys_included..]. }
  assert (frame (later_keys 5) s5 (_add_global_features self s8)) as F5.
  { eapply frame_step; [by eapply vlt_frame|exact F6|keys_included..]. }
  assert (frame (later_keys 4) s4 (_add_global_features self s8)) as F4.
  { eapply frame_step; [by eapply sale_frame|exact F5|keys_included..]. }
  assert (frame (later_keys 3) s3 (_add_global_features self s8)) as F3.
  { eapply frame_step;
      [by eapply distributor_frame|exact F4|keys_included..]. }
  assert (frame (later_keys 2) s2 (_add_global_features self s8)) as F2.
  { eapply frame_step; [by eapply bom_frame|exact F3|keys_included..]. }
  assert (frame (later_keys 1) s1 (_add_global_features self s8)) as F1.
  { eapply frame_step; [by eapply storage_frame|exact F2|keys_included..]. }
  assert (frame record_keys ∅ (_add_global_features self s8)) as F0.
  { eapply frame_step;
      [by eapply facility_features_inv|exact F1|keys_included..]. }
  exists s1, s2, s3, s4, s5, s6, s7, s8. by repeat split.
Qed.

Ltac stages H :=
  apply build_stages in H
    as (s1 & s2 & s3 & s4 & s5 & s6 & s7 & s8 & [H1 F1] & [H2 F2] & [H3 F3]
        & [H4 F4] & [H5 F5] & [H6 F6] & [H7 F7] & [H8 F8] & Hst & F0).

Ltac carry F H := eapply frame_lookup; [exact F|not_in_keys|exact H].

(** X11.  Every record has the same keys, whatever the agent: exactly the
    forty-seven keys of [record_keys]. *)
Theorem record_schema self a st :
  build_agent_state np_sqrt norm_ppf self a = Some st →
  ∀ k, is_Some (st !! k) ↔ k ∈ record_keys.
Proof.
  intros H. stages H.
  assert (Forall (λ k, is_Some (st !! k)) record_keys) as Hall.
  { change record_keys with
      (facility_keys ++ storage_keys ++ bom_keys ++ distributor_keys
       ++ sale_keys ++ vlt_keys ++ consumer_keys ++ price_keys
       ++ ["global_time"])%list.
    repeat (apply Forall_app; split).
    - eapply present_frame; [exact F1|keys_included|].
      by eapply facility_features_inv.
    - eapply present_frame; [exact F2|keys_included|].
      by eapply storage_features_inv.
    - apply bom_features_inv in H3 as [Hi Ho].
      eapply present_frame; [exact F3|keys_included|].
      unfold bom_keys. repeat (apply Forall_cons; split; [by eexists|]).
      apply Forall_nil_2.
    - apply distributor_features_inv in H4 as (o & q & _ & Ho & Hq).
      eapply present_frame; [exact F4|keys_included|].
      unfold distributor_keys.
      repeat (apply Forall_cons; split; [by eexists|]). apply Forall_nil_2.
    - eapply present_frame; [exact F5|keys_included|].
      by eapply sale_features_inv.
    - apply vlt_features_ext in H6 as [_ G].
      eapply present_frame; [exact F6|keys_included|].
      unfold vlt_keys.
      repeat (apply Forall_cons; split;
              [apply G; unfold vlt_defaults; present|]).
      apply Forall_nil_2.
    - eapply present_frame; [exact F7|keys_included|].
      by eapply consumer_features_present.
    - apply price_features_inv in H8 as (Hm & p & c & _ & Hp & Hc).
      eapply present_frame; [exact F8|keys_included|].
      unfold price_keys.
      repeat (apply Forall_cons; split; [by eexists|]). apply Forall_nil_2.
    - apply Forall_cons. split; [|apply Forall_nil_2].
      rewrite Hst. unfold _add_global_features. present. }
  intros k. split.
  - intros Hk. destruct (decide (k ∈ record_keys)) as [|Hn]; [done|].
    rewrite (F0 k Hn), lookup_empty in Hk. by destruct Hk.
  - rewrite Forall_forall in Hall. apply Hall.
Qed.

(** X12.  The three SKU encodings of a record, [facility_id], [bom_inputs] and
    [bom_outputs], are one and the same vector of [_sku_number] entries:
    all zeros for a facility agent, and for a product agent a single 1 at
    the id of its SKU. *)
Theorem record_sku_encoding self a st :
  build_agent_state np_sqrt norm_ppf self a = Some st →
  ∃ l, st !! "facility_id" = Some (VList l)
    ∧ st !! "bom_inputs" = Some (VList l)
    ∧ st !! "bom_outputs" = Some (VList l)
    ∧ length l = _sku_number self
    ∧ ∀ j, j < _sku_number self →
        l !! j = Some (flag (bool_decide (is_facility a = false
                                          ∧ sku_id <$> a_sku a = Some j))).
Proof.
  intros H. stages H.
  apply facility_features_inv in H1 as (_ & _ & Hpost & Hsku).
  destruct Hpost as (_ & _ & _ & _ & _ & Hid & _).
  apply bom_features_inv in H3 as [Hi Ho].
  exists (sku_one_hot self a).
  split; [carry F1 Hid|]. split; [carry F3 Hi|]. split; [carry F3 Ho|].
  unfold sku_one_hot. destruct (is_facility a).
  - split; [apply zeros_length|]. intros j Hj.
    rewrite bool_decide_false by by intros [? _].
    by apply lookup_replicate_2.
  - destruct (Hsku eq_refl) as (sku & -> & Hlt). cbn [fmap option_fmap option_map].
    split; [by rewrite length_insert, zeros_length|]. intros j Hj.
    destruct (decide (sku_id sku = j)) as [<-|Hne].
    + rewrite bool_decide_true by done.
      apply list_lookup_insert_eq. by rewrite zeros_length.
    + rewrite bool_decide_false by (intros [_ [= ?]]; done).
      rewrite list_lookup_insert_ne by done. by apply lookup_replicate_2.
Qed.

(** X13.  The fields a record carries as placeholders never vary: [facility] is
    [None], [constraint_idx] is [[0]], [is_accepted] is all zeros, the five
    fields named after the constraint atoms are all ones (the atoms are
    not evaluated), [echelon_level] is 0 and [consumer_source_inventory],
    allocated but written by no loop, is all zeros. *)
Theorem record_placeholders self a st :
  build_agent_state np_sqrt norm_ppf self a = Some st →
  let hist := constraint_state_hist_len (settings (env self)) in
  st !! "facility" = Some VNone
  ∧ st !! "constraint_idx" = Some (VList [0%Q])
  ∧ st !! "is_accepted" = Some (VList (zeros hist))
  ∧ Forall (λ k, st !! k = Some (VList (ones hist))) atoms_keys
  ∧ st !! "echelon_level" = Some (VNum 0%Q)
  ∧ st !! "consumer_source_inventory"
    = Some (VList (zeros (_sku_number self))).
Proof.
  intros H hist. stages H.
  apply facility_features_inv in H1 as (_ & _ & Hpost & _).
  destruct Hpost as (_ & Hf & Hacc & Hidx & Hat & _ & _ & _ & _ & Hech).
  apply consumer_features_present in H7 as [_ Hinv].
  split; [carry F1 Hf|]. split; [carry F1 Hidx|]. split; [carry F1 Hacc|].
  split; [|split; [carry F1 Hech|carry F7 Hinv]].
  unfold atoms_keys in *. rewrite !Forall_cons in Hat.
  destruct Hat as (A1 & A2 & A3 & A4 & A5 & _).
  repeat (apply Forall_cons; split; [by (eapply frame_lookup;
    [exact F1|not_in_keys|eassumption])|]).
  apply Forall_nil_2.
Qed.

(** X14.  [facility_type] is the one-hot encoding of the agent's type over the
    positions of [_agent_types], and [is_positive_balance] is 1 exactly
    when the total balance of the entity the agent stands for (its
    facility, or its product unit) is positive. *)
Theorem record_type_and_balance self a st :
  build_agent_state np_sqrt norm_ppf self a = Some st →
  ∃ l bal x,
    st !! "facility_type" = Some (VList l)
    ∧ length l = length (_agent_types self)
    ∧ (∀ i, i < length (_agent_types self) →
            l !! i = Some (flag (bool_decide (i = agent_type a))))
    ∧ total_balance self a = Some bal
    ∧ st !! "is_positive_balance" = Some (VNum x)
    ∧ set_exactly_when x (0 < bal)%Q.
Proof.
  intros H. stages H.
  apply facility_features_inv in H1 as (_ & _ & Hpost & _).
  destruct Hpost as (Hty & _ & _ & _ & _ & _ & _ & _ & (bal & Hbal & Hpos) & _).
  eexists _, bal, _. split; [carry F1 Hty|].
  split; [by rewrite length_map, length_seq|].
  split.
  { intros i Hi. change (map ?f ?l) with (f <$> l).
    by rewrite list_lookup_fmap, lookup_seq_lt. }
  split; [done|]. split; [carry F1 Hpos|].
  apply flag_exactly_when. apply (py_lt_iff 0 bal).
Qed.



(** X16.  A cached product id outside the catalogue range makes the assignment
    to [storage_levels] raise: no record is built. *)
Theorem storage_out_of_range_raises self a :
  Exists (λ kv, _sku_number self ≤ kv.1)%nat
         (_cur_facility_storage_products self) →
  build_agent_state np_sqrt norm_ppf self a = None.
Proof.
  intros Hex.
  destruct (build_agent_state np_sqrt norm_ppf self a) as [st|] eqn:H;
    [|done].
  stages H. apply storage_features_inv in H2 as (_ & _ & Hrange).
  apply Exists_exists in Hex as (kv & Hin & Hge).
  rewrite Forall_forall in Hrange. specialize (Hrange _ Hin). lia.
Qed.

(** X17.  The price fields and the clock: [max_price] is the cached metric,
    [global_time] the current tick, and [sku_price], [sku_cost] are the
    price and cost of the agent's SKU, or 0 for a facility agent. *)
Theorem record_prices self a st :
  build_agent_state np_sqrt norm_ppf self a = Some st →
  st !! "max_price" = Some (VNum (max_price (_cur_metrics self)))
  ∧ st !! "global_time" = Some (VNum (inject_Z (tick (env self))))
  ∧ ∃ p c, st !! "sku_price" = Some (VNum p)
      ∧ st !! "sku_cost" = Some (VNum c)
      ∧ (p, c) = match a_sku a with
                 | Some sku => if is_facility a then (0%Q, 0%Q)
                               else (price sku, cost sku)
                 | None => (0%Q, 0%Q)
                 end.
Proof.
  intros H. stages H.
  apply price_features_inv in H8 as (Hm & p & c & Hpc & Hp & Hc).
  split; [carry F8 Hm|].
  split; [rewrite Hst; unfold _add_global_features; by lk|].
  exists p, c. split; [carry F8 Hp|]. split; [carry F8 Hc|].
  unfold agent_price in Hpc. destruct (is_facility a).
  - injection Hpc as <- <-. by destruct (a_sku a).
  - destruct (a_sku a); [|done]. by injection Hpc as <- <-.
Qed.

(** X18.  The sale fields of a record: the defaults for a facility agent; for a
    product agent the metrics of its unit, the windows of its seller and
    consumer sub-units, and a [sale_gamma] that mirrors [sale_mean] unless
    a seller sub-unit exists, in which case it is the facility's
    configured [sale_gamma].  What is read from the seller snapshot (the
    total demand, the sale and backlog windows) is converted to 64-bit
    integers by [Py.astype_int]. *)
Theorem record_sale_features self a st :
  build_agent_state np_sqrt norm_ppf self a = Some st →
  sale_values self a st.
Proof.
  intros H. stages H. apply sale_features_inv in H5 as [_ Hv].
  unfold sale_values in *. destruct (is_facility a).
  - destruct Hv as (V1 & V2 & V3 & V4 & V5 & V6 & V7 & V8 & V9).
    repeat split; eapply frame_lookup; try exact F5; try eassumption;
      not_in_keys.
  - destruct Hv as (pm & own & facility & pinfo & gamma & total & V).
    destruct V as (A1 & A2 & A3 & A4 & A5 & V1 & V2 & V3 & V4 & V5 & V6 & V7
                   & V8 & V9).
    exists pm, own, facility, pinfo, gamma, total.
    do 5 (split; [done|]).
    repeat split; eapply frame_lookup; try exact F5; try eassumption;
      not_in_keys.
Qed.

(** X19.  The distributor fields: [distributor_in_transit_orders] is the second
    entry of the distribution snapshot and
    [distributor_in_transit_orders_qty] the first, both converted to
    64-bit integers by [Py.astype_int]; both are 0 for a facility without
    distribution unit. *)
Theorem record_distributor self a st :
  build_agent_state np_sqrt norm_ppf self a = Some st →
  ∃ orders qty,
    dist_states_of self a = Some (orders, qty)
    ∧ st !! "distributor_in_transit_orders" = Some (VNum orders)
    ∧ st !! "distributor_in_transit_orders_qty" = Some (VNum qty).
Proof.
  intros H. stages H.
  apply distributor_features_inv in H4 as (o & q & Hd & Ho & Hq).
  exists o, q. split; [done|]. split; [carry F4 Ho|carry F4 Hq].
Qed.

(** X20.  On the record of a facility agent the stock is 0 and the price margin
    is 0: the three stock atoms answer [False], [low_profit] answers
    [True], and [is_replenish_constraint] answers [False], or raises when
    the consumption window is configured with length 0. *)
Theorem atoms_on_facility_record self a st :
  build_agent_state np_sqrt norm_ppf self a = Some st →
  is_facility a = true →
  stock_constraint st = Some false
  ∧ low_stock_constraint st = Some false
  ∧ out_of_stock st = Some false
  ∧ low_profit st = Some true
  ∧ is_replenish_constraint st
    = if decide (consumption_hist_len (settings (env self)) = 0)
      then None else Some false.
Proof.
  intros H Hfac. stages H.
  apply sale_features_inv in H5 as [_ Hv]. unfold sale_values in Hv.
  rewrite Hfac in Hv. destruct Hv as (Hsm & _ & _ & _ & _ & _ & _ & Hch & _).
  rewrite consumer_features_facility in H7 by done. injection H7 as <-.
  apply price_features_inv in H8 as (_ & p & c & Hpc & Hp & Hc).
  unfold agent_price in Hpc. rewrite Hfac in Hpc. injection Hpc as <- <-.
  assert (get_num st "inventory_in_stock" = Some 0%Q) as Hstock.
  { apply get_num_Some. eapply frame_lookup; [exact F7|not_in_keys|].
    unfold consumer_defaults. by lk. }
  assert (get_num st "sale_mean" = Some 1%Q) as Hsm'.
  { apply get_num_Some. carry F5 Hsm. }
  assert (get_num st "sku_price" = Some 0%Q) as Hp'.
  { apply get_num_Some. carry F8 Hp. }
  assert (get_num st "sku_cost" = Some 0%Q) as Hc'.
  { apply get_num_Some. carry F8 Hc. }
  assert (get_list st "consumption_hist"
          = Some (zeros (consumption_hist_len (settings (env self)))))
    as Hch'.
  { apply get_list_Some. carry F5 Hch. }
  unfold stock_constraint, low_stock_constraint, out_of_stock.
  rewrite Hstock. cbn [mbind option_bind].
  split; [done|]. split; [done|]. split; [done|]. split.
  - unfold low_profit. rewrite Hp', Hc', Hsm'. done.
  - unfold is_replenish_constraint. rewrite Hch'. cbn [mbind option_bind].
    destruct (consumption_hist_len (settings (env self))) as [|n].
    + done.
    + rewrite decide_False by done. unfold zeros.
      rewrite last_lookup, length_replicate. cbn [pred].
      rewrite lookup_replicate_2 by lia. done.
Qed.
End Records.

(** ** The records of the sample topology *)

Lemma wf_facility_agent : wf_agent sample_self facility_agent.
Proof.
  vm_compute. repeat split; eauto; repeat constructor; eauto.
Defined.

Lemma retail_record_built :
  ∃ st, build_agent_state sample_sqrt sample_ppf sample_self retail_agent
        = Some st.
Proof.
  destruct (build_shaped sample_sqrt sample_ppf sample_self retail_agent
              wf_retail_agent) as (st & Hst & _).
  by exists st.
Qed.

Lemma facility_record_built :
  ∃ st, build_agent_state sample_sqrt sample_ppf sample_self facility_agent
        = Some st.
Proof.
  destruct (build_shaped sample_sqrt sample_ppf sample_self facility_agent
              wf_facility_agent) as (st & Hst & _).
  by exists st.
Qed.

Lemma record_schema_witness :
  ∃ st, build_agent_state sample_sqrt sample_ppf sample_self retail_agent
        = Some st
    ∧ is_Some (st !! "bom_inputs") ∧ st !! "facility_name" = None.
Proof.
  destruct retail_record_built as [st Hst]. exists st. split; [exact Hst|].
  pose proof (record_schema sample_sqrt sample_ppf sample_self retail_agent
                st Hst) as Hk.
  split.
  - apply Hk. apply (bool_decide_unpack _). vm_compute. exact I.
  - destruct (st !! "facility_name") as [v|] eqn:Hv; [|reflexivity].
    exfalso. assert ("facility_name" ∈ record_keys) as Hin.
    { apply Hk. rewrite Hv. by eexists. }
    revert Hin. apply (bool_decide_unpack _). vm_compute. exact I.
Defined.

Lemma record_sku_encoding_witness :
  ∃ st l, build_agent_state sample_sqrt sample_ppf sample_self retail_agent
          = Some st
    ∧ st !! "bom_outputs" = Some (VList l)
    ∧ l !! 1 = Some 1%Q ∧ l !! 2 = Some 0%Q.
Proof.
  destruct retail_record_built as [st Hst].
  destruct (record_sku_encoding sample_sqrt sample_ppf sample_self
              retail_agent st Hst) as (l & _ & _ & Ho & _ & Hl).
  exists st, l. split; [exact Hst|]. split; [exact Ho|].
  split; apply Hl; vm_compute; lia.
Defined.

Lemma record_placeholders_witness :
  ∃ st, build_agent_state sample_sqrt sample_ppf sample_self retail_agent
        = Some st
    ∧ st !! "consumer_source_inventory" = Some (VList [0; 0; 0]%Q)
    ∧ st !! "low_profit" = Some (VList [1; 1]%Q).
Proof.
  destruct retail_record_built as [st Hst].
  destruct (record_placeholders sample_sqrt sample_ppf sample_self
              retail_agent st Hst) as (_ & _ & _ & Hat & _ & Hinv).
  exists st. split; [exact Hst|]. split; [exact Hinv|].
  rewrite Forall_forall in Hat. apply Hat.
  apply (bool_decide_unpack _). vm_compute. exact I.
Defined.

Lemma record_type_and_balance_witness :
  ∃ st l, build_agent_state sample_sqrt sample_ppf sample_self retail_agent
          = Some st
    ∧ st !! "facility_type" = Some (VList l)
    ∧ l !! 1 = Some 1%Q
    ∧ st !! "is_positive_balance" = Some (VNum 1%Q).
Proof.
  destruct retail_record_built as [st Hst].
  destruct (record_type_and_balance sample_sqrt sample_ppf sample_self
              retail_agent st Hst)
    as (l & bal & x & Hl & _ & Hi & Hbal & Hx & Hset).
  exists st, l. split; [exact Hst|]. split; [exact Hl|].
  split; [apply Hi; vm_compute; lia|].
  vm_compute in Hbal. injection Hbal as <-.
  destruct Hset as [[-> _]|[_ Hn]]; [exact Hx|].
  exfalso. apply Hn. reflexivity.
Defined.


Lemma storage_out_of_range_raises_witness :
  build_agent_state sample_sqrt sample_ppf
    (set_cur_storage fresh_self [(7, 1%Q)] []) facility_agent = None.
Proof.
  apply (storage_out_of_range_raises sample_sqrt sample_ppf
           (set_cur_storage fresh_self [(7, 1%Q)] []) facility_agent).
  apply Exists_cons_hd. vm_compute. lia.
Defined.

Lemma record_prices_witness :
  ∃ st, build_agent_state sample_sqrt sample_ppf sample_self retail_agent
        = Some st
    ∧ st !! "max_price" = Some (VNum 20%Q)
    ∧ st !! "global_time" = Some (VNum (inject_Z 5))
    ∧ st !! "sku_price" = Some (VNum 10%Q)
    ∧ st !! "sku_cost" = Some (VNum 5%Q).
Proof.
  destruct retail_record_built as [st Hst].
  destruct (record_prices sample_sqrt sample_ppf sample_self retail_agent
              st Hst) as (Hm & Hg & p & c & Hp & Hc & Hpc).
  exists st. split; [exact Hst|]. split; [exact Hm|]. split; [exact Hg|].
  cbn in Hpc. injection Hpc as -> ->. split; [exact Hp|exact Hc].
Defined.

Lemma record_sale_features_witness :
  ∃ st, build_agent_state sample_sqrt sample_ppf sample_self retail_agent
        = Some st
    ∧ sale_values sample_self retail_agent st.
Proof.
  destruct retail_record_built as [st Hst]. exists st. split; [exact Hst|].
  exact (record_sale_features sample_sqrt sample_ppf sample_self retail_agent
           st Hst).
Defined.

(** The record of the product agent of facility 1, whose facility has a
    distribution unit. *)
Lemma supply_record_built :
  ∃ st, build_agent_state sample_sqrt sample_ppf sample_self supply_agent
        = Some st.
Proof.
  destruct (build_shaped sample_sqrt sample_ppf sample_self supply_agent
              wf_supply_agent) as (st & Hst & _).
  by exists st.
Qed.

Lemma record_distributor_witness :
  ss_distribution sample_env 5 21 = [7; 1]%Q
  ∧ ∃ st, build_agent_state sample_sqrt sample_ppf sample_self supply_agent
          = Some st
      ∧ st !! "distributor_in_transit_orders" = Some (VNum 1%Q)
      ∧ st !! "distributor_in_transit_orders_qty" = Some (VNum 7%Q).
Proof.
  split; [reflexivity|].
  destruct supply_record_built as [st Hst].
  destruct (record_distributor sample_sqrt sample_ppf sample_self
              supply_agent st Hst) as (o & q & Hd & Ho & Hq).
  exists st. split; [exact Hst|].
  vm_compute in Hd. injection Hd as <- <-. split; [exact Ho|exact Hq].
Defined.

Lemma atoms_on_facility_record_witness :
  ∃ st, build_agent_state sample_sqrt sample_ppf sample_self facility_agent
        = Some st
    ∧ out_of_stock st = Some false
    ∧ low_profit st = Some true
    ∧ is_replenish_constraint st = Some false.
Proof.
  destruct facility_record_built as [st Hst].
  destruct (atoms_on_facility_record sample_sqrt sample_ppf sample_self
              facility_agent st Hst eq_refl) as (_ & _ & Ho & Hl & Hr).
  exists st. split; [exact Hst|]. split; [exact Ho|]. split; [exact Hl|].
  exact Hr.
Defined.

(** The record of the retail agent serializes, and so does the same record
    with another [global_time], to the same vector. *)
Lemma retail_record_serialized :
  is_Some (st ← build_agent_state sample_sqrt sample_ppf sample_self
                                  retail_agent;
           serialize_agent st).
Proof. apply (bool_decide_unpack _). vm_compute. exact I. Qed.

Lemma serialize_agent_reads_only_witness :
  ∃ st v,
    build_agent_state sample_sqrt sample_ppf sample_self retail_agent
    = Some st
    ∧ st !! "global_time" = Some (VNum 5%Q)
    ∧ serialize_agent st = Some v
    ∧ serialize_agent (<["global_time" := VNum 99%Q]> st) = Some v.
Proof.
  destruct retail_record_serialized as [v Hv].
  apply bind_Some_inv in Hv as (st & Hst & Hv).
  exists st, v. split; [exact Hst|]. split.
  { assert ((st ← build_agent_state sample_sqrt sample_ppf sample_self
                                    retail_agent; st !! "global_time")
            = Some (VNum 5%Q)) as Ht by (vm_compute; reflexivity).
    rewrite Hst in Ht. exact Ht. }
  split; [exact Hv|]. rewrite <- Hv.
  apply (serialize_agent_reads_only (<["global_time" := VNum 99%Q]> st) st).
  intros k Hk. apply lookup_insert_ne. intros <-. revert Hk.
  apply (bool_decide_unpack _). vm_compute. exact I.
Defined.

(** ** The state of all agents, agent by agent *)

(** [self] once the loop body of [_get_state] has refreshed the storage
    cache for one agent. *)
Definition refresh_storage (self : SCEnvWrapper) (a : AgentInfo)
  : option SCEnvWrapper :=
  facility ← facility_levels self !! a_facility_id a;
  st ← storage facility;
  let storage_index := node_index st in
  let storage_product_list :=
    ss_storage_product_list (env self) (tick (env self)) storage_index in
  let storage_product_number :=
    map Py.astype_int
        (ss_storage_product_number (env self) (tick (env self))
                                   storage_index) in
  Some (set_cur_storage self
          (Py.dict_of_zip storage_product_list storage_product_number)
          (foldl (λ d '(i, product_id), Py.dict_set d product_id i) []
                 (Py.enumerate storage_product_list))).

Lemma set_cur_storage_eta self :
  set_cur_storage self (_cur_facility_storage_products self)
                  (_cur_facility_storage_product_mapping self) = self.
Proof. by destruct self. Qed.

Section AllAgents.
Variable np_sqrt : Q → Q.
Variable norm_ppf : Q → Q.

(** The record the loop builds for one agent, given [self] with its
    metrics refreshed. *)
Definition record_of (self0 : SCEnvWrapper) (a : AgentInfo)
  : option RawState :=
  self_a ← refresh_storage self0 a;
  build_agent_state np_sqrt norm_ppf self_a a.

(** The record and the observation vector of one agent, computed on their
    own: metrics refreshed from the environment, storage cache refreshed
    for the agent's facility, record built and serialized. *)
Definition agent_record (self : SCEnvWrapper) (a : AgentInfo)
  : option RawState :=
  record_of (set_cur_metrics self (metrics (env self))) a.

Definition agent_vector (self : SCEnvWrapper) (a : AgentInfo)
  : option (list Q) :=
  st ← agent_record self a; serialize_agent st.

(** The loop body does not read the storage cache it is handed: it
    overwrites it first. *)
Lemma get_state_step_eq self0 ps mp state a :
  _get_state_step np_sqrt norm_ppf (set_cur_storage self0 ps mp, state) a
  = (self_a ← refresh_storage self0 a;
     st ← build_agent_state np_sqrt norm_ppf self_a a;
     Some (self_a,
           {| role_consumer := <[a_id a := st]> (role_consumer state);
              role_producer := <[a_id a := st]> (role_producer state) |})).
Proof.
  unfold _get_state_step, refresh_storage, build_agent_state.
  cbn [set_cur_storage facility_levels env].
  destruct (facility_levels self0 !! a_facility_id a) as [facility|]; [|done].
  cbn [mbind option_bind].
  destruct (storage facility) as [su|]; [|done].
  cbn [mbind option_bind]. cbn zeta.
  by destruct (_state _ _ _ _).
Qed.

Lemma refresh_storage_shape self0 a self_a :
  refresh_storage self0 a = Some self_a →
  ∃ ps mp, self_a = set_cur_storage self0 ps mp.
Proof.
  unfold refresh_storage. intros H. inv_bind H. inv_bind H.
  injection H as <-. eauto.
Qed.

Lemma get_state_loop self0 (agents : list AgentInfo) :
  ∀ ps mp state self' state',
    Py.foldM (_get_state_step np_sqrt norm_ppf) agents
             (set_cur_storage self0 ps mp, state) = Some (self', state') →
    (∃ ps' mp', self' = set_cur_storage self0 ps' mp')
    ∧ Forall (λ a, is_Some (record_of self0 a)) agents
    ∧ (∀ id, id ∉ a_id <$> agents →
             role_consumer state' !! id = role_consumer state !! id)
    ∧ (∀ id, id ∈ a_id <$> agents → is_Some (role_consumer state' !! id))
    ∧ (NoDup (a_id <$> agents) →
       ∀ a, a ∈ agents → role_consumer state' !! a_id a = record_of self0 a).
Proof.
  induction agents as [|a agents IH]; intros ps mp state self' state' H.
  - cbn [Py.foldM] in H. injection H as <- <-.
    split; [eauto|]. split; [constructor|]. split; [done|].
    split; [intros id Hid; by apply elem_of_nil in Hid|].
    intros _ a Ha. by apply elem_of_nil in Ha.
  - cbn [Py.foldM] in H. rewrite get_state_step_eq in H.
    apply bind_Some_inv in H as ([self1 state1] & Hstep & H).
    apply bind_Some_inv in Hstep as (self_a & Hra & Hstep).
    apply bind_Some_inv in Hstep as (st & Hst & Hstep).
    injection Hstep as <- <-.
    assert (record_of self0 a = Some st) as Hrec.
    { unfold record_of. rewrite Hra. done. }
    destruct (refresh_storage_shape _ _ _ Hra) as (ps1 & mp1 & ->).
    apply IH in H as (Hself & Hall & Hother & Hin & Hnd).
    cbn [role_consumer] in Hother.
    split; [done|]. split; [constructor; [by eexists|done]|].
    split; [|split].
    + intros id Hid. cbn [fmap list_fmap] in Hid.
      apply not_elem_of_cons in Hid as [Hne Hid].
      rewrite Hother by done. by rewrite lookup_insert_ne.
    + intros id Hid. cbn [fmap list_fmap] in Hid.
      destruct (decide (id ∈ a_id <$> agents)) as [Hi|Hi]; [by apply Hin|].
      apply elem_of_cons in Hid as [->|Hid]; [|done].
      rewrite Hother by done. rewrite lookup_insert_eq. by eexists.
    + intros Hno b Hb. cbn [fmap list_fmap] in Hno.
      apply NoDup_cons in Hno as [Hfresh Hno].
      apply elem_of_cons in Hb as [->|Hb].
      * rewrite Hother by done. rewrite lookup_insert_eq. done.
      * by apply Hnd.
Qed.

Lemma get_state_loop_total self0 (agents : list AgentInfo) :
  Forall (λ a, is_Some (record_of self0 a)) agents →
  ∀ ps mp state,
    is_Some (Py.foldM (_get_state_step np_sqrt norm_ppf) agents
                      (set_cur_storage self0 ps mp, state)).
Proof.
  induction agents as [|a agents IH]; intros Hall ps mp state.
  - by eexists.
  - apply Forall_cons in Hall as [[st Hst] Hall].
    cbn [Py.foldM]. rewrite get_state_step_eq.
    unfold record_of in Hst.
    apply bind_Some_inv in Hst as (self_a & Hra & Hst).
    rewrite Hra. cbn [mbind option_bind]. rewrite Hst.
    cbn [mbind option_bind].
    destruct (refresh_storage_shape _ _ _ Hra) as (ps1 & mp1 & ->).
    by apply IH.
Qed.

(** The loop of [_get_state], unfolded from the call. *)
Lemma get_state_inv self self' r :
  _get_state np_sqrt norm_ppf self = Some (self', r) →
  ∃ state,
    Py.foldM (_get_state_step np_sqrt norm_ppf) (_agent_list self)
      (set_cur_storage (set_cur_metrics self (metrics (env self)))
         (_cur_facility_storage_products self)
         (_cur_facility_storage_product_mapping self),
       {| role_consumer := ∅; role_producer := ∅ |})
    = Some (self', state)
    ∧ role_producer state = role_consumer state
    ∧ dict_mapM serialize_agent (role_consumer state) = Some (role_consumer r)
    ∧ role_producer r = role_consumer r.
Proof.
  intros H. pose proof (get_state_roles _ _ _ _ _ H) as Hroles.
  unfold _get_state in H.
  apply bind_Some_inv in H as ([self1 state] & Hloop & H).
  apply bind_Some_inv in H as (res & Hser & H). injection H as <- <-.
  pose proof (get_state_loop_roles _ _ _ _ _ Hloop eq_refl) as Hst.
  cbn [snd] in Hst.
  exists state. split; [exact Hloop|]. split; [done|].
  unfold _serialize_state in Hser.
  apply bind_Some_inv in Hser as (c & Hc & Hser).
  apply bind_Some_inv in Hser as (p & Hp & Hser). injection Hser as <-.
  cbn [role_consumer role_producer] in *. by split.
Qed.

(** X21.  [_get_state] leaves in [self] the metrics of the environment and
    touches, besides, only the storage cache; so a later [get_reward]
    computes from the metrics the environment had at this call. *)
Theorem get_state_refreshes_metrics self self' r :
  _get_state np_sqrt norm_ppf self = Some (self', r) →
  _cur_metrics self' = metrics (env self)
  ∧ env self' = env self
  ∧ facility_levels self' = facility_levels self
  ∧ unit_2_facility_dict self' = unit_2_facility_dict self
  ∧ _skus self' = _skus self
  ∧ _agent_list self' = _agent_list self
  ∧ state_info self' = state_info self
  ∧ ∀ t, get_reward self' t
         = get_reward (set_cur_metrics self (metrics (env self))) t.
Proof.
  intros H. apply get_state_inv in H as (state & Hloop & _).
  apply get_state_loop in Hloop as ((ps & mp & ->) & _).
  by repeat split.
Qed.

(** X22.  The result of [_get_state] has one vector per agent id of the agent
    list, under both roles, and none besides. *)
Theorem get_state_agents self self' r :
  _get_state np_sqrt norm_ppf self = Some (self', r) →
  dom (role_consumer r) = list_to_set (a_id <$> _agent_list self)
  ∧ dom (role_producer r) = list_to_set (a_id <$> _agent_list self).
Proof.
  intros H. apply get_state_inv in H as (state & Hloop & _ & Hser & ->).
  apply get_state_loop in Hloop as (_ & _ & Hother & Hin & _).
  cbn [role_consumer] in Hother.
  assert (dom (role_consumer r)
          = list_to_set (C := gset nat) (a_id <$> _agent_list self)) as Hd.
  { apply set_eq. intros id. rewrite elem_of_dom, elem_of_list_to_set.
    pose proof (dict_mapM_key_spec (λ _, serialize_agent)
                  (role_consumer state)) as Hspec.
    unfold dict_mapM in Hser. rewrite Hser in Hspec. rewrite Hspec.
    split.
    - intros Hsome.
      destruct (decide (id ∈ a_id <$> _agent_list self)) as [|Hn]; [done|].
      rewrite Hother, lookup_empty in Hsome by done. by destruct Hsome.
    - intros Hid. destruct (Hin id Hid) as [st Hst]. rewrite Hst.
      cbn [mbind option_bind].
      by eapply (dict_mapM_key_defined (λ _, serialize_agent)). }
  by split.
Qed.

(** X23.  With pairwise distinct agent ids, the vector [_get_state] returns for
    an agent is the one computed for that agent alone: the storage cache
    left by the agents handled before it does not leak into it. *)
Theorem get_state_vectors self self' r :
  _get_state np_sqrt norm_ppf self = Some (self', r) →
  NoDup (a_id <$> _agent_list self) →
  ∀ a, a ∈ _agent_list self →
    ∃ v, agent_vector self a = Some v
      ∧ role_consumer r !! a_id a = Some v
      ∧ role_producer r !! a_id a = Some v.
Proof.
  intros H Hnd a Ha.
  apply get_state_inv in H as (state & Hloop & _ & Hser & ->).
  apply get_state_loop in Hloop as (_ & Hall & _ & _ & Hrec).
  specialize (Hrec Hnd a Ha).
  rewrite Forall_forall in Hall. destruct (Hall a Ha) as [st Hst].
  rewrite Hst in Hrec.
  destruct (dict_mapM_key_defined (λ _, serialize_agent) _ _ Hser
              (a_id a) st Hrec) as [v Hv].
  exists v. unfold agent_vector, agent_record. rewrite Hst.
  cbn [mbind option_bind]. split; [done|].
  pose proof (dict_mapM_key_spec (λ _, serialize_agent)
                (role_consumer state)) as Hspec.
  unfold dict_mapM in Hser. rewrite Hser in Hspec.
  rewrite Hspec, Hrec. cbn [mbind option_bind]. by split.
Qed.

(** X24.  With pairwise distinct agent ids, [_get_state] returns exactly when
    the vector of every agent of the list can be computed. *)
Theorem get_state_returns_iff self :
  NoDup (a_id <$> _agent_list self) →
  is_Some (_get_state np_sqrt norm_ppf self)
  ↔ Forall (λ a, is_Some (agent_vector self a)) (_agent_list self).
Proof.
  intros Hnd. split.
  - intros [[self' r] H]. apply Forall_forall. intros a Ha.
    destruct (get_state_vectors self self' r H Hnd a Ha) as (v & Hv & _).
    by eexists.
  - intros Hall.
    assert (Forall (λ a, is_Some (record_of
              (set_cur_metrics self (metrics (env self))) a))
              (_agent_list self)) as Hrecs.
    { eapply Forall_impl; [exact Hall|]. intros a [v Hv].
      unfold agent_vector, agent_record in Hv.
      apply bind_Some_inv in Hv as (st & Hst & _). by eexists. }
    destruct (get_state_loop_total _ _ Hrecs
                (_cur_facility_storage_products self)
                (_cur_facility_storage_product_mapping self)
                {| role_consumer := ∅; role_producer := ∅ |})
      as [[self' state] Hloop].
    pose proof (get_state_loop_roles _ _ _ _ _ Hloop eq_refl) as Hroles.
    cbn [snd] in Hroles.
    pose proof (get_state_loop _ _ _ _ _ _ _ Hloop)
      as (_ & _ & Hother & _ & Hrec).
    cbn [role_consumer] in Hother.
    destruct (dict_mapM_key_Some (λ _, serialize_agent) (role_consumer state))
      as (c & Hc & _).
    { intros k st Hk.
      destruct (decide (k ∈ a_id <$> _agent_list self)) as [Hin|Hn].
      - apply list_elem_of_fmap in Hin as (a & -> & Ha).
        rewrite (Hrec Hnd a Ha) in Hk.
        rewrite Forall_forall in Hall. destruct (Hall a Ha) as [v Hv].
        unfold agent_vector, agent_record in Hv. rewrite Hk in Hv.
        by eexists.
      - by rewrite Hother, lookup_empty in Hk. }
    unfold _get_state.
    change (set_cur_metrics self (metrics (env self)))
      with (set_cur_storage (set_cur_metrics self (metrics (env self)))
              (_cur_facility_storage_products self)
              (_cur_facility_storage_product_mapping self)) at 2.
    cbn [_agent_list set_cur_metrics].
    rewrite Hloop. cbn [mbind option_bind]. unfold _serialize_state.
    rewrite <- Hroles. unfold dict_mapM. rewrite Hc.
    cbn [mbind option_bind]. by eexists.
Qed.

(** X25.  An agent whose facility is unknown, or has no storage unit, makes
    [_get_state] raise, whatever the other agents. *)
Theorem get_state_raises_without_storage self a :
  a ∈ _agent_list self →
  facility_levels self !! a_facility_id a ≫= storage = None →
  _get_state np_sqrt norm_ppf self = None.
Proof.
  intros Ha Hnone.
  destruct (_get_state np_sqrt norm_ppf self) as [[self' r]|] eqn:H; [|done].
  apply get_state_inv in H as (state & Hloop & _).
  apply get_state_loop in Hloop as (_ & Hall & _).
  rewrite Forall_forall in Hall. destruct (Hall a Ha) as [st Hst].
  unfold record_of, refresh_storage in Hst.
  cbn [set_cur_metrics facility_levels] in Hst.
  destruct (facility_levels self !! a_facility_id a) as [facility|];
    [|done].
  cbn [mbind option_bind] in Hnone, Hst. by rewrite Hnone in Hst.
Qed.

Lemma get_state_loop_restart self0 (agents : list AgentInfo) ps mp state
    self' state' :
  Py.foldM (_get_state_step np_sqrt norm_ppf) agents
           (set_cur_storage self0 ps mp, state) = Some (self', state') →
  Py.foldM (_get_state_step np_sqrt norm_ppf) agents (self', state)
  = Some (self', state').
Proof.
  intros H. destruct agents as [|a agents].
  - cbn [Py.foldM] in *. by injection H as <- <-.
  - pose proof (get_state_loop _ _ _ _ _ _ _ H) as ((ps' & mp' & ->) & _).
    cbn [Py.foldM] in *. rewrite get_state_step_eq in H.
    by rewrite get_state_step_eq.
Qed.

(** X26.  Asking for the state again, the environment unchanged, returns the
    same vectors and leaves [self] as it is. *)
Theorem get_state_idempotent self self' r :
  _get_state np_sqrt norm_ppf self = Some (self', r) →
  _get_state np_sqrt norm_ppf self' = Some (self', r).
Proof.
  intros H. pose proof H as H0.
  apply get_state_inv in H as (state & Hloop & _).
  pose proof (get_state_loop _ _ _ _ _ _ _ Hloop) as ((ps & mp & Hself) & _).
  apply get_state_loop_restart in Hloop.
  unfold _get_state in H0.
  apply bind_Some_inv in H0 as ([self1 state1] & Hloop0 & H0).
  pose proof (get_state_loop_restart
                (set_cur_metrics self (metrics (env self))) (_agent_list self)
                (_cur_facility_storage_products self)
                (_cur_facility_storage_product_mapping self) _ _ _ Hloop0)
    as Hre.
  assert (self1 = self') as ->.
  { apply bind_Some_inv in H0 as (res & _ & H0). by injection H0. }
  subst self'.
  assert (_get_state np_sqrt norm_ppf
            (set_cur_storage (set_cur_metrics self (metrics (env self))) ps mp)
          = ('(self1, state1) ←
               Py.foldM (_get_state_step np_sqrt norm_ppf) (_agent_list self)
                 (set_cur_storage (set_cur_metrics self (metrics (env self)))
                    ps mp,
                  {| role_consumer := ∅; role_producer := ∅ |});
             result ← _serialize_state state1;
             Some (self1, result))) as -> by reflexivity.
  rewrite Hre. exact H0.
Qed.
End AllAgents.

(** *** On the sample topology *)

Lemma sample_ids_distinct : NoDup (a_id <$> _agent_list fresh_self).
Proof. apply (bool_decide_unpack _). vm_compute. exact I. Defined.


Lemma get_state_refreshes_metrics_witness :
  ∃ self' r,
    _get_state sample_sqrt sample_ppf fresh_self = Some (self', r)
    ∧ _cur_metrics self' = sample_metrics
    ∧ facility_levels self' = facility_levels fresh_self.
Proof.
  destruct get_state_fresh_returns as [[self' r] H].
  exists self', r. split; [exact H|].
  destruct (get_state_refreshes_metrics sample_sqrt sample_ppf fresh_self
              self' r H) as (Hm & _ & Hf & _).
  split; [exact Hm|exact Hf].
Defined.

Lemma get_state_agents_witness :
  ∃ self' r,
    _get_state sample_sqrt sample_ppf fresh_self = Some (self', r)
    ∧ dom (role_consumer r) = list_to_set [2; 11; 22].
Proof.
  destruct get_state_fresh_returns as [[self' r] H].
  exists self', r. split; [exact H|].
  exact (proj1 (get_state_agents sample_sqrt sample_ppf fresh_self self' r H)).
Defined.

Lemma get_state_vectors_witness :
  ∃ self' r v,
    _get_state sample_sqrt sample_ppf fresh_self = Some (self', r)
    ∧ agent_vector sample_sqrt sample_ppf fresh_self retail_agent = Some v
    ∧ role_consumer r !! 11 = Some v.
Proof.
  destruct get_state_fresh_returns as [[self' r] H].
  destruct (get_state_vectors sample_sqrt sample_ppf fresh_self self' r H
              sample_ids_distinct retail_agent) as (v & Hv & Hc & _).
  { apply (list_elem_of_lookup_2 _ 1). reflexivity. }
  exists self', r, v. split; [exact H|]. split; [exact Hv|exact Hc].
Defined.

Lemma get_state_returns_iff_witness :
  Forall (λ a, is_Some (agent_vector sample_sqrt sample_ppf fresh_self a))
         (_agent_list fresh_self).
Proof.
  apply (get_state_returns_iff sample_sqrt sample_ppf fresh_self
           sample_ids_distinct).
  exact get_state_fresh_returns.
Defined.

(** The sample wrapper with one more agent, of a facility that the
    topology does not know. *)
Definition stray_agent : AgentInfo :=
{| a_id := 33; a_facility_id := 9; agent_type := 1; is_facility := false;
   a_sku := Some sku1 |}.

Definition stray_self : SCEnvWrapper :=
{| env := sample_env; _agent_types := [0; 1]; _skus := [sku1; sku2];
   _agent_list := [facility_agent; stray_agent; retail_agent];
   _cur_metrics := sample_metrics;
   _cur_facility_storage_products := [];
   _cur_facility_storage_product_mapping := [];
   _max_sources_per_facility := 1;
   facility_levels := {[ 1 := supplier; 2 := retailer ]};
   unit_2_facility_dict := unit_2_facility_dict fresh_self;
   state_info := None |}.

Lemma get_state_raises_without_storage_witness :
  _get_state sample_sqrt sample_ppf stray_self = None.
Proof.
  apply (get_state_raises_without_storage sample_sqrt sample_ppf stray_self
           stray_agent).
  - apply (list_elem_of_lookup_2 _ 1). reflexivity.
  - reflexivity.
Defined.

Lemma get_state_idempotent_witness :
  ∃ self' r,
    _get_state sample_sqrt sample_ppf fresh_self = Some (self', r)
    ∧ _get_state sample_sqrt sample_ppf self' = Some (self', r).
Proof.
  destruct get_state_fresh_returns as [[self' r] H].
  exists self', r. split; [exact H|].
  exact (get_state_idempotent sample_sqrt sample_ppf fresh_self self' r H).
Defined.

(** ** From the storage snapshot to the record *)






Section Snapshot.
Variable np_sqrt : Q → Q.
Variable norm_ppf : Q → Q.

End Snapshot.


(** * The initializer

    [SCEnvWrapper.__init__] reads [env.summary['node_mapping']] once and
    builds the two dictionaries every later call consults.  The summary is
    a nest of dictionaries; those that are iterated keep their order as
    association lists. *)

(** A unit summary: the argument of [UnitBaseInfo.__init__]. *)
Record UnitSummary := {
  us_id : nat;                          (* unit_summary["id"] *)
  us_node_index : nat;                  (* unit_summary["node_index"] *)
  us_config : option (gmap string Q);   (* unit_summary.get("config") *)
  us_fields : gmap string Q;            (* the numeric entries *)
}.

(** [UnitBaseInfo.__init__]: a missing "config" is the empty dictionary. *)
Definition UnitBaseInfo_init (unit_summary : UnitSummary) : UnitBaseInfo :=
{| unit_id := us_id unit_summary;
   node_index := us_node_index unit_summary;
   config := default ∅ (us_config unit_summary);
   summary := us_fields unit_summary |}.

(** An entry of [units["products"]]. *)
Record ProductSummary := {
  ps_unit : UnitSummary;
  ps_seller : option UnitSummary;       (* product['seller'], or None *)
  ps_consumer : option UnitSummary;
  ps_manufacture : option UnitSummary;
}.

(** An entry of [_summary["facilities"]]. *)
Record FacilitySummary := {
  fs_node_index : nat;
  fs_configs : gmap string Q;
  fs_upstreams : gmap nat (list nat);
  fs_skus : gmap nat Sku;
  fs_storage : option UnitSummary;      (* units["storage"], or None *)
  fs_distribution : option UnitSummary;
  fs_products : option (list (nat * ProductSummary));
}.

(** What the initializer reads from [env]. *)
Record EnvSetup := {
  es_env : Env;
  es_agent_types : list nat;            (* _summary["agent_types"] *)
  es_skus : list Sku;                   (* _summary["skus"].values() *)
  es_facilities : list (nat * FacilitySummary);
  es_agent_idx_list : list AgentInfo;   (* env.agent_idx_list *)
}.

(** [if unit is not None: self.unit_2_facility_dict[unit["id"]] = facility_id] *)
Definition register (unit_2_facility_dict : gmap nat nat)
    (unit : option UnitSummary) (facility_id : nat) : gmap nat nat :=
  match unit with
  | Some u => <[us_id u := facility_id]> unit_2_facility_dict
  | None => unit_2_facility_dict
  end.

(** The body of the loop over [products.items()]. *)
Definition init_product (facility_id : nat)
    (acc : gmap nat ProductInfo * gmap nat nat)
    (entry : nat * ProductSummary) : gmap nat ProductInfo * gmap nat nat :=
  let '(level, unit_2_facility_dict) := acc in
  let '(product_id, product) := entry in
  let unit_2_facility_dict :=
    <[us_id (ps_unit product) := facility_id]> unit_2_facility_dict in
  let unit_2_facility_dict :=
    register unit_2_facility_dict (ps_seller product) facility_id in
  let unit_2_facility_dict :=
    register unit_2_facility_dict (ps_consumer product) facility_id in
  let unit_2_facility_dict :=
    register unit_2_facility_dict (ps_manufacture product) facility_id in
  (<[product_id :=
      {| skuproduct := UnitBaseInfo_init (ps_unit product);
         seller := UnitBaseInfo_init <$> ps_seller product;
         consumer := UnitBaseInfo_init <$> ps_consumer product;
         manufacture := UnitBaseInfo_init <$> ps_manufacture product |}]>
     level,
   unit_2_facility_dict).

(** The body of the loop over [_summary["facilities"].items()];
    [if products:] skips both [None] and the empty dictionary. *)
Definition init_facility (acc : gmap nat FacilityLevel * gmap nat nat)
    (entry : nat * FacilitySummary) : gmap nat FacilityLevel * gmap nat nat :=
  let '(facility_levels, unit_2_facility_dict) := acc in
  let '(facility_id, facility) := entry in
  let unit_2_facility_dict :=
    register unit_2_facility_dict (fs_storage facility) facility_id in
  let unit_2_facility_dict :=
    register unit_2_facility_dict (fs_distribution facility) facility_id in
  let '(level, unit_2_facility_dict) :=
    foldl (init_product facility_id) (∅, unit_2_facility_dict)
          (default [] (fs_products facility)) in
  (<[facility_id :=
      {| f_node_index := fs_node_index facility;
         f_config := fs_configs facility;
         upstreams := fs_upstreams facility;
         f_skus := fs_skus facility;
         storage := UnitBaseInfo_init <$> fs_storage facility;
         distribution := UnitBaseInfo_init <$> fs_distribution facility;
         products := level |}]> facility_levels,
   unit_2_facility_dict).

(** [SCEnvWrapper.__init__].  The storage cache starts as [None] and [{}];
    nothing reads it before [_get_state] assigns it, so both are the empty
    list here.  [state_info] is not assigned. *)
Definition SCEnvWrapper_init (setup : EnvSetup) : SCEnvWrapper :=
  let '(facility_levels, unit_2_facility_dict) :=
    foldl init_facility (∅, ∅) (es_facilities setup) in
  {| env := es_env setup;
     _agent_types := es_agent_types setup;
     _skus := es_skus setup;
     _agent_list := es_agent_idx_list setup;
     _cur_metrics := metrics (es_env setup);
     _cur_facility_storage_products := [];
     _cur_facility_storage_product_mapping := [];
     _max_sources_per_facility :=
       max_sources_per_facility (metrics (es_env setup));
     facility_levels := facility_levels;
     unit_2_facility_dict := unit_2_facility_dict;
     state_info := None |}.

(** ** What the initializer registers *)

(** The ids of the units a product entry lists, and of those a facility
    lists, in the order the initializer meets them. *)
Definition product_unit_ids (product : ProductSummary) : list nat :=
  (us_id (ps_unit product)
   :: option_list (us_id <$> ps_seller product)
   ++ option_list (us_id <$> ps_consumer product)
   ++ option_list (us_id <$> ps_manufacture product))%list.

Definition facility_unit_ids (facility : FacilitySummary) : list nat :=
  (option_list (us_id <$> fs_storage facility)
   ++ option_list (us_id <$> fs_distribution facility)
   ++ flat_map (λ entry, product_unit_ids entry.2)
               (default [] (fs_products facility)))%list.

(** The assignments to [unit_2_facility_dict], in program order. *)
Definition facility_writes (entry : nat * FacilitySummary)
  : list (nat * nat) :=
  map (λ u, (u, entry.1)) (facility_unit_ids entry.2).

Definition all_writes (facilities : list (nat * FacilitySummary))
  : list (nat * nat) :=
  flat_map facility_writes facilities.

Definition write_all (m : gmap nat nat) (ws : list (nat * nat))
  : gmap nat nat :=
  foldl (λ m w, <[w.1 := w.2]> m) m ws.

Lemma write_all_app m ws1 ws2 :
  write_all m (ws1 ++ ws2) = write_all (write_all m ws1) ws2.
Proof. apply foldl_app. Qed.

Lemma register_write_all m (unit : option UnitSummary) fid :
  register m unit fid
  = write_all m (map (λ u, (u, fid)) (option_list (us_id <$> unit))).
Proof. by destruct unit. Qed.

(** The bundle the initializer stores for a product entry. *)
Definition bundle_of (product : ProductSummary) : ProductInfo :=
{| skuproduct := UnitBaseInfo_init (ps_unit product);
   seller := UnitBaseInfo_init <$> ps_seller product;
   consumer := UnitBaseInfo_init <$> ps_consumer product;
   manufacture := UnitBaseInfo_init <$> ps_manufacture product |}.

Definition bundles_of (level : gmap nat ProductInfo)
    (entries : list (nat * ProductSummary)) : gmap nat ProductInfo :=
  foldl (λ m entry, <[entry.1 := bundle_of entry.2]> m) level entries.

Lemma init_product_loop fid (entries : list (nat * ProductSummary)) :
  ∀ level m,
    foldl (init_product fid) (level, m) entries
    = (bundles_of level entries,
       write_all m (map (λ u, (u, fid))
                        (flat_map (λ entry, product_unit_ids entry.2)
                                  entries))).
Proof.
  induction entries as [|[pid product] entries IH]; intros level m; [done|].
  cbn [foldl init_product flat_map]. rewrite IH. f_equal.
  rewrite map_app, write_all_app. f_equal. unfold product_unit_ids.
  cbn [map snd]. unfold write_all at 1. cbn [foldl fst snd].
  fold (write_all (<[us_id (ps_unit product) := fid]> m)).
  rewrite !map_app, !write_all_app, !register_write_all.
  done.
Qed.

(** The level the initializer stores for a facility entry. *)
Definition level_of (facility : FacilitySummary) : FacilityLevel :=
{| f_node_index := fs_node_index facility;
   f_config := fs_configs facility;
   upstreams := fs_upstreams facility;
   f_skus := fs_skus facility;
   storage := UnitBaseInfo_init <$> fs_storage facility;
   distribution := UnitBaseInfo_init <$> fs_distribution facility;
   products := bundles_of ∅ (default [] (fs_products facility)) |}.

Lemma init_facility_eq levels m (entry : nat * FacilitySummary) :
  init_facility (levels, m) entry
  = (<[entry.1 := level_of entry.2]> levels,
     write_all m (facility_writes entry)).
Proof.
  destruct entry as [fid facility]. unfold init_facility.
  rewrite init_product_loop. cbn [fst snd]. f_equal.
  unfold facility_writes, facility_unit_ids. cbn [fst snd].
  rewrite !map_app, !write_all_app, !register_write_all. done.
Qed.

Definition levels_of (facilities : list (nat * FacilitySummary))
  : gmap nat FacilityLevel :=
  foldl (λ m entry, <[entry.1 := level_of entry.2]> m) ∅ facilities.

Lemma init_facility_loop (facilities : list (nat * FacilitySummary)) :
  ∀ levels m,
    foldl init_facility (levels, m) facilities
    = (foldl (λ m entry, <[entry.1 := level_of entry.2]> m) levels facilities,
       write_all m (all_writes facilities)).
Proof.
  induction facilities as [|entry facilities IH]; intros levels m; [done|].
  cbn [foldl]. rewrite init_facility_eq, IH. f_equal.
  unfold all_writes. cbn [flat_map]. by rewrite write_all_app.
Qed.

Lemma init_dictionaries setup :
  facility_levels (SCEnvWrapper_init setup) = levels_of (es_facilities setup)
  ∧ unit_2_facility_dict (SCEnvWrapper_init setup)
    = write_all ∅ (all_writes (es_facilities setup)).
Proof.
  unfold SCEnvWrapper_init. rewrite init_facility_loop. done.
Qed.

(** Lookups after a sequence of dictionary assignments. *)
Lemma foldl_insert_sound {V} (ws : list (nat * V)) :
  ∀ (m : gmap nat V) k v,
    foldl (λ m w, <[w.1 := w.2]> m) m ws !! k = Some v →
    (k, v) ∈ ws ∨ m !! k = Some v.
Proof.
  induction ws as [|[k' v'] ws IH]; intros m k v H; [by right|].
  cbn [foldl fst snd] in H. apply IH in H as [H|H].
  - left. by right.
  - destruct (decide (k' = k)) as [->|Hne].
    + rewrite lookup_insert_eq in H. injection H as ->. left. by left.
    + rewrite lookup_insert_ne in H by done. by right.
Qed.

Lemma foldl_insert_other_key {V} (ws : list (nat * V)) :
  ∀ (m : gmap nat V) k,
    k ∉ ws.*1 → foldl (λ m w, <[w.1 := w.2]> m) m ws !! k = m !! k.
Proof.
  induction ws as [|[k' v'] ws IH]; intros m k Hk; [done|].
  cbn [fmap list_fmap fst] in Hk. apply not_elem_of_cons in Hk as [Hne Hk].
  cbn [foldl fst snd]. rewrite IH by done. by rewrite lookup_insert_ne.
Qed.

Lemma foldl_insert_complete {V} (ws : list (nat * V)) :
  ∀ (m : gmap nat V) k v,
    NoDup ws.*1 → (k, v) ∈ ws →
    foldl (λ m w, <[w.1 := w.2]> m) m ws !! k = Some v.
Proof.
  induction ws as [|[k' v'] ws IH]; intros m k v Hnd Hin.
  - by apply elem_of_nil in Hin.
  - cbn [fmap list_fmap fst] in Hnd. apply NoDup_cons in Hnd as [Hfresh Hnd].
    cbn [foldl fst snd]. apply elem_of_cons in Hin as [[= -> ->]|Hin].
    + rewrite foldl_insert_other_key by done. by rewrite lookup_insert_eq.
    + by apply IH.
Qed.

Lemma foldl_insert_present {V} (ws : list (nat * V)) :
  ∀ (m : gmap nat V) k,
    is_Some (foldl (λ m w, <[w.1 := w.2]> m) m ws !! k)
    ↔ k ∈ ws.*1 ∨ is_Some (m !! k).
Proof.
  induction ws as [|[k' v'] ws IH]; intros m k.
  - cbn. split; [by right|]. intros [H|H]; [by apply elem_of_nil in H|done].
  - cbn [foldl fst snd fmap list_fmap]. rewrite IH, elem_of_cons.
    destruct (decide (k' = k)) as [->|Hne].
    + rewrite lookup_insert_eq. split; [intros _; by do 2 left|].
      intros _. right. by eexists.
    + rewrite lookup_insert_ne by done. split; [tauto|].
      intros [[->|?]|?]; [done|tauto..].
Qed.

Lemma elem_of_all_writes facilities u f :
  (u, f) ∈ all_writes facilities
  ↔ ∃ facility, (f, facility) ∈ facilities ∧ u ∈ facility_unit_ids facility.
Proof.
  unfold all_writes, facility_writes. rewrite list_elem_of_In, in_flat_map.
  split.
  - intros ([fid facility] & Hin & Hw). apply list_elem_of_In in Hin, Hw.
    cbn [fst snd] in Hw. change (map ?g ?l) with (g <$> l) in Hw.
    apply list_elem_of_fmap in Hw as (u' & [= -> ->] & Hu). eauto.
  - intros (facility & Hin & Hu). exists (f, facility).
    rewrite <- !list_elem_of_In. split; [done|]. cbn [fst snd].
    change (map ?g ?l) with (g <$> l). apply list_elem_of_fmap. eauto.
Qed.

(** X28.  Every entry of [unit_2_facility_dict] is backed by the summary: a unit
    id is mapped only to a facility that lists a unit of that id.  And when
    no two units of the summary share an id, every unit a facility lists,
    its storage, its distribution, its product units and their seller,
    consumer and manufacture sub-units, is mapped to that facility. *)
Theorem init_reverse_map setup :
  (∀ u f, unit_2_facility_dict (SCEnvWrapper_init setup) !! u = Some f →
          ∃ facility, (f, facility) ∈ es_facilities setup
                      ∧ u ∈ facility_unit_ids facility)
  ∧ (NoDup (all_writes (es_facilities setup)).*1 →
     ∀ f facility u,
       (f, facility) ∈ es_facilities setup →
       u ∈ facility_unit_ids facility →
       unit_2_facility_dict (SCEnvWrapper_init setup) !! u = Some f).
Proof.
  destruct (init_dictionaries setup) as [_ ->]. unfold write_all. split.
  - intros u f H. apply foldl_insert_sound in H as [H|H]; [|done].
    by apply elem_of_all_writes.
  - intros Hnd f facility u Hin Hu.
    apply foldl_insert_complete; [done|]. apply elem_of_all_writes. eauto.
Qed.

Lemma bundles_of_lookup (entries : list (nat * ProductSummary)) pid product :
  NoDup entries.*1 → (pid, product) ∈ entries →
  bundles_of ∅ entries !! pid = Some (bundle_of product).
Proof.
  intros Hnd Hin. unfold bundles_of.
  pose proof (foldl_insert_complete
    (map (λ entry, (entry.1, bundle_of entry.2)) entries) ∅ pid
    (bundle_of product)) as H.
  rewrite foldl_fmap in H. apply H.
  - change (map ?g ?l) with (g <$> l). by rewrite <- list_fmap_compose.
  - change (map ?g ?l) with (g <$> l). apply list_elem_of_fmap.
    by exists (pid, product).
Qed.

(** X29.  [facility_levels] has a level for exactly the facilities of the
    summary.  With pairwise distinct facility ids, the level of a facility
    copies its node index, configuration, upstreams and SKUs, and holds a
    storage or distribution unit exactly when the summary has one; with
    pairwise distinct product ids, each product entry gets a bundle whose
    seller, consumer and manufacture members are present exactly when the
    summary's are. *)
Theorem init_facility_levels setup :
  (∀ f, is_Some (facility_levels (SCEnvWrapper_init setup) !! f)
        ↔ f ∈ (es_facilities setup).*1)
  ∧ (NoDup (es_facilities setup).*1 →
     ∀ f facility, (f, facility) ∈ es_facilities setup →
       ∃ level,
         facility_levels (SCEnvWrapper_init setup) !! f = Some level
         ∧ f_node_index level = fs_node_index facility
         ∧ f_config level = fs_configs facility
         ∧ upstreams level = fs_upstreams facility
         ∧ f_skus level = fs_skus facility
         ∧ storage level = UnitBaseInfo_init <$> fs_storage facility
         ∧ distribution level = UnitBaseInfo_init <$> fs_distribution facility
         ∧ (NoDup (default [] (fs_products facility)).*1 →
            ∀ pid product,
              (pid, product) ∈ default [] (fs_products facility) →
              ∃ bundle,
                products level !! pid = Some bundle
                ∧ skuproduct bundle = UnitBaseInfo_init (ps_unit product)
                ∧ seller bundle = UnitBaseInfo_init <$> ps_seller product
                ∧ consumer bundle = UnitBaseInfo_init <$> ps_consumer product
                ∧ manufacture bundle
                  = UnitBaseInfo_init <$> ps_manufacture product)).
Proof.
  destruct (init_dictionaries setup) as [-> _]. unfold levels_of. split.
  - intros f.
    pose proof (foldl_insert_present
      (map (λ entry, (entry.1, level_of entry.2)) (es_facilities setup))
      ∅ f) as H.
    rewrite foldl_fmap in H. rewrite H. change (map ?g ?l) with (g <$> l).
    rewrite <- list_fmap_compose, lookup_empty.
    split; [intros [?|[? ?]]; done|by left].
  - intros Hnd f facility Hin. exists (level_of facility). split.
    + pose proof (foldl_insert_complete
        (map (λ entry, (entry.1, level_of entry.2)) (es_facilities setup))
        ∅ f (level_of facility)) as H.
      rewrite foldl_fmap in H. apply H.
      * change (map ?g ?l) with (g <$> l). by rewrite <- list_fmap_compose.
      * change (map ?g ?l) with (g <$> l). apply list_elem_of_fmap.
        by exists (f, facility).
    + do 6 (split; [done|]). intros Hnp pid product Hp.
      exists (bundle_of product). split; [|done].
      by apply bundles_of_lookup.
Qed.

(** ** The summary of the sample topology *)

Definition unit_summary (i n : nat) (c s : gmap string Q) : UnitSummary :=
{| us_id := i; us_node_index := n; us_config := Some c; us_fields := s |}.

Definition supplier_summary : FacilitySummary :=
{| fs_node_index := 0; fs_configs := ∅; fs_upstreams := ∅;
   fs_skus := {[ 1 := sku1_at_supplier ]};
   fs_storage := Some (unit_summary 20 1 {[ "capacity" := 200%Q ]} ∅);
   fs_distribution := Some (unit_summary 21 0 ∅ ∅);
   fs_products :=
     Some [(1, {| ps_unit := unit_summary 22 0 ∅ {[ "max_vlt" := 1%Q ]};
                  ps_seller := None; ps_consumer := None;
                  ps_manufacture := Some (unit_summary 23 0 ∅ ∅) |})] |}.

Definition retailer_summary : FacilitySummary :=
{| fs_node_index := 1; fs_configs := ∅; fs_upstreams := {[ 1 := [1] ]};
   fs_skus := {[ 1 := sku1 ]};
   fs_storage := Some (unit_summary 10 0 {[ "capacity" := 100%Q ]} ∅);
   fs_distribution := None;
   fs_products :=
     Some [(1, {| ps_unit := unit_summary 11 1 ∅ {[ "max_vlt" := 4%Q ]};
                  ps_seller := Some (unit_summary 13 0 ∅ ∅);
                  ps_consumer := Some (unit_summary 12 0 ∅ ∅);
                  ps_manufacture := None |})] |}.

Definition sample_setup : EnvSetup :=
{| es_env := sample_env; es_agent_types := [0; 1]; es_skus := [sku1; sku2];
   es_facilities := [(1, supplier_summary); (2, retailer_summary)];
   es_agent_idx_list := [facility_agent; retail_agent; supply_agent] |}.

(** The initializer run on this summary yields the wrapper the sample
    uses. *)
Example init_sample : SCEnvWrapper_init sample_setup = fresh_self.
Proof. vm_compute. reflexivity. Qed.

Lemma init_reverse_map_witness :
  (∃ facility, (2, facility) ∈ es_facilities sample_setup
               ∧ 12 ∈ facility_unit_ids facility)
  ∧ unit_2_facility_dict (SCEnvWrapper_init sample_setup) !! 23 = Some 1.
Proof.
  destruct (init_reverse_map sample_setup) as [Hsound Hcomplete]. split.
  - apply (Hsound 12 2). vm_compute. reflexivity.
  - apply (Hcomplete ltac:(apply (bool_decide_unpack _); vm_compute; exact I)
             1 supplier_summary 23).
    + left.
    + apply (bool_decide_unpack _). vm_compute. exact I.
Defined.

Lemma init_facility_levels_witness :
  ∃ level bundle,
    facility_levels (SCEnvWrapper_init sample_setup) !! 2 = Some level
    ∧ distribution level = None
    ∧ products level !! 1 = Some bundle
    ∧ manufacture bundle = None
    ∧ is_Some (consumer bundle).
Proof.
  destruct (init_facility_levels sample_setup) as [_ H].
  destruct (H ltac:(apply (bool_decide_unpack _); vm_compute; exact I)
              2 retailer_summary ltac:(right; left))
    as (level & Hl & _ & _ & _ & _ & _ & Hd & Hp).
  destruct (Hp ltac:(apply (bool_decide_unpack _); vm_compute; exact I)
              1 _ ltac:(left)) as (bundle & Hb & _ & _ & Hc & Hm).
  exists level, bundle. split; [exact Hl|]. split; [exact Hd|].
  split; [exact Hb|]. split; [exact Hm|]. rewrite Hc. by eexists.
Defined.

(** ** Actions on the wrapper the program builds *)

(** The initializer builds the wrapper without side table. *)
Lemma init_no_state_info (setup : EnvSetup) :
  state_info (SCEnvWrapper_init setup) = None.
Proof. unfold SCEnvWrapper_init. by destruct (foldl _ _ _). Qed.

(** [_get_state] hands on the side table as it found it. *)
Lemma get_state_keeps_state_info np_sqrt norm_ppf self self' r :
  _get_state np_sqrt norm_ppf self = Some (self', r) →
  state_info self' = state_info self.
Proof.
  intros H. apply get_state_inv in H as (state & Hloop & _).
  by apply get_state_loop in Hloop as ((ps & mp & ->) & _).
Qed.

(** C7.  The side table [state_info] is read by [get_action] and assigned
    by no method: the initializer builds the wrapper without it and
    [_get_state] does not add it.  So on the wrapper the initializer
    builds, and on the wrapper a state query hands on, [get_action] raises
    on every action map that is not empty, whatever its agent ids: no
    replenishment action and no production order is emitted. *)
Theorem C7_get_action_raises np_sqrt norm_ppf (setup : EnvSetup)
    (action_by_agent : gmap nat Q) :
  action_by_agent ≠ ∅ →
  get_action (SCEnvWrapper_init setup) action_by_agent = None
  ∧ ∀ self' r,
      _get_state np_sqrt norm_ppf (SCEnvWrapper_init setup) = Some (self', r) →
      get_action self' action_by_agent = None.
Proof.
  intros Hne. split.
  - apply get_action_no_table; [apply init_no_state_info|done].
  - intros self' r H. apply get_action_no_table; [|done].
    rewrite (get_state_keeps_state_info _ _ _ _ _ H).
    apply init_no_state_info.
Qed.

(** On the sample topology, for the retail agent 11, whose bundle has a
    consumer sub-unit: before and after a state query the action map
    [{11: 0.5}] makes [get_action] raise. *)
Lemma C7_get_action_raises_witness :
  get_action (SCEnvWrapper_init sample_setup) {[ 11 := 0.5%Q ]} = None
  ∧ ∃ self' r,
      _get_state sample_sqrt sample_ppf (SCEnvWrapper_init sample_setup)
      = Some (self', r)
      ∧ get_action self' {[ 11 := 0.5%Q ]} = None.
Proof.
  destruct (C7_get_action_raises sample_sqrt sample_ppf sample_setup
              {[ 11 := 0.5%Q ]} (map_non_empty_singleton _ _)) as [H0 H1].
  split; [exact H0|].
  rewrite init_sample. rewrite init_sample in H1.
  destruct get_state_fresh_returns as [[self' r] H].
  exists self', r. split; [exact H|]. exact (H1 self' r H).
Defined.

(** * The SKU data model

    [class SkuDataModel(DataModelBase)] of
    [maro/simulator/scenarios/supply_chain/datamodels/skumodel.py]: two
    node attributes kept in the simulator's frame, and two private fields
    from which [reset] restores them.  The base class is outside these
    files: what it keeps of a node is the type [Base], and its [reset] a
    function on the whole object.  A private field that no assignment has
    created yet is [None]; reading it raises [AttributeError]. *)

Module SkuModel.

Section SkuDataModel.
Variable Base : Type.

Record SkuDataModel := {
  base : Base;
  product_id : nat;                 (* NodeAttribute(AttributeType.UInt) *)
  product_unit_id : nat;            (* NodeAttribute(AttributeType.UInt) *)
  _product_id : option nat;
  _product_unit_id : option nat;
}.

(** [super(SkuDataModel, self).reset()] *)
Variable super_reset : SkuDataModel → SkuDataModel.

Definition reset (self : SkuDataModel) : option SkuDataModel :=
  let self := super_reset self in
  pid ← _product_id self;
  let self :=
    {| base := base self; product_id := pid;
       product_unit_id := product_unit_id self;
       _product_id := _product_id self;
       _product_unit_id := _product_unit_id self |} in
  puid ← _product_unit_id self;
  Some {| base := base self; product_id := product_id self;
          product_unit_id := puid;
          _product_id := _product_id self;
          _product_unit_id := _product_unit_id self |}.

Definition set_product_id (self : SkuDataModel)
    (product_id' product_unit_id' : nat) : SkuDataModel :=
  {| base := base self; product_id := product_id self;
     product_unit_id := product_unit_id self;
     _product_id := Some product_id';
     _product_unit_id := Some product_unit_id' |}.

(** [super(SkuDataModel, self).__int__()], which may raise. *)
Variable super_int : SkuDataModel → option SkuDataModel.

(** The method spelled [__int__]: the hook of [int(obj)], which the
    construction of an object does not call. *)
Definition __int__ (self : SkuDataModel) : option SkuDataModel :=
  self ← super_int self;
  Some {| base := base self; product_id := product_id self;
          product_unit_id := product_unit_id self;
          _product_id := Some 0; _product_unit_id := Some 0 |}.

(** The base class does not know the private fields. *)
Definition keeps_private_fields : Prop :=
  ∀ self, _product_id (super_reset self) = _product_id self
          ∧ _product_unit_id (super_reset self) = _product_unit_id self.

(** X30.  [set_product_id] alone leaves both node attributes as they are; the
    ids it records reach them at the next [reset], which then returns with
    exactly these ids, whatever the base class's reset did to the
    attributes, and keeps them recorded for the resets to come. *)
Theorem set_product_id_takes_effect_on_reset self pid puid :
  keeps_private_fields →
  product_id (set_product_id self pid puid) = product_id self
  ∧ product_unit_id (set_product_id self pid puid) = product_unit_id self
  ∧ ∃ self', reset (set_product_id self pid puid) = Some self'
      ∧ product_id self' = pid
      ∧ product_unit_id self' = puid
      ∧ ∃ self'', reset self' = Some self''
          ∧ product_id self'' = pid
          ∧ product_unit_id self'' = puid.
Proof.
  intros Hkeep. split; [done|]. split; [done|].
  assert (∀ m, _product_id m = Some pid → _product_unit_id m = Some puid →
               ∃ m', reset m = Some m'
                 ∧ product_id m' = pid ∧ product_unit_id m' = puid
                 ∧ _product_id m' = Some pid
                 ∧ _product_unit_id m' = Some puid) as Hreset.
  { intros m Hp Hu. unfold reset. destruct (Hkeep m) as [Hp' Hu'].
    rewrite Hp', Hp. cbn [mbind option_bind _product_unit_id].
    rewrite Hu', Hu. cbn [mbind option_bind]. eexists. by repeat split. }
  destruct (Hreset (set_product_id self pid puid) eq_refl eq_refl)
    as (m' & Hm' & H1 & H2 & H3 & H4).
  exists m'. split; [done|]. split; [done|]. split; [done|].
  destruct (Hreset m' H3 H4) as (m'' & Hm'' & H5 & H6 & _).
  exists m''. by repeat split.
Qed.

(** While a private field does not exist, [reset] raises. *)
Lemma reset_unset self :
  _product_id (super_reset self) = None → reset self = None.
Proof. unfold reset. by intros ->. Qed.

(** After [__int__], when it returns, [reset] restores both ids to 0. *)
Lemma reset_after_int self self' :
  keeps_private_fields → __int__ self = Some self' →
  ∃ self'', reset self' = Some self''
    ∧ product_id self'' = 0 ∧ product_unit_id self'' = 0.
Proof.
  intros Hkeep H. unfold __int__ in H. inv_bind H. injection H as <-.
  unfold reset. destruct (Hkeep
    {| base := base x; product_id := product_id x;
       product_unit_id := product_unit_id x;
       _product_id := Some 0; _product_unit_id := Some 0 |}) as [-> Hu].
  cbn [mbind option_bind _product_id _product_unit_id]. rewrite Hu.
  cbn [mbind option_bind]. eexists. by repeat split.
Qed.
End SkuDataModel.

Arguments base {Base} _.
Arguments product_id {Base} _.
Arguments product_unit_id {Base} _.
Arguments _product_id {Base} _.
Arguments _product_unit_id {Base} _.

(** A base reset that clears both node attributes. *)
Definition clearing_reset (self : SkuDataModel unit) : SkuDataModel unit :=
{| base := base self; product_id := 0; product_unit_id := 0;
   _product_id := _product_id self;
   _product_unit_id := _product_unit_id self |}.

Definition blank : SkuDataModel unit :=
{| base := tt; product_id := 0; product_unit_id := 0;
   _product_id := None; _product_unit_id := None |}.

Lemma set_product_id_takes_effect_on_reset_witness :
  product_id (set_product_id unit blank 4 17) = 0
  ∧ ∃ self', reset unit clearing_reset (set_product_id unit blank 4 17)
             = Some self'
      ∧ product_id self' = 4 ∧ product_unit_id self' = 17.
Proof.
  destruct (set_product_id_takes_effect_on_reset unit clearing_reset blank
              4 17) as (H1 & _ & self' & Hr & H2 & H3 & _).
  { intros self. split; reflexivity. }
  split; [exact H1|]. exists self'. split; [exact Hr|].
  split; [exact H2|exact H3].
Defined.

End SkuModel.

